(** * startupsp: identity resolution, submissions, ranking, publication and
    notification fan-out of the Startup Spark back office.

    The development is a shallow embedding of the TypeScript sources:
    - [App] (src/App.tsx): the auth-state callback;
    - [Scoreboard] (src/components/Scoreboard.tsx): [fetchScores];
    - [PhaseOneForm] (same file): [loadSubmissionData], [handleFileChange],
      [handleSubmit];
    - [UserDashboard] (same file): [loadDashboardData], [handleMemberUpdate],
      [handleProposalUpload], [startCountdown], [isSubmissionClosed];
    - [AdminDashboard]: [fetchData], [handleScoreSubmit], [publishResults];
    - [EmailDashboard] (src/components/admin/EmailDashboard.tsx):
      [fetchTeams], [handleSendWorkshopInvites];
    - [lib/emailService]: [generateETicket], [sendEmail],
      [sendWorkshopInvite].

    Firestore documents are untyped field maps, as the code sees them
    ([doc.data()] is [any]).  Handlers are written in a small
    state-and-exception monad over the component's React state and a world
    made of the document store, the object storage and a trace of the calls
    made to the collaborators.  Handlers run to completion one at a time;
    what they cannot control (failing uploads, failing mail, the clock)
    is an environment given to each run. *)

From Stdlib Require Import ZArith Lia Ascii String.
From stdpp Require Import gmap strings list fin_maps pretty sorting.

Open Scope string_scope.
Open Scope Z_scope.
Open Scope list_scope.

(** ** JavaScript values found in documents *)

(** A team member object: its fields are strings ([TeamMember] interface). *)
Abbreviation Member := (gmap string string).

(** The values a document field holds.  [undefined] is not a value: a field
    that is [undefined] is absent, and a property read is an [option Val].
    Numbers are integers (scores, flags); the sources never store a
    fractional number. *)
Inductive Val : Type :=
  | VStr (s : string)
  | VNum (n : Z)
  | VBool (b : bool)
  | VMembers (ms : list Member).

#[global] Instance Val_eq_dec : EqDecision Val.
Proof. solve_decision. Defined.

(** A Firestore document, a JS object used as a record. *)
Abbreviation Doc := (gmap string Val).

(** [a === b] on property reads.  Primitives compare by value; two arrays
    read from two documents are never the same object. *)
Definition strict_eq (a b : option Val) : bool :=
  match a, b with
  | None, None => true
  | Some (VStr s), Some (VStr t) => bool_decide (s = t)
  | Some (VNum n), Some (VNum m) => bool_decide (n = m)
  | Some (VBool x), Some (VBool y) => bool_decide (x = y)
  | _, _ => false
  end.

(** JS truthiness of a property read. *)
Definition truthy (a : option Val) : bool :=
  match a with
  | None => false
  | Some (VStr s) => negb (bool_decide (s = ""))
  | Some (VNum n) => negb (bool_decide (n = 0))
  | Some (VBool b) => b
  | Some (VMembers _) => true
  end.

(** [obj.k = v] where [v] is a property read: storing [undefined] leaves a
    property that reads as [undefined]. *)
Definition set_field (k : string) (v : option Val) (d : Doc) : Doc :=
  match v with
  | Some x => <[k := x]> d
  | None => delete k d
  end.

(** Object spread [{...a, ...b}]: the later operand wins. *)
Definition spread (a b : Doc) : Doc := b ∪ a.

(** ** The platform: document store, object storage, clock, transports *)

(** A browser [File]: only what the handlers read. *)
Record File := { file_name : string; file_type : string }.

(** The e-ticket PDF: the text the embedded code image carries and the
    lines printed on the page. *)
Record Ticket := { qrCode : list N; textLines : list string }.

(** A JS exception; [message] is what [err.message] reads. *)
Record Exn := Error { message : string }.

(** The document store: collection name, then document id. *)
Abbreviation Store := (gmap string (gmap string Doc)).

(** Effects a handler performs on its collaborators, logged when the call
    is made (so an attempt that fails is logged too). *)
Inductive Event : Type :=
  | EvGetDoc (coll id : string)
  | EvGetDocs (coll : string)
  | EvQuery (coll : string) (conds : list (string * Val))
  | EvSetDoc (coll id : string) (d : Doc)
  | EvSetDocMerge (coll id : string) (d : Doc)
  | EvUpdateDoc (coll id : string) (d : Doc)
  | EvUploadBytes (path : string)
  | EvGetDownloadURL (path : string)
  | EvQRCode (data : list N)
  | EvSendMail (to : option string) (subject html : string) (attachments : list Ticket).

(** What the handlers do not control: which uploads, code renderings and
    mail deliveries fail, the wall clock ([now], milliseconds since the
    epoch) and the browser's time zone ([timezoneOffset], minutes behind
    UTC as [Date.prototype.getTimezoneOffset] gives them).  The document
    store itself is reliable in this model: its calls fail only for the
    reason Firestore defines ([updateDoc] on a missing document).  A
    handler runs in one environment; where it evaluates [new Date()] a
    second time, the clock has moved by [lag] milliseconds since the first
    reading (no sign is assumed: the wall clock can be set back). *)
Record Env := {
  upload_fails : string → bool;
  url_fails : string → bool;
  qr_fails : list N → bool;
  transport_fails : option string → bool;
  now : Z;
  lag : Z;
  timezoneOffset : Z;
}.

Record World := {
  store : Store;
  bucket : gmap string File;
  trace : list Event;
}.

(** A running component: its React state [C] and the world. *)
Record Sys (C : Type) := MkSys { comp : C; world : World }.
Arguments MkSys {C} _ _.
Arguments comp {C} _.
Arguments world {C} _.

(** Handlers: state passing with exceptions.  A thrown exception keeps the
    state reached so far, as in JS. *)
Definition M (C A : Type) : Type := Sys C → (Exn + A) * Sys C.

#[global] Instance M_ret {C} : MRet (M C) := λ A a s, (inr a, s).
#[global] Instance M_bind {C} : MBind (M C) := λ A B f m s,
  match m s with
  | (inr a, s') => f a s'
  | (inl e, s') => (inl e, s')
  end.

Definition throw {C A} (e : Exn) : M C A := λ s, (inl e, s).

(** [try { body } catch (err) { handler(err) }] *)
Definition try_catch {C A} (body : M C A) (handler : Exn → M C A) : M C A :=
  λ s, match body s with
       | (inr a, s') => (inr a, s')
       | (inl e, s') => handler e s'
       end.

(** [try { body } finally { fin }] *)
Definition finally {C A} (body : M C A) (fin : M C unit) : M C A :=
  λ s, match body s with
       | (r, s') => match fin s' with
                    | (inr _, s'') => (r, s'')
                    | (inl e, s'') => (inl e, s'')
                    end
       end.

Definition get_comp {C} : M C C := λ s, (inr (comp s), s).
Definition modify_comp {C} (f : C → C) : M C unit :=
  λ s, (inr (), MkSys (f (comp s)) (world s)).
Definition get_world {C} : M C World := λ s, (inr (world s), s).
Definition modify_world {C} (f : World → World) : M C unit :=
  λ s, (inr (), MkSys (comp s) (f (world s))).

Definition emit {C} (ev : Event) : M C unit :=
  modify_world (λ w, {| store := store w; bucket := bucket w; trace := trace w ++ [ev] |}).

Definition put_store {C} (st : Store) : M C unit :=
  modify_world (λ w, {| store := st; bucket := bucket w; trace := trace w |}).

(** *** Firestore *)

Definition collection (st : Store) (coll : string) : gmap string Doc :=
  default ∅ (st !! coll).

Definition lookupDoc (st : Store) (coll id : string) : option Doc :=
  collection st coll !! id.

Definition writeDoc (st : Store) (coll id : string) (d : Doc)
    : Store :=
  <[coll := <[id := d]> (collection st coll)]> st.

(** The order of a query without [orderBy]: ascending document id, ids
    compared byte by byte. *)
Definition byId (a b : string * Doc) : Prop := String.leb a.1 b.1 = true.

#[global] Instance byId_dec (a b : string * Doc) : Decision (byId a b).
Proof. unfold byId. apply _. Defined.

#[global] Instance byId_total : Total byId.
Proof. intros a b. apply String.leb_total. Qed.

(** The documents of a collection with their ids, as a query returns
    them. *)
Definition docsOf (coll : gmap string Doc) : list (string * Doc) :=
  merge_sort byId (map_to_list coll).

(** [getDoc(doc(db, coll, id))]: [None] when [exists()] is false. *)
Definition getDoc {C} (coll id : string) : M C (option Doc) :=
  emit (EvGetDoc coll id);;
  w ← get_world;
  mret (lookupDoc (store w) coll id).

(** [getDocs(query(collection(db, coll)))]: the documents with their ids. *)
Definition getDocs {C} (coll : string) : M C (list (string * Doc)) :=
  emit (EvGetDocs coll);;
  w ← get_world;
  mret (docsOf (collection (store w) coll)).

(** [getDocs(query(collection(db, coll), where(k1, '==', v1), ...))] *)
Definition satisfies (conds : list (string * Val)) (d : Doc) : bool :=
  forallb (λ kv : string * Val, bool_decide (d !! kv.1 = Some kv.2)) conds.

Definition getDocsWhere {C} (coll : string) (conds : list (string * Val))
    : M C (list (string * Doc)) :=
  emit (EvQuery coll conds);;
  w ← get_world;
  mret (filter (λ qd : string * Doc, satisfies conds qd.2 = true)
               (docsOf (collection (store w) coll))).

(** [setDoc(ref, d)]: the document becomes exactly [d]. *)
Definition setDoc {C} (coll id : string) (d : Doc) : M C unit :=
  emit (EvSetDoc coll id d);;
  w ← get_world;
  put_store (writeDoc (store w) coll id d).

(** [setDoc(ref, d, { merge: true })]: the fields of [d] are written over
    the existing document, which is created when missing. *)
Definition setDocMerge {C} (coll id : string) (d : Doc) : M C unit :=
  emit (EvSetDocMerge coll id d);;
  w ← get_world;
  put_store (writeDoc (store w) coll id (spread (default ∅ (lookupDoc (store w) coll id)) d)).

(** [updateDoc(ref, d)]: as a merge, but the call is rejected with
    [not-found] when the document does not exist. *)
Definition updateDoc {C} (coll id : string) (d : Doc) : M C unit :=
  emit (EvUpdateDoc coll id d);;
  w ← get_world;
  match lookupDoc (store w) coll id with
  | Some old => put_store (writeDoc (store w) coll id (spread old d))
  | None => throw (Error ("No document to update: " +:+ coll +:+ "/" +:+ id))
  end.

(** *** Object storage *)

Definition downloadURL (path : string) : string :=
  "https://firebasestorage.googleapis.com/o/" +:+ path.

(** [uploadBytes(ref(storage, path), file)] *)
Definition uploadBytes {C} (env : Env) (path : string) (f : File) : M C unit :=
  emit (EvUploadBytes path);;
  if upload_fails env path
  then throw (Error "storage/unknown")
  else modify_world (λ w, {| store := store w; bucket := <[path := f]> (bucket w);
                            trace := trace w |}).

(** [getDownloadURL(ref(storage, path))] *)
Definition getDownloadURL {C} (env : Env) (path : string) : M C string :=
  emit (EvGetDownloadURL path);;
  if url_fails env path
  then throw (Error "storage/object-not-found")
  else mret (downloadURL path).

(** *** Clock: [new Date().toISOString()] *)

Definition digit (n : Z) : ascii := ascii_of_N (Z.to_N (48 + n `mod` 10)).

Fixpoint pad (width : nat) (n : Z) : string :=
  match width with
  | O => ""
  | S w => pad w (n `div` 10) +:+ String (digit n) ""
  end.

(** Civil date of a day count since 1970-01-01 (proleptic Gregorian). *)
Definition civil_from_days (days : Z) : Z * Z * Z :=
  let z := days + 719468 in
  let era := z `div` 146097 in
  let doe := z - era * 146097 in
  let yoe := (doe - doe `div` 1460 + doe `div` 36524 - doe `div` 146096) `div` 365 in
  let doy := doe - (365 * yoe + yoe `div` 4 - yoe `div` 100) in
  let mp := (5 * doy + 2) `div` 153 in
  let d := doy - (153 * mp + 2) `div` 5 + 1 in
  let m := if bool_decide (mp < 10) then mp + 3 else mp - 9 in
  let y := yoe + era * 400 + (if bool_decide (m ≤ 2) then 1 else 0) in
  (y, m, d).

(** [YYYY-MM-DDTHH:mm:ss.sssZ] of an instant in milliseconds since the
    epoch (years 0000 to 9999, the four-digit form). *)
Definition toISOString (ms : Z) : string :=
  let '(y, m, d) := civil_from_days (ms `div` 86400000) in
  let t := ms `mod` 86400000 in
  pad 4 y +:+ "-" +:+ pad 2 m +:+ "-" +:+ pad 2 d +:+ "T" +:+
  pad 2 (t `div` 3600000) +:+ ":" +:+ pad 2 ((t `div` 60000) `mod` 60) +:+ ":" +:+
  pad 2 ((t `div` 1000) `mod` 60) +:+ "." +:+ pad 3 (t `mod` 1000) +:+ "Z".

Definition nowISO (env : Env) : Val := VStr (toISOString (now env)).

(** A second [new Date().toISOString()] in the same handler. *)
Definition nowAgainISO (env : Env) : Val := VStr (toISOString (now env + lag env)).

(** ** JSON text of flat objects: [JSON.stringify] and [JSON.parse] *)

Module JSON.

(** A JS string is a sequence of UTF-16 code units. *)
Abbreviation jsstring := (list N).

Definition code_units (s : string) : list N := N_of_ascii <$> list_ascii_of_string s.

Definition is_lead (c : N) : bool := (0xD800 <=? c)%N && (c <=? 0xDBFF)%N.
Definition is_trail (c : N) : bool := (0xDC00 <=? c)%N && (c <=? 0xDFFF)%N.

Definition hexDigit (d : N) : N := if (d <? 10)%N then (48 + d)%N else (87 + d)%N.

(** [UnicodeEscape]: backslash, [u] and four lowercase hex digits. *)
Definition unicodeEscape (c : N) : list N :=
  [92; 117; hexDigit ((c / 4096) mod 16); hexDigit ((c / 256) mod 16);
   hexDigit ((c / 16) mod 16); hexDigit (c mod 16)]%N.

(** One code unit that is not the first half of a surrogate pair, as
    [QuoteJSONString] writes it. *)
Definition escapeUnit (c : N) : list N :=
  if (c =? 8)%N then [92; 98]%N
  else if (c =? 9)%N then [92; 116]%N
  else if (c =? 10)%N then [92; 110]%N
  else if (c =? 12)%N then [92; 102]%N
  else if (c =? 13)%N then [92; 114]%N
  else if (c =? 34)%N then [92; 34]%N
  else if (c =? 92)%N then [92; 92]%N
  else if (c <? 32)%N || is_lead c || is_trail c then unicodeEscape c
  else [c].

(** The characters between the quotes: a lead surrogate followed by a
    trail surrogate is one code point and is copied; a lone surrogate is
    escaped. *)
Fixpoint quoteChars (s : list N) : list N :=
  match s with
  | [] => []
  | c :: rest =>
      if is_lead c then
        match rest with
        | d :: rest' =>
            if is_trail d then c :: d :: quoteChars rest'
            else escapeUnit c ++ quoteChars rest
        | [] => escapeUnit c
        end
      else escapeUnit c ++ quoteChars rest
  end.

(** [QuoteJSONString] *)
Definition quote (s : list N) : list N := 34%N :: quoteChars s ++ [34%N].

(** [SerializeJSONObject] for string-valued properties: a property whose
    value is [undefined] is left out. *)
Definition member (kv : list N * list N) : list N := quote kv.1 ++ 58%N :: quote kv.2.

Fixpoint members (kvs : list (list N * list N)) : list N :=
  match kvs with
  | [] => []
  | [kv] => member kv
  | kv :: rest => member kv ++ 44%N :: members rest
  end.

Definition defined (props : list (list N * option (list N))) : list (list N * list N) :=
  omap (λ kv, (λ v, (kv.1, v)) <$> kv.2) props.

Definition stringify (props : list (list N * option (list N))) : list N :=
  123%N :: members (defined props) ++ [125%N].

(** Reading back. *)

Definition hexVal (c : N) : option N :=
  if (48 <=? c)%N && (c <=? 57)%N then Some (c - 48)%N
  else if (97 <=? c)%N && (c <=? 102)%N then Some (c - 87)%N
  else if (65 <=? c)%N && (c <=? 70)%N then Some (c - 55)%N
  else None.

Definition unescape (e : N) : option N :=
  if (e =? 34)%N then Some 34%N
  else if (e =? 92)%N then Some 92%N
  else if (e =? 47)%N then Some 47%N
  else if (e =? 98)%N then Some 8%N
  else if (e =? 102)%N then Some 12%N
  else if (e =? 110)%N then Some 10%N
  else if (e =? 114)%N then Some 13%N
  else if (e =? 116)%N then Some 9%N
  else None.

(** A string literal after its opening quote: the decoded string and the
    input left after the closing quote. *)
Fixpoint parseChars (s : list N) : option (list N * list N) :=
  match s with
  | [] => None
  | c :: rest =>
      if (c =? 34)%N then Some ([], rest)
      else if (c =? 92)%N then
        match rest with
        | [] => None
        | e :: rest1 =>
            if (e =? 117)%N then
              match rest1 with
              | h3 :: h2 :: h1 :: h0 :: rest2 =>
                  match hexVal h3, hexVal h2, hexVal h1, hexVal h0, parseChars rest2 with
                  | Some d3, Some d2, Some d1, Some d0, Some (str, out) =>
                      Some ((d3 * 4096 + d2 * 256 + d1 * 16 + d0)%N :: str, out)
                  | _, _, _, _, _ => None
                  end
              | _ => None
              end
            else
              match unescape e, parseChars rest1 with
              | Some v, Some (str, out) => Some (v :: str, out)
              | _, _ => None
              end
        end
      else if (c <? 32)%N then None
      else
        match parseChars rest with
        | Some (str, out) => Some (c :: str, out)
        | None => None
        end
  end.

Definition parseString (s : list N) : option (list N * list N) :=
  match s with
  | 34%N :: rest => parseChars rest
  | _ => None
  end.

(** The members of an object up to and including its closing brace, which
    must end the text. *)
Fixpoint parseMembers (fuel : nat) (s : list N) : option (list (list N * list N)) :=
  match fuel with
  | O => None
  | S fuel' =>
      '(k, s1) ← parseString s;
      match s1 with
      | 58%N :: s2 =>
          '(v, s3) ← parseString s2;
          match s3 with
          | [125%N] => Some [(k, v)]
          | 44%N :: s4 => ((k, v) ::.) <$> parseMembers fuel' s4
          | _ => None
          end
      | _ => None
      end
  end.

(** [JSON.parse] on the text of an object with string values, without
    white space: the object as a map, a repeated key keeping its last
    value. *)
Definition parse (s : list N) : option (gmap (list N) (list N)) :=
  match s with
  | 123%N :: [125%N] => Some ∅
  | 123%N :: rest => (λ kvs, list_to_map (reverse kvs)) <$> parseMembers (length rest) rest
  | _ => None
  end.

End JSON.

(** ** Strings: [toLowerCase], [includes], template literals *)

(** [toLowerCase] on 8-bit code units: A-Z and the Latin-1 capitals. *)
Definition lowerChar (c : ascii) : ascii :=
  let n := N_of_ascii c in
  if ((65 <=? n) && (n <=? 90) || (192 <=? n) && (n <=? 222) && negb (n =? 215))%N
  then ascii_of_N (n + 32) else c.

Fixpoint toLowerCase (s : string) : string :=
  match s with
  | EmptyString => EmptyString
  | String c s' => String (lowerChar c) (toLowerCase s')
  end.

(** [s.includes(t)] *)
Fixpoint includes (s t : string) : bool :=
  String.prefix t s ||
  match s with
  | EmptyString => false
  | String _ s' => includes s' t
  end.

(** A string-typed property inside a template literal. *)
Definition interpolate (o : option string) : string := default "undefined" o.

(** A property the signature declares [string], read from an untyped
    document.  A stored value of another type is outside the declared
    type and reads as absent here (the code would pass it on as it is: a
    number would be serialised as a number). *)
Definition as_string (v : option Val) : option string :=
  match v with
  | Some (VStr s) => Some s
  | _ => None
  end.

(** [for (const member of v)]: an array yields its elements, a string its
    characters (on which every property is [undefined]); anything else is
    not iterable. *)
Definition iterate (v : option Val) : option (list Member) :=
  match v with
  | Some (VMembers ms) => Some ms
  | Some (VStr s) => Some (replicate (String.length s) ∅)
  | _ => None
  end.

(** [for (const x of xs) { await body(x) }] *)
Fixpoint forEach {C A} (xs : list A) (body : A → M C unit) : M C unit :=
  match xs with
  | [] => mret ()
  | x :: xs' => body x;; forEach xs' body
  end.

(** ** Notification fan-out: lib/emailService *)

Module EmailService.

Record EventDetails := {
  date : string;
  venue : string;
  workshopTitle : option string;
}.

Record ETicketData := {
  teamName : option string;
  registrationId : option string;
  member : Member;
  eventDetails : EventDetails;
}.

Record WorkshopDetails := { wd_title : string; wd_date : string; wd_venue : string }.

(** [JSON.stringify({ regId: ..., name: ..., team: ... })] *)
Definition qrData (data : ETicketData) : list N :=
  JSON.stringify
    [ (JSON.code_units "regId", JSON.code_units <$> registrationId data);
      (JSON.code_units "name", JSON.code_units <$> (member data !! "name"));
      (JSON.code_units "team", JSON.code_units <$> teamName data) ].

(** What a scanner reads back from a ticket: [JSON.parse] of the text in
    the code, then the three properties. *)
Definition decodeTicket (t : Ticket)
    : option (option (list N) * option (list N) * option (list N)) :=
  (λ o : gmap (list N) (list N),
     (o !! JSON.code_units "regId", o !! JSON.code_units "name", o !! JSON.code_units "team"))
  <$> JSON.parse (qrCode t).

(** The page [generateETicket] composes; the code image is kept as the
    text it carries. *)
Definition ticketOf (data : ETicketData) : Ticket :=
  {| qrCode := qrData data;
     textLines :=
       [ "STARTUP SPARK 2025"; "E-Ticket";
         "Team: " +:+ interpolate (teamName data);
         "Registration ID: " +:+ interpolate (registrationId data);
         "Name: " +:+ interpolate (member data !! "name");
         "Email: " +:+ interpolate (member data !! "email");
         "Phone: " +:+ interpolate (member data !! "phone");
         "Event Details:";
         "Date: " +:+ date (eventDetails data);
         "Venue: " +:+ venue (eventDetails data) ]
       ++ match workshopTitle (eventDetails data) with
          | Some t => if bool_decide (t = "") then [] else ["Workshop: " +:+ t]
          | None => []
          end |}.

(** [const eTicketData: ETicketData = { ... }] in [sendWorkshopInvite] *)
Definition eTicketData (teamData : Doc) (wd : WorkshopDetails) (m : Member) : ETicketData :=
  {| teamName := as_string (teamData !! "teamName");
     registrationId := as_string (teamData !! "registrationId");
     member := m;
     eventDetails := {| date := wd_date wd; venue := wd_venue wd;
                        workshopTitle := Some (wd_title wd) |} |}.

Section WithEnv.
Context (env : Env) {C : Type}.

(** [generateETicket]: [QRCode.toDataURL] may reject its input (too much
    data for a code). *)
Definition generateETicket (data : ETicketData) : M C Ticket :=
  emit (EvQRCode (qrData data));;
  if qr_fails env (qrData data)
  then throw (Error "The amount of data is too big to be stored in a QR Code")
  else mret (ticketOf data).

(** [sendEmail]: a transport error is caught and reported as [false]. *)
Definition sendEmail (to : option string) (subject html : string)
    (attachments : list Ticket) : M C bool :=
  emit (EvSendMail to subject html attachments);;
  if transport_fails env to then mret false else mret true.

(** The invitation body (markup attributes and white space left out). *)
Definition inviteHtml (m : Member) (wd : WorkshopDetails) : string :=
  "<div><h1>Workshop Invitation</h1><p>Dear " +:+ interpolate (m !! "name") +:+ ",</p>" +:+
  "<p>You are invited to attend the following workshop as part of Startup Spark 2025:</p>" +:+
  "<div><h2>" +:+ wd_title wd +:+ "</h2><p><strong>Date:</strong> " +:+ wd_date wd +:+
  "</p><p><strong>Venue:</strong> " +:+ wd_venue wd +:+ "</p></div>" +:+
  "<p>Your e-ticket is attached to this email. Please bring a printed copy or show the " +:+
  "digital version at the venue.</p><p>Best regards,<br>Team Startup Spark</p></div>".

(** Body of the loop of [sendWorkshopInvite] for one member: the result of
    [sendEmail] is awaited and dropped. *)
Definition inviteMember (teamData : Doc) (wd : WorkshopDetails) (m : Member) : M C unit :=
  eTicketPdf ← generateETicket (eTicketData teamData wd m);
  sendEmail (m !! "email") ("Workshop Invitation: " +:+ wd_title wd)
            (inviteHtml m wd) [eTicketPdf];;
  mret ().

(** [sendWorkshopInvite]: [true] unless something threw. *)
Definition sendWorkshopInvite (teamData : Doc) (wd : WorkshopDetails) : M C bool :=
  try_catch
    (match iterate (teamData !! "members") with
     | Some ms => forEach ms (inviteMember teamData wd);; mret true
     | None => throw (Error "teamData.members is not iterable")
     end)
    (λ _, mret false).

End WithEnv.

End EmailService.

(** ** Notification fan-out: the admin's EmailDashboard *)

Module EmailDashboard.
Import EmailService.

Inductive FilterStatus := all | selected | pending.

#[global] Instance FilterStatus_eq_dec : EqDecision FilterStatus.
Proof. solve_decision. Defined.

Record State := {
  teams : list Doc;
  loading : bool;
  sending : bool;
  searchTerm : string;
  filterStatus : FilterStatus;
  workshopDetails : WorkshopDetails;
  success : string;
  error : string;
}.

Definition initialState : State := {|
  teams := []; loading := false; sending := false; searchTerm := "";
  filterStatus := all;
  workshopDetails := {| wd_title := ""; wd_date := ""; wd_venue := "" |};
  success := ""; error := "" |}.

Definition setTeams (v : list Doc) (c : State) : State :=
  {| teams := v; loading := loading c; sending := sending c; searchTerm := searchTerm c;
     filterStatus := filterStatus c; workshopDetails := workshopDetails c;
     success := success c; error := error c |}.
Definition setLoading (v : bool) (c : State) : State :=
  {| teams := teams c; loading := v; sending := sending c; searchTerm := searchTerm c;
     filterStatus := filterStatus c; workshopDetails := workshopDetails c;
     success := success c; error := error c |}.
Definition setSending (v : bool) (c : State) : State :=
  {| teams := teams c; loading := loading c; sending := v; searchTerm := searchTerm c;
     filterStatus := filterStatus c; workshopDetails := workshopDetails c;
     success := success c; error := error c |}.
Definition setSearchTerm (v : string) (c : State) : State :=
  {| teams := teams c; loading := loading c; sending := sending c; searchTerm := v;
     filterStatus := filterStatus c; workshopDetails := workshopDetails c;
     success := success c; error := error c |}.
Definition setFilterStatus (v : FilterStatus) (c : State) : State :=
  {| teams := teams c; loading := loading c; sending := sending c; searchTerm := searchTerm c;
     filterStatus := v; workshopDetails := workshopDetails c;
     success := success c; error := error c |}.
Definition setWorkshopDetails (v : WorkshopDetails) (c : State) : State :=
  {| teams := teams c; loading := loading c; sending := sending c; searchTerm := searchTerm c;
     filterStatus := filterStatus c; workshopDetails := v;
     success := success c; error := error c |}.
Definition setSuccess (v : string) (c : State) : State :=
  {| teams := teams c; loading := loading c; sending := sending c; searchTerm := searchTerm c;
     filterStatus := filterStatus c; workshopDetails := workshopDetails c;
     success := v; error := error c |}.
Definition setError (v : string) (c : State) : State :=
  {| teams := teams c; loading := loading c; sending := sending c; searchTerm := searchTerm c;
     filterStatus := filterStatus c; workshopDetails := workshopDetails c;
     success := success c; error := v |}.

(** [v?.toLowerCase().includes(term.toLowerCase())]: [undefined] when the
    property is missing, a [TypeError] when it is not a string. *)
Definition fieldIncludes (v : option Val) (term : string) : Exn + bool :=
  match v with
  | None => inr false
  | Some (VStr s) => inr (includes (toLowerCase s) (toLowerCase term))
  | Some _ => inl (Error "toLowerCase is not a function")
  end.

(** The search predicate of [fetchTeams]; [||] evaluates its right operand
    only when the left one is falsy. *)
Definition matchesSearch (term : string) (team : Doc) : Exn + bool :=
  match fieldIncludes (team !! "teamName") term with
  | inl e => inl e
  | inr true => inr true
  | inr false => fieldIncludes (team !! "registrationId") term
  end.

(** [filterStatus === 'selected' ? team.phase2Selected : !team.phase2Selected] *)
Definition matchesStatus (f : FilterStatus) (team : Doc) : bool :=
  if decide (f = selected) then truthy (team !! "phase2Selected")
  else negb (truthy (team !! "phase2Selected")).

(** [xs.filter(p)] for a predicate that may throw. *)
Fixpoint filterThrowing {A} (p : A → Exn + bool) (xs : list A) : Exn + list A :=
  match xs with
  | [] => inr []
  | x :: xs' =>
      match p x with
      | inl e => inl e
      | inr b =>
          match filterThrowing p xs' with
          | inl e => inl e
          | inr ys => inr (if b then x :: ys else ys)
          end
      end
  end.

Definition liftExn {C A} (r : Exn + A) : M C A :=
  match r with
  | inl e => throw e
  | inr a => mret a
  end.

(** [fetchTeams] *)
Definition fetchTeams : M State unit :=
  finally
    (try_catch
       (modify_comp (setLoading true);;
        c ← get_comp;
        snapshot ← getDocs "teams";
        let teamsData := (λ qd : string * Doc, spread {["id" := VStr qd.1]} qd.2) <$> snapshot in
        teamsData ← (if bool_decide (searchTerm c = "") then mret teamsData
                     else liftExn (filterThrowing (matchesSearch (searchTerm c)) teamsData));
        let teamsData := if decide (filterStatus c = all) then teamsData
                         else filter (λ t, matchesStatus (filterStatus c) t = true) teamsData in
        modify_comp (setTeams teamsData))
       (λ _, modify_comp (setError "Failed to fetch teams")))
    (modify_comp (setLoading false)).

(** The loop of [handleSendWorkshopInvites] with its two counters. *)
Fixpoint sendAll (env : Env) (ts : list Doc) (wd : WorkshopDetails) (counts : Z * Z)
    : M State (Z * Z) :=
  match ts with
  | [] => mret counts
  | team :: ts' =>
      ok ← sendWorkshopInvite env team wd;
      sendAll env ts' wd (if ok : bool then (counts.1 + 1, counts.2) else (counts.1, counts.2 + 1))
  end.

(** [`${n}`] for a number. *)
Definition showZ (n : Z) : string := pretty n.

Definition successMessage (counts : Z * Z) : string :=
  "Successfully sent " +:+ showZ counts.1 +:+ " invites" +:+
  (if bool_decide (counts.2 > 0) then ", " +:+ showZ counts.2 +:+ " failed" else "").

(** [handleSendWorkshopInvites]: returns the counters it reported, or
    [None] when the workshop details are incomplete. *)
Definition handleSendWorkshopInvites (env : Env) : M State (option (Z * Z)) :=
  c ← get_comp;
  let wd := workshopDetails c in
  if bool_decide (wd_title wd = "") || bool_decide (wd_date wd = "") || bool_decide (wd_venue wd = "")
  then modify_comp (setError "Please fill in all workshop details");; mret None
  else
    finally
      (try_catch
         (modify_comp (setSending true);;
          counts ← sendAll env (teams c) wd (0, 0);
          modify_comp (setSuccess (successMessage counts));;
          mret (Some counts))
         (λ _, modify_comp (setError "Failed to send invites");; mret None))
      (modify_comp (setSending false)).

(** What the admin does between mount and dispatch.  The effect
    [useEffect(() => { fetchTeams() }, [searchTerm, filterStatus])] runs
    [fetchTeams] after mount and after every change of either value;
    handlers run to completion one at a time. *)
Inductive Action :=
  | TypeSearch (term : string)
  | ChooseStatus (f : FilterStatus)
  | EditWorkshop (wd : WorkshopDetails).

Definition act (a : Action) : M State unit :=
  match a with
  | TypeSearch term =>
      c ← get_comp;
      if bool_decide (searchTerm c = term) then mret ()
      else modify_comp (setSearchTerm term);; fetchTeams
  | ChooseStatus f =>
      c ← get_comp;
      if bool_decide (filterStatus c = f) then mret ()
      else modify_comp (setFilterStatus f);; fetchTeams
  | EditWorkshop wd => modify_comp (setWorkshopDetails wd)
  end.

Definition mount : M State unit := fetchTeams.

Definition session (actions : list Action) : M State unit :=
  mount;; forEach actions act.

End EmailDashboard.

(** ** Ranking Engine: [fetchScores] of Scoreboard.tsx *)

Module Scoreboard.

(** One element of [snapshot.docs]: the document id and [doc.data()]. *)
Definition QueryDoc : Type := string * Doc.

(** [.filter(doc => doc.data().points !== undefined)] *)
Definition scored (qd : QueryDoc) : bool :=
  negb (strict_eq (qd.2 !! "points") None).

(** [.map(doc => ({ id: doc.id, ...doc.data(), rank, score: doc.data().points }))]
    with [let rank = 1] in scope. *)
Definition toTeamScore (rank : Z) (qd : QueryDoc) : Doc :=
  set_field "score" (qd.2 !! "points")
    (<["rank" := VNum rank]> (spread {["id" := VStr qd.1]} qd.2)).

(** Body of the loop at index [i]: the array is updated in place, so the
    rank read at [i-1] is the one the previous iteration wrote. *)
Definition assignRank (scoresData : list Doc) (i : nat) : list Doc :=
  match scoresData !! i, scoresData !! (i - 1)%nat with
  | Some cur, Some prev =>
      if strict_eq (cur !! "score") (prev !! "score")
      then <[i := set_field "rank" (prev !! "rank") cur]> scoresData
      else <[i := <["rank" := VNum (Z.of_nat i + 1)]> cur]> scoresData
  | _, _ => scoresData
  end.

(** [for (let i = 1; i < scoresData.length; i++) { ... }] *)
Definition assignRanks (scoresData : list Doc) : list Doc :=
  foldl assignRank scoresData (seq 1 (length scoresData - 1)).

(** The value passed to [setScores]. *)
Definition rankSnapshot (snapshot : list QueryDoc) : list Doc :=
  assignRanks (toTeamScore 1 <$> filter (λ qd, scored qd = true) snapshot).

(** Component state. *)
Record State := {
  scores : list Doc;
  resultsPublished : bool;
  loading : bool;
}.

Definition initialState : State :=
  {| scores := []; resultsPublished := false; loading := true |}.

(** [fetchScores]: [config] is the collection read by
    [getDocs(collection(db, 'config'))], [snapshot] the result of the
    [orderBy('points', 'desc')] query on [phase1_submissions]. *)
Definition fetchScores (config : gmap string Doc) (snapshot : list QueryDoc)
    (st : State) : State :=
  let resultsConfig := config !! "phase1Results" in
  if truthy (resultsConfig ≫= (.!! "published"))
  then {| scores := rankSnapshot snapshot; resultsPublished := true; loading := false |}
  else {| scores := scores st; resultsPublished := resultsPublished st; loading := false |}.

(** Projections used in the statements. *)
Definition rankOf (d : Doc) : option Val := d !! "rank".
Definition scoreOf (d : Doc) : option Val := d !! "score".
Definition pointsOf (qd : QueryDoc) : option Val := qd.2 !! "points".

(** State of the array after the iterations [1..k]. *)
Definition ranked_upto (l0 l : list Doc) (k : nat) : Prop :=
  length l = length l0 ∧
  (∀ j d, l !! j = Some d → ∃ d0, l0 !! j = Some d0 ∧ scoreOf d = scoreOf d0 ∧
                                  ((k < j)%nat ∨ j = 0%nat → d = d0)) ∧
  (∀ j cur prev, (j < k)%nat → l !! S j = Some cur → l !! j = Some prev →
     rankOf cur = if strict_eq (scoreOf cur) (scoreOf prev)
                  then rankOf prev else Some (VNum (Z.of_nat (S j) + 1))).

(** The spec's example as query result: six scored teams, already in the
    order the [orderBy('points', 'desc')] query returns them. *)
Definition exampleSnapshot : list QueryDoc :=
  [ ("t1", {["teamName" := VStr "Alpha"; "points" := VNum 90]});
    ("t2", {["teamName" := VStr "Beta"; "points" := VNum 90]});
    ("t3", {["teamName" := VStr "Gamma"; "points" := VNum 80]});
    ("t4", {["teamName" := VStr "Delta"; "points" := VNum 70]});
    ("t5", {["teamName" := VStr "Epsilon"; "points" := VNum 70]});
    ("t6", {["teamName" := VStr "Zeta"; "points" := VNum 70]}) ].

End Scoreboard.

(** ** Reading handler runs *)

(** The effects of a run as data: [m] returns [r] and only appends [evs]
    to the trace, whatever state it starts from. *)
Definition appended (w : World) (evs : list Event) : World :=
  {| store := store w; bucket := bucket w; trace := trace w ++ evs |}.

Definition emits {C A} (m : M C A) (evs : list Event) (r : Exn + A) : Prop :=
  ∀ s, m s = (r, MkSys (comp s) (appended (world s) evs)).

(** The same environment with another mail transport. *)
Definition with_transport (tf : option string → bool) (env : Env) : Env :=
  {| upload_fails := upload_fails env; url_fails := url_fails env;
     qr_fails := qr_fails env; transport_fails := tf; now := now env; lag := lag env;
     timezoneOffset := timezoneOffset env |}.

(** An environment in which nothing fails and the clock stands still. *)
Definition reliable (t : Z) : Env :=
  {| upload_fails := λ _, false; url_fails := λ _, false; qr_fails := λ _, false;
     transport_fails := λ _, false; now := t; lag := 0; timezoneOffset := 0 |}.

Definition emptyWorld : World := {| store := ∅; bucket := ∅; trace := [] |}.

(** The calls that write to the document store. *)
Definition isWrite (ev : Event) : bool :=
  match ev with
  | EvSetDoc _ _ _ | EvSetDocMerge _ _ _ | EvUpdateDoc _ _ _ => true
  | _ => false
  end.

Definition writes (tr : list Event) : list Event := filter (λ ev, isWrite ev = true) tr.

(** An upload that does not complete: the bytes or the URL. *)
Definition uploadFails (env : Env) (path : string) : Prop :=
  upload_fails env path = true ∨ url_fails env path = true.

Definition storageDown (t : Z) : Env :=
  {| upload_fails := λ _, true; url_fails := λ _, false; qr_fails := λ _, false;
     transport_fails := λ _, false; now := t; lag := 0; timezoneOffset := 0 |}.

Module FanOut.
Import EmailService EmailDashboard.

(** The mail a member is sent. *)
Definition inviteMail (teamData : Doc) (wd : WorkshopDetails) (m : Member) : Event :=
  EvSendMail (m !! "email") ("Workshop Invitation: " +:+ wd_title wd) (inviteHtml m wd)
             [ticketOf (eTicketData teamData wd m)].

(** Effects of inviting the members [ms] of a team, and whether the loop
    ran to its end: a member's code that cannot be rendered stops it, a
    mail that cannot be delivered does not. *)
Fixpoint membersEvents (env : Env) (teamData : Doc) (wd : WorkshopDetails) (ms : list Member)
    : list Event * bool :=
  match ms with
  | [] => ([], true)
  | m :: ms' =>
      let q := qrData (eTicketData teamData wd m) in
      if qr_fails env q then ([EvQRCode q], false)
      else let rest := membersEvents env teamData wd ms' in
           (EvQRCode q :: inviteMail teamData wd m :: rest.1, rest.2)
  end.

Definition inviteEvents (env : Env) (wd : WorkshopDetails) (teamData : Doc) : list Event * bool :=
  match iterate (teamData !! "members") with
  | Some ms => membersEvents env teamData wd ms
  | None => ([], false)
  end.

(** The two counters after a list of per-team results. *)
Definition tally (counts : Z * Z) (oks : list bool) : Z * Z :=
  foldl (λ c (ok : bool), if ok then (c.1 + 1, c.2) else (c.1, c.2 + 1)) counts oks.

Definition complete (wd : WorkshopDetails) : Prop :=
  wd_title wd ≠ "" ∧ wd_date wd ≠ "" ∧ wd_venue wd ≠ "".

(** The team list as the dashboard's search box and status filter narrow
    it: the search keeps a team whose name or registration id contains the
    term, case-insensitively, and is not applied for an empty term. *)
Definition searchHit (term : string) (team : Doc) : bool :=
  match as_string (team !! "teamName") with
  | Some s => includes (toLowerCase s) (toLowerCase term)
  | None => false
  end ||
  match as_string (team !! "registrationId") with
  | Some s => includes (toLowerCase s) (toLowerCase term)
  | None => false
  end.

Definition registeredTeams (st : Store) : list Doc :=
  (λ qd : string * Doc, spread {["id" := VStr qd.1]} qd.2) <$> docsOf (collection st "teams").

(** The status filter in the same words: "all" keeps every team,
    "selected" the teams selected for phase 2, "pending" the others. *)
Definition selectedForPhase2 (team : Doc) : bool := truthy (team !! "phase2Selected").

Definition keptByStatus (f : FilterStatus) (team : Doc) : bool :=
  match f with
  | all => true
  | selected => selectedForPhase2 team
  | pending => negb (selectedForPhase2 team)
  end.

Definition narrowed (st : Store) (term : string) (f : FilterStatus)
    : list Doc :=
  let bySearch := if bool_decide (term = "") then registeredTeams st
                  else filter (λ t, searchHit term t = true) (registeredTeams st) in
  filter (λ t, keptByStatus f t = true) bySearch.

(** Team names and registration ids are strings where present. *)
Definition stringOrAbsent (v : option Val) : Prop :=
  match v with
  | None | Some (VStr _) => True
  | Some _ => False
  end.

#[global] Instance stringOrAbsent_dec (v : option Val) : Decision (stringOrAbsent v).
Proof. destruct v as [[]|]; cbn; apply _. Defined.

Definition wellTypedTeams (st : Store) : Prop :=
  map_Forall (λ (_ : string) (d : Doc),
                stringOrAbsent (d !! "teamName") ∧ stringOrAbsent (d !! "registrationId"))
             (collection st "teams").

(** The dashboard shows the narrowed list and has written nothing. *)
Definition inSync (st : Store) (s : Sys State) : Prop :=
  store (world s) = st ∧
  teams (comp s) = narrowed st (searchTerm (comp s)) (filterStatus (comp s)).

(** A team of three; the transport fails for the second member only. *)
Definition trio : Doc :=
  {[ "teamName" := VStr "Rocket"; "registrationId" := VStr "SS25-007";
     "members" := VMembers
       [ {[ "name" := "Asha"; "email" := "asha@example.org"; "phone" := "1" ]};
         {[ "name" := "Bo"; "email" := "bo@example.org"; "phone" := "2" ]};
         {[ "name" := "Chen"; "email" := "chen@example.org"; "phone" := "3" ]} ] ]}.

Definition boBounces : Env :=
  with_transport (λ to, bool_decide (to = Some "bo@example.org")) (reliable 1740000000000).

Definition workshop : WorkshopDetails :=
  {| wd_title := "Pitching"; wd_date := "2025-03-20T10:00"; wd_venue := "Hall A" |}.

Definition trioDashboard : Sys State :=
  MkSys (setWorkshopDetails workshop (setTeams [trio] initialState)) emptyWorld.

(** Two registered teams, one of them selected for phase 2. *)
Definition comet : Doc :=
  {[ "teamName" := VStr "Comet"; "registrationId" := VStr "SS25-008";
     "members" := VMembers [ {[ "name" := "Dee"; "email" := "dee@example.org"; "phone" := "4" ]} ] ]}.

Definition twoTeams : World :=
  {| store := {[ "teams" := {[ "u1" := <["phase2Selected" := VBool true]> trio; "u2" := comet ]} ]};
     bucket := ∅; trace := [] |}.

Definition adminActions : list Action :=
  [TypeSearch "ss25"; ChooseStatus selected; EditWorkshop workshop].

End FanOut.

(** ** Identity Resolver: the auth-state callback of App.tsx *)

Module App.

(** The signed-in principal handed over by the identity provider. *)
Record User := { uid : string; email : option string; displayName : option string }.

Inductive PaymentStatus := pending | paid.

#[global] Instance PaymentStatus_eq_dec : EqDecision PaymentStatus.
Proof. solve_decision. Defined.

Definition ADMIN_CREDENTIALS_email : string := "admin@edcrec.com".
Definition ADMIN_2_CREDENTIALS_email : string := "finance@edcrec.com".

Record State := {
  isAuthenticated : bool;
  isAdmin : bool;
  isFinanceAdmin : bool;
  currentUser : option Doc;
  paymentStatus : PaymentStatus;
  loading : bool;
}.

(** [useState] initial values. *)
Definition initialState : State :=
  {| isAuthenticated := false; isAdmin := false; isFinanceAdmin := false;
     currentUser := None; paymentStatus := pending; loading := true |}.

Definition setIsAuthenticated (v : bool) (c : State) : State :=
  {| isAuthenticated := v; isAdmin := isAdmin c; isFinanceAdmin := isFinanceAdmin c;
     currentUser := currentUser c; paymentStatus := paymentStatus c; loading := loading c |}.
Definition setIsAdmin (v : bool) (c : State) : State :=
  {| isAuthenticated := isAuthenticated c; isAdmin := v; isFinanceAdmin := isFinanceAdmin c;
     currentUser := currentUser c; paymentStatus := paymentStatus c; loading := loading c |}.
Definition setIsFinanceAdmin (v : bool) (c : State) : State :=
  {| isAuthenticated := isAuthenticated c; isAdmin := isAdmin c; isFinanceAdmin := v;
     currentUser := currentUser c; paymentStatus := paymentStatus c; loading := loading c |}.
Definition setCurrentUser (v : option Doc) (c : State) : State :=
  {| isAuthenticated := isAuthenticated c; isAdmin := isAdmin c;
     isFinanceAdmin := isFinanceAdmin c;
     currentUser := v; paymentStatus := paymentStatus c; loading := loading c |}.
Definition setPaymentStatus (v : PaymentStatus) (c : State) : State :=
  {| isAuthenticated := isAuthenticated c; isAdmin := isAdmin c;
     isFinanceAdmin := isFinanceAdmin c;
     currentUser := currentUser c; paymentStatus := v; loading := loading c |}.
Definition setLoading (v : bool) (c : State) : State :=
  {| isAuthenticated := isAuthenticated c; isAdmin := isAdmin c;
     isFinanceAdmin := isFinanceAdmin c;
     currentUser := currentUser c; paymentStatus := paymentStatus c; loading := v |}.

(** [{ id: user.uid, name: user.displayName || 'User' }] *)
Definition minimalProfile (user : User) : Doc :=
  {[ "id" := VStr (uid user);
     "name" := VStr (match displayName user with
                     | Some n => if bool_decide (n = "") then "User" else n
                     | None => "User"
                     end) ]}.

(** The payment check of a regular user, after [userDoc] was read. *)
Definition checkPayment (user : User) (userDoc : option Doc) : M State unit :=
  teamDoc ← getDoc "teams" (uid user);
  match teamDoc with
  | Some teamData =>
      if strict_eq (teamData !! "paymentStatus") (Some (VStr "paid"))
      then modify_comp (setPaymentStatus paid)
      else
        let userEmail := match userDoc with
                         | Some d => d !! "email"
                         | None => VStr <$> email user
                         end in
        match userEmail with
        | Some e =>
            if truthy userEmail then
              querySnapshot ← getDocsWhere "payments" [("email", e); ("status", VStr "paid")];
              if bool_decide (querySnapshot = [])
              then modify_comp (setPaymentStatus pending)
              else modify_comp (setPaymentStatus paid)
            else mret ()
        | None => mret ()
        end
  | None => mret ()
  end.

(** The callback given to [onAuthStateChanged]. *)
Definition onAuthStateChanged (user : option User) : M State unit :=
  modify_comp (setLoading true);;
  match user with
  | Some user =>
      if bool_decide (email user = Some ADMIN_CREDENTIALS_email) then
        modify_comp (setIsAdmin true);; modify_comp (setIsFinanceAdmin false);;
        modify_comp (setIsAuthenticated true);; modify_comp (setCurrentUser None);;
        modify_comp (setLoading false)
      else if bool_decide (email user = Some ADMIN_2_CREDENTIALS_email) then
        modify_comp (setIsAdmin false);; modify_comp (setIsFinanceAdmin true);;
        modify_comp (setIsAuthenticated true);; modify_comp (setCurrentUser None);;
        modify_comp (setLoading false)
      else
        try_catch
          (userDoc ← getDoc "users" (uid user);
           modify_comp (setCurrentUser (Some match userDoc with
             | Some d => spread {["id" := VStr (uid user)]} d
             | None => minimalProfile user
             end));;
           checkPayment user userDoc;;
           modify_comp (setIsAuthenticated true);;
           modify_comp (setIsAdmin false);;
           modify_comp (setIsFinanceAdmin false))
          (λ _, modify_comp (setCurrentUser (Some (minimalProfile user)));;
                modify_comp (setIsAuthenticated true));;
        modify_comp (setLoading false)
  | None =>
      modify_comp (setIsAuthenticated false);; modify_comp (setIsAdmin false);;
      modify_comp (setIsFinanceAdmin false);; modify_comp (setCurrentUser None);;
      modify_comp (setLoading false)
  end.

(** Neither of the two administrative addresses. *)
Definition participant (user : User) : Prop :=
  email user ≠ Some ADMIN_CREDENTIALS_email ∧ email user ≠ Some ADMIN_2_CREDENTIALS_email.

(** The payment log was consulted during a run. *)
Definition consultsPayments (ev : Event) : bool :=
  match ev with
  | EvQuery coll _ | EvGetDocs coll | EvGetDoc coll _ => bool_decide (coll = "payments")
  | _ => false
  end.

(** A paid record for [e] in the payment log. *)
Definition paidRecord (st : Store) (e : Val) : bool :=
  bool_decide (filter (λ qd : string * Doc,
                         satisfies [("email", e); ("status", VStr "paid")] qd.2 = true)
                      (docsOf (collection st "payments")) ≠ []).

(** The precedence as the specification words it: a paid team, else the
    profile's stored email falling back to the principal's, looked up in
    the payment log, else pending. *)
Definition specPaymentStatus (st : Store) (user : User) : PaymentStatus :=
  let team := lookupDoc st "teams" (uid user) in
  let profile := lookupDoc st "users" (uid user) in
  if strict_eq (team ≫= (.!! "paymentStatus")) (Some (VStr "paid")) then paid
  else
    let emailToCheck := match profile ≫= (.!! "email") with
                        | Some e => Some e
                        | None => VStr <$> email user
                        end in
    match emailToCheck with
    | Some e => if paidRecord st e then paid else pending
    | None => pending
    end.

(** The email the code checks: the profile's when a profile record
    exists, the principal's only when none does. *)
Definition emailChecked (st : Store) (user : User) : option Val :=
  match lookupDoc st "users" (uid user) with
  | Some d => d !! "email"
  | None => VStr <$> email user
  end.

(** A paying member whose profile record stores no email. *)
Definition asha : User :=
  {| uid := "u1"; email := Some "asha@example.org"; displayName := Some "Asha" |}.

Definition ashaStore : Store :=
  {[ "users" := {[ "u1" := {[ "name" := VStr "Asha" ]} ]};
     "teams" := {[ "u1" := {[ "teamName" := VStr "Rocket"; "paymentStatus" := VStr "pending" ]} ]};
     "payments" := {[ "p1" := {[ "email" := VStr "asha@example.org"; "status" := VStr "paid" ]} ]} ]}.

Definition ashaSignsIn : Sys State :=
  MkSys initialState {| store := ashaStore; bucket := ∅; trace := [] |}.

(** A team already marked paid, and a log without a paid record. *)
Definition paidTeamStore : Store :=
  {[ "users" := {[ "u1" := {[ "name" := VStr "Asha"; "email" := VStr "asha@example.org" ]} ]};
     "teams" := {[ "u1" := {[ "teamName" := VStr "Rocket"; "paymentStatus" := VStr "paid" ]} ]};
     "payments" := {[ "p1" := {[ "email" := VStr "asha@example.org"; "status" := VStr "pending" ]} ]} ]}.

End App.

(** ** Scoring Workflow: AdminDashboard *)

Module AdminDashboard.

Record ScoreData := { sd_points : Z; sd_review : string }.

Record State := {
  submissions : list Doc;
  loading : bool;
  error : string;
  success : string;
  publishing : bool;
  editingScore : option string;
  scoreData : ScoreData;
}.

Definition initialState : State :=
  {| submissions := []; loading := true; error := ""; success := ""; publishing := false;
     editingScore := None; scoreData := {| sd_points := 0; sd_review := "" |} |}.

Definition setSubmissions (v : list Doc) (c : State) : State :=
  {| submissions := v; loading := loading c; error := error c; success := success c;
     publishing := publishing c; editingScore := editingScore c; scoreData := scoreData c |}.
Definition setLoading (v : bool) (c : State) : State :=
  {| submissions := submissions c; loading := v; error := error c; success := success c;
     publishing := publishing c; editingScore := editingScore c; scoreData := scoreData c |}.
Definition setError (v : string) (c : State) : State :=
  {| submissions := submissions c; loading := loading c; error := v; success := success c;
     publishing := publishing c; editingScore := editingScore c; scoreData := scoreData c |}.
Definition setSuccess (v : string) (c : State) : State :=
  {| submissions := submissions c; loading := loading c; error := error c; success := v;
     publishing := publishing c; editingScore := editingScore c; scoreData := scoreData c |}.
Definition setPublishing (v : bool) (c : State) : State :=
  {| submissions := submissions c; loading := loading c; error := error c; success := success c;
     publishing := v; editingScore := editingScore c; scoreData := scoreData c |}.
Definition setEditingScore (v : option string) (c : State) : State :=
  {| submissions := submissions c; loading := loading c; error := error c; success := success c;
     publishing := publishing c; editingScore := v; scoreData := scoreData c |}.
Definition setScoreData (v : ScoreData) (c : State) : State :=
  {| submissions := submissions c; loading := loading c; error := error c; success := success c;
     publishing := publishing c; editingScore := editingScore c; scoreData := v |}.

(** [fetchData]: the submissions the dashboard knows. *)
Definition fetchData : M State unit :=
  finally
    (try_catch
       (modify_comp (setLoading true);;
        snapshot ← getDocs "phase1_submissions";
        modify_comp (setSubmissions
          ((λ qd : string * Doc, spread {["id" := VStr qd.1]} qd.2) <$> snapshot)))
       (λ _, modify_comp (setError "Failed to fetch submissions")))
    (modify_comp (setLoading false)).

(** [handleScoreSubmit] *)
Definition handleScoreSubmit (env : Env) (submissionId : string) : M State unit :=
  finally
    (try_catch
       (modify_comp (setLoading true);;
        c ← get_comp;
        updateDoc "phase1_submissions" submissionId
          {[ "points" := VNum (sd_points (scoreData c));
             "review" := VStr (sd_review (scoreData c));
             "reviewedAt" := nowISO env ]};;
        modify_comp (setEditingScore None);;
        modify_comp (setScoreData {| sd_points := 0; sd_review := "" |});;
        fetchData;;
        modify_comp (setSuccess "Score updated successfully"))
       (λ _, modify_comp (setError "Failed to update score")))
    (modify_comp (setLoading false)).

(** [submissions.filter(sub => sub.points === undefined)] *)
Definition unscored (subs : list Doc) : list Doc :=
  filter (λ sub : Doc, strict_eq (sub !! "points") None = true) subs.

Definition publishedFlag (env : Env) : Doc :=
  {[ "published" := VBool true; "publishedAt" := nowISO env ]}.

(** [publishResults].  The source comments the write with "Create the
    phase1Results document if it doesn't exist" and calls [updateDoc] in
    both branches. *)
Definition publishResults (env : Env) : M State unit :=
  finally
    (try_catch
       (modify_comp (setPublishing true);;
        c ← get_comp;
        (if bool_decide (0 < length (unscored (submissions c)))%nat
         then throw (Error "All submissions must be scored before publishing results")
         else mret ());;
        configDoc ← getDoc "config" "phase1Results";
        match configDoc with
        | None => updateDoc "config" "phase1Results" (publishedFlag env)
        | Some _ => updateDoc "config" "phase1Results" (publishedFlag env)
        end;;
        modify_comp (setSuccess "Results published successfully!"))
       (λ err, modify_comp (setError (if bool_decide (message err = "")
                                      then "Failed to publish results" else message err))))
    (modify_comp (setPublishing false)).

(** [ResultsConfig.published] as the store has it. *)
Definition published (st : Store) : bool :=
  truthy (lookupDoc st "config" "phase1Results" ≫= (.!! "published")).

(** One submission, scored; no [config/phase1Results] document yet. *)
Definition allScoredNoConfig : Sys State :=
  let sub : Doc := {[ "teamName" := VStr "Rocket"; "points" := VNum 80 ]} in
  MkSys (setLoading false (setSubmissions [spread {["id" := VStr "u1"]} sub] initialState))
        {| store := {[ "phase1_submissions" := {[ "u1" := sub ]} ]}; bucket := ∅; trace := [] |}.

(** The spec's example: A scored 80, B not scored. *)
Definition oneUnscored : Sys State :=
  let a : Doc := {[ "teamName" := VStr "A"; "points" := VNum 80 ]} in
  let b : Doc := {[ "teamName" := VStr "B" ]} in
  MkSys (setLoading false (setSubmissions [spread {["id" := VStr "a"]} a;
                                           spread {["id" := VStr "b"]} b] initialState))
        {| store := {[ "phase1_submissions" := {[ "a" := a; "b" := b ]};
                       "config" := {[ "phase1Results" := {[ "published" := VBool false ]} ]} ]};
           bucket := ∅; trace := [] |}.

End AdminDashboard.

(** ** Submission Lifecycle Engine, phase 1: PhaseOneForm *)

Module PhaseOneForm.

Record State := {
  formData : Doc;
  loading : bool;
  error : string;
  success : string;
  file : option File;
  isSubmitted : bool;
  initialLoading : bool;
  results : option Doc;
  showScoreboard : bool;
  recStudent : Doc;
}.

Definition initialState : State := {|
  formData := {[ "teamName" := VStr ""; "collegeName" := VStr ""; "whatsappNumber" := VStr "";
                 "productDescription" := VStr ""; "solution" := VStr ""; "fileUrl" := VStr "";
                 "youtubeLink" := VStr ""; "registrationId" := VStr "" ]};
  loading := false; error := ""; success := ""; file := None; isSubmitted := false;
  initialLoading := true; results := None; showScoreboard := false;
  recStudent := {[ "rollNumber" := VStr ""; "department" := VStr ""; "year" := VStr "" ]} |}.

Definition setFormData (f : Doc → Doc) (c : State) : State :=
  {| formData := f (formData c); loading := loading c; error := error c; success := success c;
     file := file c; isSubmitted := isSubmitted c; initialLoading := initialLoading c;
     results := results c; showScoreboard := showScoreboard c; recStudent := recStudent c |}.
Definition setLoading (v : bool) (c : State) : State :=
  {| formData := formData c; loading := v; error := error c; success := success c;
     file := file c; isSubmitted := isSubmitted c; initialLoading := initialLoading c;
     results := results c; showScoreboard := showScoreboard c; recStudent := recStudent c |}.
Definition setError (v : string) (c : State) : State :=
  {| formData := formData c; loading := loading c; error := v; success := success c;
     file := file c; isSubmitted := isSubmitted c; initialLoading := initialLoading c;
     results := results c; showScoreboard := showScoreboard c; recStudent := recStudent c |}.
Definition setSuccess (v : string) (c : State) : State :=
  {| formData := formData c; loading := loading c; error := error c; success := v;
     file := file c; isSubmitted := isSubmitted c; initialLoading := initialLoading c;
     results := results c; showScoreboard := showScoreboard c; recStudent := recStudent c |}.
Definition setFile (v : option File) (c : State) : State :=
  {| formData := formData c; loading := loading c; error := error c; success := success c;
     file := v; isSubmitted := isSubmitted c; initialLoading := initialLoading c;
     results := results c; showScoreboard := showScoreboard c; recStudent := recStudent c |}.
Definition setIsSubmitted (v : bool) (c : State) : State :=
  {| formData := formData c; loading := loading c; error := error c; success := success c;
     file := file c; isSubmitted := v; initialLoading := initialLoading c;
     results := results c; showScoreboard := showScoreboard c; recStudent := recStudent c |}.
Definition setInitialLoading (v : bool) (c : State) : State :=
  {| formData := formData c; loading := loading c; error := error c; success := success c;
     file := file c; isSubmitted := isSubmitted c; initialLoading := v;
     results := results c; showScoreboard := showScoreboard c; recStudent := recStudent c |}.
Definition setResults (v : option Doc) (c : State) : State :=
  {| formData := formData c; loading := loading c; error := error c; success := success c;
     file := file c; isSubmitted := isSubmitted c; initialLoading := initialLoading c;
     results := v; showScoreboard := showScoreboard c; recStudent := recStudent c |}.
Definition setShowScoreboard (v : bool) (c : State) : State :=
  {| formData := formData c; loading := loading c; error := error c; success := success c;
     file := file c; isSubmitted := isSubmitted c; initialLoading := initialLoading c;
     results := results c; showScoreboard := v; recStudent := recStudent c |}.
Definition setRecStudent (v : Doc) (c : State) : State :=
  {| formData := formData c; loading := loading c; error := error c; success := success c;
     file := file c; isSubmitted := isSubmitted c; initialLoading := initialLoading c;
     results := results c; showScoreboard := showScoreboard c; recStudent := v |}.

(** [v || ''] *)
Definition orEmpty (v : option Val) : Val :=
  match v with
  | Some x => if truthy v then x else VStr ""
  | None => VStr ""
  end.

Definition pptx : string :=
  "application/vnd.openxmlformats-officedocument.presentationml.presentation".

(** Two documents that differ at most in the video link and the update
    time. *)
Definition sameButVideo (d d' : Doc) : Prop :=
  ∀ k : string, k ≠ "youtubeLink" → k ≠ "updatedAt" → d' !! k = d !! k.

Section WithProps.
Context (userId userName : string).

(** [loadSubmissionData], run once when the form mounts. *)
Definition loadSubmissionData : M State unit :=
  finally
    (try_catch
       (teamDoc ← getDoc "teams" userId;
        match teamDoc with
        | Some teamData =>
            modify_comp (setFormData (λ prev,
              <["registrationId" := orEmpty (teamData !! "registrationId")]>
                (<["teamName" := orEmpty (teamData !! "teamName")]> prev)))
        | None => mret ()
        end;;
        configDoc ← getDoc "config" "phase1Results";
        let isPublished := truthy (configDoc ≫= (.!! "published")) in
        (if isPublished then modify_comp (setShowScoreboard true) else mret ());;
        submissionDoc ← getDoc "phase1_submissions" userId;
        match submissionDoc with
        | Some data =>
            modify_comp (setFormData (λ prev, spread prev data));;
            modify_comp (setIsSubmitted true);;
            if isPublished && negb (strict_eq (data !! "points") None)
            then modify_comp (setResults (Some
                   (set_field "reviewedAt" (data !! "reviewedAt")
                      (set_field "review" (data !! "review")
                         (set_field "points" (data !! "points") ∅)))))
            else mret ()
        | None => mret ()
        end;;
        recStudentDoc ← getDoc "rec_students" userId;
        match recStudentDoc with
        | Some d => modify_comp (setRecStudent d)
        | None => mret ()
        end)
       (λ _, modify_comp (setError "Failed to load your submission data")))
    (modify_comp (setInitialLoading false)).

(** [handleFileChange], with [e.target.files] as a list. *)
Definition handleFileChange (files : list File) : M State unit :=
  c ← get_comp;
  if isSubmitted c
  then modify_comp (setError "You cannot modify your submission after initial submission")
  else match files with
       | selectedFile :: _ =>
           if bool_decide (file_type selectedFile = pptx)
           then modify_comp (setFile (Some selectedFile));; modify_comp (setError "")
           else modify_comp (setError "Please upload a PowerPoint file (.pptx)")
       | [] => mret ()
       end.

(** The [onChange] handlers of the text inputs: the video link is always
    editable, the four other inputs only while [!isSubmitted]; the team
    name and registration id inputs have no handler. *)
Definition guardedInputs : list string :=
  ["collegeName"; "whatsappNumber"; "productDescription"; "solution"].

Definition handleChange (field value : string) : M State unit :=
  c ← get_comp;
  if bool_decide (field = "youtubeLink")
     || bool_decide (field ∈ guardedInputs) && negb (isSubmitted c)
  then modify_comp (setFormData (λ fd, <[field := VStr value]> fd))
  else mret ().

Definition presentationPath (f : File) : string :=
  "presentations/" +:+ userId +:+ "_" +:+ file_name f.

(** [!formData.k] *)
Definition missing (fd : Doc) (k : string) : bool := negb (truthy (fd !! k)).

(** [handleSubmit] *)
Definition handleSubmit (env : Env) : M State unit :=
  modify_comp (setError "");;
  modify_comp (setLoading true);;
  finally
    (try_catch
       (c ← get_comp;
        if isSubmitted c then
          (if strict_eq (formData c !! "youtubeLink") (Some (VStr ""))
           then throw (Error "Please provide a YouTube video link") else mret ());;
          match formData c !! "youtubeLink" with
          | Some link =>
              updateDoc "phase1_submissions" userId
                {[ "youtubeLink" := link; "updatedAt" := nowISO env ]}
          | None => throw (Error "Unsupported field value: undefined")
          end;;
          modify_comp (setSuccess "YouTube link updated successfully!")
        else
          (if missing (formData c) "collegeName" || missing (formData c) "whatsappNumber"
              || missing (formData c) "productDescription" || missing (formData c) "solution"
           then throw (Error "Please fill in all required fields") else mret ());;
          match file c with
          | None => throw (Error "Please upload your presentation file")
          | Some f =>
              uploadBytes env (presentationPath f) f;;
              fileUrl ← getDownloadURL env (presentationPath f);
              let updatedFormData := <["fileUrl" := VStr fileUrl]> (formData c) in
              setDoc "phase1_submissions" userId
                (<["updatedAt" := nowAgainISO env]>
                   (<["submittedAt" := nowISO env]>
                      (<["userName" := VStr userName]>
                         (<["userId" := VStr userId]> updatedFormData))));;
              modify_comp (setSuccess "Your submission has been saved successfully!");;
              modify_comp (setIsSubmitted true)
          end)
       (λ err, modify_comp (setError (if bool_decide (message err = "")
                                      then "Failed to submit your entry" else message err))))
    (modify_comp (setLoading false)).

(** What the participant does with the form; each submission happens in
    the environment of its moment. *)
Inductive Action :=
  | Change (field value : string)
  | ChooseFile (files : list File)
  | Submit (env : Env).

Definition act (a : Action) : M State unit :=
  match a with
  | Change field value => handleChange field value
  | ChooseFile files => handleFileChange files
  | Submit env => handleSubmit env
  end.

(** The stored submission of this team. *)
Definition submission (s : Sys State) : option Doc :=
  lookupDoc (store (world s)) "phase1_submissions" userId.

(** The form has seen the stored submission. *)
Definition locked (s : Sys State) : Prop :=
  is_Some (submission s) → isSubmitted (comp s) = true.

(** What a step must keep: the form stays locked and the stored
    submission changes at most in the video link and the update time. *)
Definition keeps (s s' : Sys State) : Prop :=
  locked s' ∧
  ∀ d, submission s = Some d →
       ∃ d', submission s' = Some d' ∧ sameButVideo d d'.

End WithProps.

Definition deck : File := {| file_name := "pitch.pptx"; file_type := pptx |}.

(** A filled form with a file chosen, nothing submitted yet. *)
Definition filledForm : Sys State :=
  MkSys (setFile (Some deck)
           (setFormData (λ fd, <["collegeName" := VStr "REC"]>
                                 (<["whatsappNumber" := VStr "900"]>
                                    (<["productDescription" := VStr "A rocket"]>
                                       (<["solution" := VStr "Fly"]> fd))))
              (setInitialLoading false initialState)))
        emptyWorld.

End PhaseOneForm.

(** ** Submission Lifecycle Engine, phase 2, and team members: UserDashboard *)

Module UserDashboard.

Record State := {
  loading : bool;
  error : string;
  success : string;
  phase1Data : option Doc;
  phase2Data : option Doc;
  teamData : option Doc;
  businessProposal : option File;
  youtubeVideoUrl : string;
  teamMembers : list Member;
  timeRemaining : string;
}.

Definition initialState : State := {|
  loading := true; error := ""; success := ""; phase1Data := None; phase2Data := None;
  teamData := None; businessProposal := None; youtubeVideoUrl := ""; teamMembers := [];
  timeRemaining := "" |}.

Definition setLoading (v : bool) (c : State) : State :=
  {| loading := v; error := error c; success := success c; phase1Data := phase1Data c;
     phase2Data := phase2Data c; teamData := teamData c;
     businessProposal := businessProposal c; youtubeVideoUrl := youtubeVideoUrl c;
     teamMembers := teamMembers c; timeRemaining := timeRemaining c |}.
Definition setError (v : string) (c : State) : State :=
  {| loading := loading c; error := v; success := success c; phase1Data := phase1Data c;
     phase2Data := phase2Data c; teamData := teamData c;
     businessProposal := businessProposal c; youtubeVideoUrl := youtubeVideoUrl c;
     teamMembers := teamMembers c; timeRemaining := timeRemaining c |}.
Definition setSuccess (v : string) (c : State) : State :=
  {| loading := loading c; error := error c; success := v; phase1Data := phase1Data c;
     phase2Data := phase2Data c; teamData := teamData c;
     businessProposal := businessProposal c; youtubeVideoUrl := youtubeVideoUrl c;
     teamMembers := teamMembers c; timeRemaining := timeRemaining c |}.
Definition setPhase1Data (v : option Doc) (c : State) : State :=
  {| loading := loading c; error := error c; success := success c; phase1Data := v;
     phase2Data := phase2Data c; teamData := teamData c;
     businessProposal := businessProposal c; youtubeVideoUrl := youtubeVideoUrl c;
     teamMembers := teamMembers c; timeRemaining := timeRemaining c |}.
Definition setPhase2Data (v : option Doc) (c : State) : State :=
  {| loading := loading c; error := error c; success := success c; phase1Data := phase1Data c;
     phase2Data := v; teamData := teamData c;
     businessProposal := businessProposal c; youtubeVideoUrl := youtubeVideoUrl c;
     teamMembers := teamMembers c; timeRemaining := timeRemaining c |}.
Definition setTeamData (v : option Doc) (c : State) : State :=
  {| loading := loading c; error := error c; success := success c; phase1Data := phase1Data c;
     phase2Data := phase2Data c; teamData := v;
     businessProposal := businessProposal c; youtubeVideoUrl := youtubeVideoUrl c;
     teamMembers := teamMembers c; timeRemaining := timeRemaining c |}.
Definition setBusinessProposal (v : option File) (c : State) : State :=
  {| loading := loading c; error := error c; success := success c; phase1Data := phase1Data c;
     phase2Data := phase2Data c; teamData := teamData c;
     businessProposal := v; youtubeVideoUrl := youtubeVideoUrl c;
     teamMembers := teamMembers c; timeRemaining := timeRemaining c |}.
Definition setYoutubeVideoUrl (v : string) (c : State) : State :=
  {| loading := loading c; error := error c; success := success c; phase1Data := phase1Data c;
     phase2Data := phase2Data c; teamData := teamData c;
     businessProposal := businessProposal c; youtubeVideoUrl := v;
     teamMembers := teamMembers c; timeRemaining := timeRemaining c |}.
Definition setTeamMembers (v : list Member) (c : State) : State :=
  {| loading := loading c; error := error c; success := success c; phase1Data := phase1Data c;
     phase2Data := phase2Data c; teamData := teamData c;
     businessProposal := businessProposal c; youtubeVideoUrl := youtubeVideoUrl c;
     teamMembers := v; timeRemaining := timeRemaining c |}.
Definition setTimeRemaining (v : string) (c : State) : State :=
  {| loading := loading c; error := error c; success := success c; phase1Data := phase1Data c;
     phase2Data := phase2Data c; teamData := teamData c;
     businessProposal := businessProposal c; youtubeVideoUrl := youtubeVideoUrl c;
     teamMembers := teamMembers c; timeRemaining := v |}.

(** [new Date('April 2, 2025 23:59:59').getTime()]: the string has no
    zone, so it is read in the browser's local time. *)
Definition phase2Deadline (env : Env) : Z := 1743638399000 + timezoneOffset env * 60000.

(** [team.members || []] *)
Definition membersOrEmpty (v : option Val) : list Member :=
  match v with
  | Some (VMembers ms) => ms
  | _ => []
  end.

Section WithProps.
Context (userId userName : string).

(** [loadDashboardData] *)
Definition loadDashboardData : M State unit :=
  finally
    (try_catch
       (modify_comp (setLoading true);;
        phase1Doc ← getDoc "phase1_submissions" userId;
        match phase1Doc with
        | Some d => modify_comp (setPhase1Data (Some d))
        | None => mret ()
        end;;
        phase2Doc ← getDoc "phase2_submissions" userId;
        match phase2Doc with
        | Some d =>
            modify_comp (setPhase2Data (Some d));;
            modify_comp (setYoutubeVideoUrl
              (match d !! "youtubeVideoUrl" with
               | Some (VStr u) => u
               | _ => ""
               end))
        | None => mret ()
        end;;
        teamDoc ← getDoc "teams" userId;
        match teamDoc with
        | Some team =>
            modify_comp (setTeamData (Some team));;
            modify_comp (setTeamMembers (membersOrEmpty (team !! "members")))
        | None => mret ()
        end)
       (λ _, modify_comp (setError "Failed to load dashboard data")))
    (modify_comp (setLoading false)).

(** [updatedMembers[index] = { ...updatedMembers[index], ...data }] on a
    copy of the array.  The inputs that call the handler are rendered by
    [teamMembers.map], so [index] is in range; beyond the end JS would grow
    the array, leaving holes before the new element, which are kept here
    as empty member objects. *)
Definition updateAt (members : list Member) (index : nat) (data : Member) : list Member :=
  match members !! index with
  | Some old => <[index := data ∪ old]> members
  | None => members ++ replicate (index - length members) ∅ ++ [data]
  end.

(** [handleMemberUpdate]: the Team document is written with [setDoc] and
    no merge option. *)
Definition handleMemberUpdate (index : nat) (data : Member) : M State unit :=
  try_catch
    (c ← get_comp;
     let updatedMembers := updateAt (teamMembers c) index data in
     modify_comp (setTeamMembers updatedMembers);;
     setDoc "teams" userId {[ "members" := VMembers updatedMembers ]};;
     modify_comp (setSuccess "Team member details updated successfully"))
    (λ _, modify_comp (setError "Failed to update team member details")).

Definition proposalPath (f : File) : string :=
  "proposals/" +:+ userId +:+ "_" +:+ file_name f.

(** [handleProposalUpload] *)
Definition handleProposalUpload (env : Env) : M State unit :=
  c ← get_comp;
  match businessProposal c with
  | None => mret ()
  | Some f =>
      finally
        (try_catch
           (modify_comp (setLoading true);;
            uploadBytes env (proposalPath f) f;;
            fileUrl ← getDownloadURL env (proposalPath f);
            setDocMerge "phase2_submissions" userId
              {[ "proposalUrl" := VStr fileUrl;
                 "youtubeVideoUrl" := VStr (youtubeVideoUrl c);
                 "submittedAt" := nowISO env;
                 "status" := VStr "pending" ]};;
            modify_comp (setSuccess "Business proposal and YouTube video uploaded successfully");;
            loadDashboardData)
           (λ _, modify_comp (setError "Failed to upload business proposal")))
        (modify_comp (setLoading false))
  end.

(** The text one tick of [startCountdown]'s interval computes. *)
Definition countdownText (env : Env) : string :=
  let distance := phase2Deadline env - now env in
  if bool_decide (distance ≤ 0) then "Submission Closed"
  else
    let days := distance `div` (1000 * 60 * 60 * 24) in
    let hours := (distance `rem` (1000 * 60 * 60 * 24)) `div` (1000 * 60 * 60) in
    let minutes := (distance `rem` (1000 * 60 * 60)) `div` (1000 * 60) in
    let seconds := (distance `rem` (1000 * 60)) `div` 1000 in
    pretty days +:+ "d " +:+ pretty hours +:+ "h " +:+ pretty minutes +:+ "m " +:+
    pretty seconds +:+ "s".

Definition tick (env : Env) : M State unit :=
  modify_comp (setTimeRemaining (countdownText env)).

(** [isSubmissionClosed] *)
Definition isSubmissionClosed (env : Env) : bool :=
  bool_decide (now env > phase2Deadline env).

(** The phase-2 controls as rendered: the URL input and the file chooser
    carry [disabled={isSubmissionClosed()}], the upload button is rendered
    when a file is chosen and carries
    [disabled={loading || isSubmissionClosed()}].  A disabled control does
    not call its handler. *)
Inductive Phase2Action :=
  | EditUrl (value : string)
  | ChooseProposal (f : File)
  | ClickUpload.

Definition phase2 (env : Env) (a : Phase2Action) : M State unit :=
  c ← get_comp;
  match a with
  | EditUrl value =>
      if isSubmissionClosed env then mret ()
      else modify_comp (setYoutubeVideoUrl value)
  | ChooseProposal f =>
      if isSubmissionClosed env then mret ()
      else modify_comp (setBusinessProposal (Some f))
  | ClickUpload =>
      match businessProposal c with
      | Some _ => if loading c || isSubmissionClosed env then mret ()
                  else handleProposalUpload env
      | None => mret ()
      end
  end.

End WithProps.

(** A team that has paid, as the dashboard of its lead has loaded it. *)
Definition paidTeam : Doc :=
  {[ "teamName" := VStr "Rocket"; "registrationId" := VStr "SS25-007";
     "paymentStatus" := VStr "paid";
     "members" := VMembers [ {[ "name" := "Asha"; "email" := "asha@example.org"; "phone" := "1" ]} ] ]}.

Definition paidTeamWorld : World :=
  {| store := {[ "teams" := {[ "u1" := paidTeam ]} ]}; bucket := ∅; trace := [] |}.

(** The browser at the very millisecond of the deadline. *)
Definition atDeadline (tz : Z) : Env :=
  {| upload_fails := λ _, false; url_fails := λ _, false; qr_fails := λ _, false;
     transport_fails := λ _, false; now := 1743638399000 + tz * 60000; lag := 0;
     timezoneOffset := tz |}.

Definition proposal : File := {| file_name := "plan.pdf"; file_type := "application/pdf" |}.

(** The dashboard with a proposal chosen and a video link typed. *)
Definition readyToUpload : Sys State :=
  MkSys (setBusinessProposal (Some proposal)
           (setYoutubeVideoUrl "https://youtu.be/demo" (setLoading false initialState)))
        emptyWorld.

End UserDashboard.

(** ** Example runs *)

Module Examples.

(** A session of the phase-1 form that creates the submission, then one
    that tries to change the description and sets the video link. *)
Definition firstSubmission : list PhaseOneForm.Action :=
  [ PhaseOneForm.Change "collegeName" "REC";
    PhaseOneForm.Change "whatsappNumber" "900";
    PhaseOneForm.Change "productDescription" "A rocket";
    PhaseOneForm.Change "solution" "Fly";
    PhaseOneForm.ChooseFile [PhaseOneForm.deck];
    PhaseOneForm.Submit (reliable 1740000000000) ].

Definition laterEdits : list PhaseOneForm.Action :=
  [ PhaseOneForm.Change "productDescription" "Something else";
    PhaseOneForm.ChooseFile [PhaseOneForm.deck];
    PhaseOneForm.Change "youtubeLink" "https://youtu.be/demo";
    PhaseOneForm.Submit (reliable 1741000000000) ].

Definition afterFirstSubmission : Sys PhaseOneForm.State :=
  (forEach firstSubmission (PhaseOneForm.act "u1" "Asha")
     (PhaseOneForm.loadSubmissionData "u1" (MkSys PhaseOneForm.initialState emptyWorld)).2).2.

Definition createdSubmission : Doc :=
  default ∅ (PhaseOneForm.submission "u1" afterFirstSubmission).

(** A ticket request. *)
Definition ashaTicket : EmailService.ETicketData :=
  {| EmailService.teamName := Some "Rocket";
     EmailService.registrationId := Some "SS25-007";
     EmailService.member := {[ "name" := "Asha"; "email" := "asha@example.org"; "phone" := "1" ]};
     EmailService.eventDetails :=
       {| EmailService.date := "2025-03-20T10:00"; EmailService.venue := "Hall A";
          EmailService.workshopTitle := Some "Pitching" |} |}.

End Examples.

(** ** Scoreboard: search and rank icons *)

Module ScoreboardView.
Import Scoreboard.

(** [team.k.toLowerCase().includes(searchTerm.toLowerCase())]: the
    property is read without [?.], so a missing one throws like one that is
    not a string. *)
Definition rowIncludes (v : option Val) (term : string) : Exn + bool :=
  match v with
  | Some (VStr s) => inr (includes (toLowerCase s) (toLowerCase term))
  | None => inl (Error "Cannot read properties of undefined (reading 'toLowerCase')")
  | Some _ => inl (Error "toLowerCase is not a function")
  end.

(** The predicate of [filteredScores]; [||] stops at the first match. *)
Definition rowMatches (term : string) (team : Doc) : Exn + bool :=
  match rowIncludes (team !! "teamName") term with
  | inl e => inl e
  | inr true => inr true
  | inr false =>
      match rowIncludes (team !! "registrationId") term with
      | inl e => inl e
      | inr true => inr true
      | inr false => rowIncludes (team !! "collegeName") term
      end
  end.

(** [filteredScores], computed at each render: a throw inside it is a
    failed render. *)
Definition filteredScores (searchTerm : string) (scores : list Doc) : Exn + list Doc :=
  if bool_decide (searchTerm = "") then inr scores
  else EmailDashboard.filterThrowing (rowMatches searchTerm) scores.

(** [getRankIcon]: the [switch] compares with [===]. *)
Inductive RankIcon := Trophy | Medal | Award | PlainRank (rank : option Val).

Definition getRankIcon (rank : option Val) : RankIcon :=
  if strict_eq rank (Some (VNum 1)) then Trophy
  else if strict_eq rank (Some (VNum 2)) then Medal
  else if strict_eq rank (Some (VNum 3)) then Award
  else PlainRank rank.

(** Numeric points of a query document. *)
Definition pointsZ (qd : QueryDoc) : option Z :=
  match pointsOf qd with
  | Some (VNum n) => Some n
  | _ => None
  end.

(** The order [orderBy('points', 'desc')] returns numbers in. *)
Fixpoint descending (pts : list Z) : bool :=
  match pts with
  | p :: (q :: _) as rest => bool_decide (q ≤ p) && descending rest
  | _ => true
  end.

(** Number of entries strictly above [p]. *)
Definition higher (pts : list Z) (p : Z) : nat :=
  length (filter (λ q, p < q) pts).

(** The three columns the search reads are strings. *)
Definition searchable (row : Doc) : Prop :=
  (∃ s, row !! "teamName" = Some (VStr s)) ∧
  (∃ s, row !! "registrationId" = Some (VStr s)) ∧
  (∃ s, row !! "collegeName" = Some (VStr s)).

(** A document differs from another at most in its rank. *)
Definition sameButRank (d d' : Doc) : Prop :=
  ∀ k : string, k ≠ "rank" → d' !! k = d !! k.

(** The configuration collection once results are published. *)
Definition publishedConfig : gmap string Doc :=
  {[ "phase1Results" := {[ "published" := VBool true ]} ]}.

(** Ranked rows with the columns the table shows. *)
Definition exampleRows : list Doc :=
  rankSnapshot
    [ ("t1", {[ "teamName" := VStr "Alpha"; "registrationId" := VStr "SS25-001";
                "collegeName" := VStr "REC"; "points" := VNum 90 ]});
      ("t2", {[ "teamName" := VStr "Beta"; "registrationId" := VStr "SS25-002";
                "collegeName" := VStr "Anna University"; "points" := VNum 90 ]});
      ("t3", {[ "teamName" := VStr "Gamma"; "registrationId" := VStr "SS25-003";
                "collegeName" := VStr "REC"; "points" := VNum 80 ]}) ].

End ScoreboardView.

(** ** App: what is rendered for the resolved identity *)

Module AppView.
Import App.

(** The component [renderAuthenticatedContent] returns, with its props. *)
Inductive View :=
  | AdminDashboardView (isFinanceAdmin : bool)
  | FinanceDashboardView
  | Spinner
  | UserDashboardView (userId userName : option Val)
  | TeamRegistrationView (userId userName : option Val).

(** [renderAuthenticatedContent] *)
Definition renderAuthenticatedContent (c : State) : View :=
  if isAdmin c then AdminDashboardView false
  else if isFinanceAdmin c then FinanceDashboardView
  else match currentUser c with
       | None => Spinner
       | Some u =>
           if bool_decide (paymentStatus c = paid)
           then UserDashboardView (u !! "id") (u !! "name")
           else TeamRegistrationView (u !! "id") (u !! "name")
       end.

(** The body of [App]'s render below the navigation bar; [showAuth] is
    the flag the sign-in button sets. *)
Inductive Screen :=
  | LoadingScreen
  | AuthPageScreen
  | AuthenticatedScreen (v : View)
  | LandingScreen.

Definition render (showAuth : bool) (c : State) : Screen :=
  if loading c then LoadingScreen
  else if showAuth && negb (isAuthenticated c) then AuthPageScreen
  else if isAuthenticated c then AuthenticatedScreen (renderAuthenticatedContent c)
  else LandingScreen.

Definition admin : User :=
  {| uid := "a1"; email := Some ADMIN_CREDENTIALS_email; displayName := None |}.

(** A newcomer: no profile, no Team record. *)
Definition newcomer : User :=
  {| uid := "n1"; email := Some "new@example.org"; displayName := None |}.

End AppView.


(** ** PhaseOneForm: the rest of the component *)

Module PhaseOneFormView.
Import PhaseOneForm.

(** [handleRecStudentSubmit] *)
Definition handleRecStudentSubmit (userId : string) : M State unit :=
  try_catch
    (c ← get_comp;
     setDoc "rec_students" userId (recStudent c);;
     modify_comp (setSuccess "REC student details saved successfully!"))
    (λ _, modify_comp (setError "Failed to save REC student details")).

(** What the render shows above the form: [results && renderResults()],
    [showScoreboard && <Scoreboard />] and
    [!recStudent.rollNumber && renderRecStudentForm()]; nothing but the
    spinner while [initialLoading]. *)
Record Panels := {
  resultsPanel : option Doc;
  scoreboardPanel : bool;
  recStudentForm : bool;
}.

Definition panels (c : State) : option Panels :=
  if initialLoading c then None
  else Some {| resultsPanel := results c;
               scoreboardPanel := showScoreboard c;
               recStudentForm := negb (truthy (recStudent c !! "rollNumber")) |}.

(** The label of the submit button when it is not busy. *)
Definition submitLabel (c : State) : string :=
  if isSubmitted c then "Update YouTube Link" else "Submit Entry".

(** The four inputs [handleSubmit] requires for a first submission. *)
Definition requiredFilled (c : State) : bool :=
  negb (missing (formData c) "collegeName" || missing (formData c) "whatsappNumber"
        || missing (formData c) "productDescription" || missing (formData c) "solution").

(** The fields [handleSubmit] adds to, or overrides in, the form data. *)
Definition stampedFields : list string :=
  ["fileUrl"; "userId"; "userName"; "submittedAt"; "updatedAt"].

(** A submission that [handleSubmit] rejects before any call. *)
Definition rejected (c : State) : Prop :=
  if isSubmitted c
  then formData c !! "youtubeLink" = Some (VStr "")
  else requiredFilled c = false ∨ file c = None.

Definition rejectionMessage (c : State) : string :=
  if isSubmitted c then "Please provide a YouTube video link"
  else if requiredFilled c then "Please upload your presentation file"
  else "Please fill in all required fields".

End PhaseOneFormView.


(** ** UserDashboard: the countdown's numbers *)

Module UserDashboardView.
Import UserDashboard.

(** The four numbers [startCountdown] computes from a positive distance
    in milliseconds: days, hours, minutes, seconds. *)
Definition countdownParts (distance : Z) : Z * Z * Z * Z :=
  (distance `div` (1000 * 60 * 60 * 24),
   (distance `rem` (1000 * 60 * 60 * 24)) `div` (1000 * 60 * 60),
   (distance `rem` (1000 * 60 * 60)) `div` (1000 * 60),
   (distance `rem` (1000 * 60)) `div` 1000).

(** [`${days}d ${hours}h ${minutes}m ${seconds}s`] *)
Definition formatCountdown (parts : Z * Z * Z * Z) : string :=
  let '(days, hours, minutes, seconds) := parts in
  pretty days +:+ "d " +:+ pretty hours +:+ "h " +:+ pretty minutes +:+ "m " +:+
  pretty seconds +:+ "s".

(** The last character of a string. *)
Fixpoint lastChar (s : string) : option ascii :=
  match s with
  | EmptyString => None
  | String a EmptyString => Some a
  | String _ rest => lastChar rest
  end.

(** The fields [handleProposalUpload] writes into the phase-2 document. *)
Definition proposalFields : list string :=
  ["proposalUrl"; "youtubeVideoUrl"; "submittedAt"; "status"].

(** A phase-2 submission the organisers have already marked. *)
Definition selectedProposal : Doc :=
  {[ "proposalUrl" := VStr "https://firebasestorage.googleapis.com/o/proposals/u1_old.pdf";
     "status" := VStr "selected"; "score" := VNum 9 ]}.

End UserDashboardView.


(** ** Notification fan-out: the phase-2 selection mails *)

Module Phase2Selection.
Import EmailService EmailDashboard.

(** A property of an untyped document inside a template literal:
    [String(v)], an array of objects giving [[object Object]] for each
    element, joined by commas. *)
Definition interpolateVal (v : option Val) : string :=
  match v with
  | None => "undefined"
  | Some (VStr s) => s
  | Some (VNum n) => pretty n
  | Some (VBool b) => if b then "true" else "false"
  | Some (VMembers ms) => String.concat "," (replicate (length ms) "[object Object]")
  end.

Definition selectionSubject : string :=
  "Congratulations! Selected for Phase 2 - Startup Spark 2025".

(** The selection body (markup attributes and white space left out). *)
Definition selectionHtml (teamData : Doc) (m : Member) : string :=
  "<div><h1>Congratulations! You're Selected for Phase 2</h1><p>Dear " +:+
  interpolate (m !! "name") +:+ ",</p>" +:+
  "<p>We are pleased to inform you that your team has been selected for Phase 2 of " +:+
  "Startup Spark 2025!</p><div><h2>Team Details</h2><p><strong>Team Name:</strong> " +:+
  interpolateVal (teamData !! "teamName") +:+ "</p><p><strong>Registration ID:</strong> " +:+
  interpolateVal (teamData !! "registrationId") +:+ "</p><p><strong>Phase 1 Score:</strong> " +:+
  interpolateVal (teamData !! "score") +:+ "</p></div>" +:+
  "<p>Please prepare for Phase 2 by following the guidelines that will be shared soon.</p>" +:+
  "<p>Best regards,<br>Team Startup Spark</p></div>".

Section WithEnv.
Context (env : Env) {C : Type}.

(** Body of the loop of [sendPhase2Selection] for one member; [sendEmail]
    is called without its [attachments] argument, the empty list here. *)
Definition notifyMember (teamData : Doc) (m : Member) : M C unit :=
  sendEmail env (m !! "email") selectionSubject (selectionHtml teamData m) [];;
  mret ().

(** [sendPhase2Selection]: [true] unless something threw. *)
Definition sendPhase2Selection (teamData : Doc) : M C bool :=
  try_catch
    (match iterate (teamData !! "members") with
     | Some ms => forEach ms (notifyMember teamData);; mret true
     | None => throw (Error "teamData.members is not iterable")
     end)
    (λ _, mret false).

End WithEnv.

(** [teams.filter(team => team.phase2Selected)] *)
Definition selectedTeams (ts : list Doc) : list Doc :=
  filter (λ team : Doc, truthy (team !! "phase2Selected") = true) ts.

(** The loop of [handleSendPhase2Selections] with its two counters. *)
Fixpoint sendSelections (env : Env) (ts : list Doc) (counts : Z * Z) : M State (Z * Z) :=
  match ts with
  | [] => mret counts
  | team :: ts' =>
      ok ← sendPhase2Selection env team;
      sendSelections env ts' (if ok : bool then (counts.1 + 1, counts.2)
                              else (counts.1, counts.2 + 1))
  end.

Definition selectionMessage (counts : Z * Z) : string :=
  "Successfully sent " +:+ showZ counts.1 +:+ " selection emails" +:+
  (if bool_decide (counts.2 > 0) then ", " +:+ showZ counts.2 +:+ " failed" else "").

(** [handleSendPhase2Selections]: returns the counters it reported. *)
Definition handleSendPhase2Selections (env : Env) : M State (option (Z * Z)) :=
  finally
    (try_catch
       (modify_comp (setSending true);;
        c ← get_comp;
        counts ← sendSelections env (selectedTeams (teams c)) (0, 0);
        modify_comp (setSuccess (selectionMessage counts));;
        mret (Some counts))
       (λ _, modify_comp (setError "Failed to send selection emails");; mret None))
    (modify_comp (setSending false)).




(** A dashboard showing a selected team, one that is not, and a selected
    one whose record has no members. *)
Definition mixedDashboard : Sys State :=
  MkSys (setTeams [ <["score" := VNum 90]> (<["phase2Selected" := VBool true]> FanOut.trio);
                    FanOut.comet;
                    {[ "teamName" := VStr "Ghost"; "phase2Selected" := VBool true ]} ]
           initialState)
        emptyWorld.

End Phase2Selection.

(** ** Two forms of one team *)

Module TwoForms.
Import PhaseOneForm.

Definition secondDeck : File := {| file_name := "other.pptx"; file_type := pptx |}.

(** A form of team [u1] that was mounted while the team had no
    submission (a second tab or device), then filled in. *)
Definition staleForm : State :=
  comp (forEach [ Change "collegeName" "REC";
                  Change "whatsappNumber" "900";
                  Change "productDescription" "Something else";
                  Change "solution" "Swim";
                  ChooseFile [secondDeck] ]
          (act "u1" "Asha")
          (loadSubmissionData "u1" (MkSys initialState emptyWorld)).2).2.

(** Meanwhile the team's submission was created from another form
    ([Examples.firstSubmission]) and an administrator scored it. *)
Definition scoredWorld : World :=
  world (AdminDashboard.handleScoreSubmit (reliable 1741000000000) "u1"
           (MkSys (AdminDashboard.setScoreData
                     {| AdminDashboard.sd_points := 80; AdminDashboard.sd_review := "Good" |}
                     AdminDashboard.initialState)
                  (world Examples.afterFirstSubmission))).2.

End TwoForms.

(** ** A refetch that fails *)

Module StaleList.
Import EmailDashboard FanOut.

(** A team whose stored name is a number. *)
Definition seven : Doc :=
  {[ "teamName" := VNum 7; "registrationId" := VStr "SS25-009";
     "members" := VMembers [ {[ "name" := "Eli"; "email" := "eli@example.org"; "phone" := "5" ]} ] ]}.

Definition threeTeams : World :=
  {| store := {[ "teams" := {[ "u1" := trio; "u2" := comet; "u3" := seven ]} ]};
     bucket := ∅; trace := [] |}.

(** The admin fills in the workshop, then types a search term. *)
Definition searchRocket : list Action := [EditWorkshop workshop; TypeSearch "rocket"].

(** The recipients of the mails in a trace. *)
Definition recipients (tr : list Event) : list (option string) :=
  omap (λ ev, match ev with EvSendMail to _ _ _ => Some to | _ => None end) tr.

End StaleList.

(** * Properties *)

(** ** Query results *)

Lemma docsOf_Permutation (coll : gmap string Doc) : docsOf coll ≡ₚ map_to_list coll.
Proof. apply merge_sort_Permutation. Qed.

Lemma elem_of_docsOf (coll : gmap string Doc) (id : string) (d : Doc) :
  (id, d) ∈ docsOf coll ↔ coll !! id = Some d.
Proof. by rewrite docsOf_Permutation, elem_of_map_to_list. Qed.

(** A query returns the documents in ascending order of their ids. *)
Lemma docsOf_sorted (coll : gmap string Doc) : Sorted byId (docsOf coll).
Proof. apply (Sorted_merge_sort byId). Qed.

(** ** Ranking *)

Section Ranking.
Import Scoreboard.

Lemma rankOf_set_rank (v : option Val) (d : Doc) : rankOf (set_field "rank" v d) = v.
Proof.
  unfold rankOf, set_field. destruct v.
  - apply lookup_insert_eq.
  - apply lookup_delete_eq.
Qed.

Lemma scoreOf_set_rank (v : option Val) (d : Doc) : scoreOf (set_field "rank" v d) = scoreOf d.
Proof.
  unfold scoreOf, set_field. destruct v.
  - by rewrite lookup_insert_ne.
  - by rewrite lookup_delete_ne.
Qed.

Lemma toTeamScore_rank (r : Z) (qd : QueryDoc) :
  scored qd = true → rankOf (toTeamScore r qd) = Some (VNum r).
Proof.
  unfold scored, toTeamScore, rankOf, pointsOf. intros Hs.
  destruct (qd.2 !! "points") as [p|] eqn:Hp; [|done].
  cbn [set_field]. rewrite lookup_insert_ne by done. apply lookup_insert_eq.
Qed.

Lemma toTeamScore_score (r : Z) (qd : QueryDoc) :
  scoreOf (toTeamScore r qd) = pointsOf qd.
Proof.
  unfold toTeamScore, scoreOf, pointsOf.
  destruct (qd.2 !! "points") as [p|]; cbn [set_field].
  - apply lookup_insert_eq.
  - apply lookup_delete_eq.
Qed.

(** One iteration rewrites the element at [i] only, and only its rank. *)
Lemma assignRank_spec (l : list Doc) (i : nat) (cur prev : Doc) :
  l !! S i = Some cur → l !! i = Some prev →
  ∃ cur', assignRank l (S i) = <[S i := cur']> l ∧
          scoreOf cur' = scoreOf cur ∧
          rankOf cur' = if strict_eq (scoreOf cur) (scoreOf prev)
                        then rankOf prev else Some (VNum (Z.of_nat (S i) + 1)).
Proof.
  intros Hc Hp. unfold assignRank.
  replace (S i - 1)%nat with i by lia. rewrite Hc, Hp.
  fold (scoreOf cur) (scoreOf prev) (rankOf prev).
  destruct (strict_eq (scoreOf cur) (scoreOf prev)); eexists; split; try reflexivity.
  - split; [apply scoreOf_set_rank | apply rankOf_set_rank].
  - split; [apply (scoreOf_set_rank (Some _)) | apply (rankOf_set_rank (Some _))].
Qed.

Lemma assignRanks_loop (l0 : list Doc) (k : nat) :
  (k < length l0)%nat → ranked_upto l0 (foldl assignRank l0 (seq 1 k)) k.
Proof.
  induction k as [|k IH]; intros Hk.
  - cbn. repeat split; [naive_solver | intros; lia].
  - rewrite seq_S, foldl_snoc. replace (1 + k)%nat with (S k) by lia.
    destruct IH as (Hlen & Hsc & Hrk); [lia|].
    set (l := foldl assignRank l0 (seq 1 k)) in *.
    destruct (lookup_lt_is_Some_2 l (S k)) as [cur Hc]; [lia|].
    destruct (lookup_lt_is_Some_2 l k) as [prev Hp]; [lia|].
    destruct (assignRank_spec l k cur prev Hc Hp) as (cur' & -> & Hs' & Hr').
    repeat split.
    + by rewrite length_insert.
    + intros j d Hj. destruct (decide (j = S k)) as [->|Hne].
      * rewrite list_lookup_insert_eq in Hj by lia. simplify_eq.
        destruct (Hsc _ _ Hc) as (d0 & Hd0 & Hsd & _).
        exists d0. split; [done|]. split; [congruence|]. intros [?|?]; lia.
      * rewrite list_lookup_insert_ne in Hj by done.
        destruct (Hsc _ _ Hj) as (d0 & Hd0 & Hsd & Hsame).
        exists d0. repeat split; try done. intros [?|?]; apply Hsame; [left; lia | by right].
    + intros j c p Hj Hcj Hpj.
      rewrite list_lookup_insert_ne in Hpj by lia.
      destruct (decide (j = k)) as [->|Hne].
      * rewrite list_lookup_insert_eq in Hcj by lia. simplify_eq.
        by rewrite Hs'.
      * rewrite list_lookup_insert_ne in Hcj by lia. apply Hrk; [lia|done..].
Qed.

Lemma assignRanks_spec (l0 : list Doc) :
  ranked_upto l0 (assignRanks l0) (length l0 - 1).
Proof.
  unfold assignRanks. destruct l0 as [|d l0].
  - cbn. repeat split; [naive_solver | intros; lia].
  - apply assignRanks_loop. cbn. lia.
Qed.

Lemma scored_filter_fmap (snapshot : list QueryDoc) (j : nat) (d0 : Doc) :
  (toTeamScore 1 <$> filter (λ qd, scored qd = true) snapshot) !! j = Some d0 →
  rankOf d0 = Some (VNum 1).
Proof.
  rewrite list_lookup_fmap. intros H.
  destruct (filter _ snapshot !! j) as [qd|] eqn:Hq; [|done].
  cbn in H. simplify_eq. apply toTeamScore_rank.
  apply list_elem_of_lookup_2 in Hq. by apply list_elem_of_filter in Hq as [? _].
Qed.

(** C1. For every query result, the ranked list holds the scored
    submissions in query order, the first one has rank 1, and the one at
    0-based position [i ≥ 1] has the rank of its predecessor when their
    points are equal and its 1-based position [i + 1] otherwise
    (competition ranking); points 90, 90, 80, 70, 70, 70 give ranks
    1, 1, 3, 4, 4, 4.  No ordering of the input is needed for this. *)
Theorem competition_ranking (snapshot : list QueryDoc) :
  let res := rankSnapshot snapshot in
  scoreOf <$> res = pointsOf <$> filter (λ qd, scored qd = true) snapshot ∧
  (∀ d, res !! 0%nat = Some d → rankOf d = Some (VNum 1)) ∧
  (∀ i cur prev, res !! S i = Some cur → res !! i = Some prev →
     rankOf cur = if strict_eq (scoreOf cur) (scoreOf prev)
                  then rankOf prev else Some (VNum (Z.of_nat i + 2))) ∧
  (pointsOf <$> snapshot =
     [Some (VNum 90); Some (VNum 90); Some (VNum 80);
      Some (VNum 70); Some (VNum 70); Some (VNum 70)] →
   rankOf <$> res =
     [Some (VNum 1); Some (VNum 1); Some (VNum 3);
      Some (VNum 4); Some (VNum 4); Some (VNum 4)]).
Proof.
  intros res.
  pose proof (assignRanks_spec (toTeamScore 1 <$> filter (λ qd, scored qd = true) snapshot))
    as (Hlen & Hsc & Hrk).
  fold (rankSnapshot snapshot) in Hlen, Hsc, Hrk. fold res in Hlen, Hsc, Hrk.
  set (l0 := toTeamScore 1 <$> filter (λ qd, scored qd = true) snapshot) in *.
  assert (Hscores : scoreOf <$> res = pointsOf <$> filter (λ qd, scored qd = true) snapshot).
  { apply list_eq. intros j. rewrite !list_lookup_fmap.
    destruct (res !! j) as [d|] eqn:Hd.
    - destruct (Hsc _ _ Hd) as (d0 & Hd0 & Hs & _). cbn. rewrite Hs.
      unfold l0 in Hd0. rewrite list_lookup_fmap in Hd0.
      destruct (filter _ snapshot !! j) as [qd|]; [|done].
      cbn in *. simplify_eq. by rewrite toTeamScore_score.
    - apply lookup_ge_None in Hd. rewrite Hlen in Hd. unfold l0 in Hd.
      rewrite length_fmap in Hd. apply lookup_ge_None in Hd. by rewrite Hd. }
  assert (Hfirst : ∀ d, res !! 0%nat = Some d → rankOf d = Some (VNum 1)).
  { intros d Hd. destruct (Hsc _ _ Hd) as (d0 & Hd0 & _ & Hsame).
    rewrite Hsame by (by right). by eapply scored_filter_fmap. }
  assert (Hnext : ∀ i cur prev, res !! S i = Some cur → res !! i = Some prev →
     rankOf cur = if strict_eq (scoreOf cur) (scoreOf prev)
                  then rankOf prev else Some (VNum (Z.of_nat i + 2))).
  { intros i cur prev Hc Hp.
    replace (Z.of_nat i + 2) with (Z.of_nat (S i) + 1) by lia.
    apply Hrk; [|done..]. apply lookup_lt_Some in Hc. lia. }
  split; [done|]. split; [done|]. split; [done|].
  intros Hpts.
  assert (Hall : filter (λ qd, scored qd = true) snapshot = snapshot).
  { destruct snapshot as [|q0 [|q1 [|q2 [|q3 [|q4 [|q5 [|]]]]]]]; try done.
    cbn in Hpts. injection Hpts as H0 H1 H2 H3 H4 H5.
    unfold pointsOf in *.
    rewrite !filter_cons. unfold scored. rewrite H0, H1, H2, H3, H4, H5. cbn.
    rewrite !decide_True by done. reflexivity. }
  rewrite Hall, Hpts in Hscores.
  destruct res as [|d0 [|d1 [|d2 [|d3 [|d4 [|d5 [|]]]]]]]; try done.
  cbn in Hscores. injection Hscores as S0 S1 S2 S3 S4 S5.
  pose proof (Hfirst d0 eq_refl) as R0.
  pose proof (Hnext 0%nat d1 d0 eq_refl eq_refl) as R1.
  pose proof (Hnext 1%nat d2 d1 eq_refl eq_refl) as R2.
  pose proof (Hnext 2%nat d3 d2 eq_refl eq_refl) as R3.
  pose proof (Hnext 3%nat d4 d3 eq_refl eq_refl) as R4.
  pose proof (Hnext 4%nat d5 d4 eq_refl eq_refl) as R5.
  rewrite S0, S1, S2, S3, S4, S5 in *. cbn in R1, R2, R3, R4, R5.
  repeat case_bool_decide; try lia. cbn [fmap list_fmap]. rewrite R5, R4, R3, R2, R1, R0. reflexivity.
Qed.

Lemma competition_ranking_witness :
  pointsOf <$> exampleSnapshot =
     [Some (VNum 90); Some (VNum 90); Some (VNum 80);
      Some (VNum 70); Some (VNum 70); Some (VNum 70)] ∧
  rankOf <$> rankSnapshot exampleSnapshot =
     [Some (VNum 1); Some (VNum 1); Some (VNum 3);
      Some (VNum 4); Some (VNum 4); Some (VNum 4)].
Proof.
  assert (H : pointsOf <$> exampleSnapshot =
     [Some (VNum 90); Some (VNum 90); Some (VNum 80);
      Some (VNum 70); Some (VNum 70); Some (VNum 70)]) by (vm_compute; reflexivity).
  split; [exact H|].
  exact (proj2 (proj2 (proj2 (competition_ranking exampleSnapshot))) H).
Defined.

End Ranking.

(** ** The clock *)

Example toISOString_examples :
  toISOString 1743638399000 = "2025-04-02T23:59:59.000Z" ∧
  toISOString 951782400001 = "2000-02-29T00:00:00.001Z" ∧
  toISOString 0 = "1970-01-01T00:00:00.000Z".
Proof. repeat split; vm_compute; reflexivity. Qed.

(** ** Ticket payload round trip *)

Section JSONRoundTrip.
Import JSON.

Ltac ncases :=
  repeat match goal with
    | |- context [(?a =? ?b)%N] => destruct (N.eqb_spec a b)
    | |- context [(?a <? ?b)%N] => destruct (N.ltb_spec a b)
    | |- context [(?a <=? ?b)%N] => destruct (N.leb_spec a b)
    end.

Lemma hexVal_hexDigit (d : N) : (d < 16)%N → hexVal (hexDigit d) = Some d.
Proof.
  intros Hd.
  assert (H : ∃ n : nat, (n < 16)%nat ∧ d = N.of_nat n) by (exists (N.to_nat d); lia).
  destruct H as (n & Hn & ->).
  do 16 (destruct n as [|n]; [reflexivity|]). lia.
Qed.

Lemma parseChars_u (h3 h2 h1 h0 : N) (rest : list N) :
  parseChars (92 :: 117 :: h3 :: h2 :: h1 :: h0 :: rest)%N =
  match hexVal h3, hexVal h2, hexVal h1, hexVal h0, parseChars rest with
  | Some d3, Some d2, Some d1, Some d0, Some (str, out) =>
      Some ((d3 * 4096 + d2 * 256 + d1 * 16 + d0)%N :: str, out)
  | _, _, _, _, _ => None
  end.
Proof. reflexivity. Qed.

Lemma parseChars_plain (c : N) (rest : list N) :
  c ≠ 34%N → c ≠ 92%N → (32 ≤ c)%N →
  parseChars (c :: rest) =
  match parseChars rest with
  | Some (str, out) => Some (c :: str, out)
  | None => None
  end.
Proof.
  intros H1 H2 H3. cbn [parseChars].
  destruct (N.eqb_spec c 34); [done|]. destruct (N.eqb_spec c 92); [done|].
  destruct (N.ltb_spec c 32); [lia|]. reflexivity.
Qed.

Lemma hex_digits_value (c : N) :
  (c < 65536)%N →
  ((c / 4096) mod 16 * 4096 + (c / 256) mod 16 * 256 + (c / 16) mod 16 * 16 + c mod 16 = c)%N.
Proof.
  intros Hc.
  replace (c / 256)%N with (c / 16 / 16)%N by (rewrite N.Div0.div_div; reflexivity).
  replace (c / 4096)%N with (c / 16 / 16 / 16)%N by (rewrite !N.Div0.div_div; reflexivity).
  pose proof (N.div_mod' c 16) as H0.
  pose proof (N.div_mod' (c / 16) 16) as H1.
  pose proof (N.div_mod' (c / 16 / 16) 16) as H2.
  pose proof (N.div_mod' (c / 16 / 16 / 16) 16) as H3.
  assert (c / 16 / 16 / 16 / 16 = 0)%N as H4.
  { rewrite !N.Div0.div_div. apply N.div_small. exact Hc. }
  rewrite H4 in H3. lia.
Qed.

Lemma parseChars_unicodeEscape (c : N) (rest : list N) :
  (c < 65536)%N →
  parseChars (unicodeEscape c ++ rest) =
  match parseChars rest with
  | Some (str, out) => Some (c :: str, out)
  | None => None
  end.
Proof.
  intros Hc. unfold unicodeEscape. cbn [app]. rewrite parseChars_u.
  rewrite !hexVal_hexDigit by (apply N.mod_lt; lia).
  destruct (parseChars rest) as [[str out]|]; [|reflexivity].
  by rewrite hex_digits_value.
Qed.

(** Reading what [escapeUnit] wrote gives the code unit back. *)
Lemma parseChars_escapeUnit (c : N) (rest : list N) :
  parseChars (escapeUnit c ++ rest) =
  match parseChars rest with
  | Some (str, out) => Some (c :: str, out)
  | None => None
  end.
Proof.
  unfold escapeUnit.
  destruct (N.eqb_spec c 8) as [->|]; [reflexivity|].
  destruct (N.eqb_spec c 9) as [->|]; [reflexivity|].
  destruct (N.eqb_spec c 10) as [->|]; [reflexivity|].
  destruct (N.eqb_spec c 12) as [->|]; [reflexivity|].
  destruct (N.eqb_spec c 13) as [->|]; [reflexivity|].
  destruct (N.eqb_spec c 34) as [->|]; [reflexivity|].
  destruct (N.eqb_spec c 92) as [->|]; [reflexivity|].
  destruct ((c <? 32)%N || is_lead c || is_trail c) eqn:Hesc.
  - apply parseChars_unicodeEscape.
    unfold is_lead, is_trail in Hesc.
    apply orb_true_iff in Hesc as [Hesc|Hesc]; [apply orb_true_iff in Hesc as [Hesc|Hesc]|].
    + apply N.ltb_lt in Hesc. lia.
    + apply andb_true_iff in Hesc as [_ Hesc]. apply N.leb_le in Hesc. lia.
    + apply andb_true_iff in Hesc as [_ Hesc]. apply N.leb_le in Hesc. lia.
  - apply orb_false_iff in Hesc as [Hesc _]. apply orb_false_iff in Hesc as [Hesc _].
    apply N.ltb_ge in Hesc. cbn [app]. by apply parseChars_plain.
Qed.

Lemma parseChars_pair (c d : N) (rest : list N) :
  is_lead c = true → is_trail d = true →
  parseChars (c :: d :: rest) =
  match parseChars rest with
  | Some (str, out) => Some (c :: d :: str, out)
  | None => None
  end.
Proof.
  unfold is_lead, is_trail. intros Hc Hd.
  apply andb_true_iff in Hc as [Hc _]. apply N.leb_le in Hc.
  apply andb_true_iff in Hd as [Hd _]. apply N.leb_le in Hd.
  rewrite parseChars_plain by lia. rewrite parseChars_plain by lia.
  by destruct (parseChars rest) as [[??]|].
Qed.

Lemma parseChars_quoteChars_bounded (n : nat) (s rest : list N) :
  (length s ≤ n)%nat → parseChars (quoteChars s ++ 34%N :: rest) = Some (s, rest).
Proof.
  revert s. induction n as [|n IH]; intros s Hlen.
  - destruct s; [reflexivity | cbn in Hlen; lia].
  - destruct s as [|c s']; [reflexivity|]. cbn in Hlen.
    cbn [quoteChars]. destruct (is_lead c) eqn:Hlead.
    + destruct s' as [|d s''].
      * rewrite parseChars_escapeUnit. reflexivity.
      * destruct (is_trail d) eqn:Htrail.
        -- cbn [app]. rewrite parseChars_pair by done.
           rewrite IH by (cbn in Hlen; lia). reflexivity.
        -- rewrite <- app_assoc, parseChars_escapeUnit.
           rewrite IH by lia. reflexivity.
    + rewrite <- app_assoc, parseChars_escapeUnit.
      rewrite IH by lia. reflexivity.
Qed.

Lemma parseString_quote (s rest : list N) :
  parseString (quote s ++ rest) = Some (s, rest).
Proof.
  unfold quote. cbn [app parseString]. rewrite <- app_assoc. cbn [app].
  by apply (parseChars_quoteChars_bounded (length s)).
Qed.

Lemma parseMembers_members (kvs : list (list N * list N)) (fuel : nat) :
  kvs ≠ [] → (length kvs ≤ fuel)%nat →
  parseMembers fuel (members kvs ++ [125%N]) = Some kvs.
Proof.
  revert fuel. induction kvs as [|[k v] kvs IH]; intros fuel Hne Hfuel; [done|].
  destruct fuel as [|fuel]; [cbn in Hfuel; lia|].
  cbn [parseMembers]. destruct kvs as [|kv kvs].
  - cbn [members]. unfold member. cbn [fst snd]. rewrite <- app_assoc.
    rewrite parseString_quote. cbn [mbind option_bind app].
    rewrite parseString_quote. reflexivity.
  - change (members ((k, v) :: kv :: kvs)) with (member (k, v) ++ 44%N :: members (kv :: kvs))%list.
    unfold member at 1. cbn [fst snd]. rewrite <- !app_assoc.
    rewrite parseString_quote. cbn [mbind option_bind app].
    rewrite parseString_quote. cbn [mbind option_bind app].
    rewrite IH; [reflexivity | done | cbn in *; lia].
Qed.

Lemma members_length (kvs : list (list N * list N)) :
  (length kvs ≤ length (members kvs))%nat.
Proof.
  induction kvs as [|[k v] [|kv kvs] IH].
  - done.
  - cbn. lia.
  - change (members ((k, v) :: kv :: kvs)) with (member (k, v) ++ 44%N :: members (kv :: kvs))%list.
    rewrite length_app. cbn [length] in *. lia.
Qed.

(** Reading the text of an object gives back its defined properties. *)
Lemma parse_stringify (props : list (list N * option (list N))) :
  parse (stringify props) = Some (list_to_map (reverse (defined props))).
Proof.
  unfold stringify. destruct (defined props) as [|kv kvs] eqn:Hdef; [reflexivity|].
  assert (Hm : ∃ rest, members (kv :: kvs) = 34%N :: rest).
  { destruct kv as [k v]. destruct kvs; cbn; eauto. }
  destruct Hm as [rest Hm]. unfold parse.
  rewrite Hm. cbn [app].
  change (34%N :: (rest ++ [125%N])%list) with ((34%N :: rest) ++ [125%N])%list.
  rewrite <- Hm.
  rewrite parseMembers_members; [reflexivity | done |].
  rewrite length_app. pose proof (members_length (kv :: kvs)). lia.
Qed.

End JSONRoundTrip.

Section TicketRoundTrip.
Import JSON EmailService.

Lemma decode_payload (r n t : option (list N)) :
  (λ o : gmap (list N) (list N),
     (o !! code_units "regId", o !! code_units "name", o !! code_units "team"))
  <$> parse (stringify [(code_units "regId", r); (code_units "name", n); (code_units "team", t)])
  = Some (r, n, t).
Proof.
  rewrite parse_stringify. destruct r, n, t; vm_compute; reflexivity.
Qed.

Lemma code_units_inj (s s' : string) : code_units s = code_units s' → s = s'.
Proof.
  unfold code_units. intros H.
  assert (Hl : list_ascii_of_string s = list_ascii_of_string s').
  { revert H. generalize (list_ascii_of_string s) (list_ascii_of_string s').
    induction l as [|a l IH]; intros [|b l'] H; cbn in H; try done.
    injection H as Hab Hl. f_equal; [|by apply IH].
    rewrite <- (ascii_N_embedding a), <- (ascii_N_embedding b). by rewrite Hab. }
  rewrite <- (string_of_list_ascii_of_string s), <- (string_of_list_ascii_of_string s').
  by rewrite Hl.
Qed.

Lemma code_units_fmap_inj (o o' : option string) :
  code_units <$> o = code_units <$> o' → o = o'.
Proof. destruct o, o'; cbn; intros [=]; [f_equal; by apply code_units_inj | done]. Qed.

(** C8. Every ticket that [generateETicket] produces carries, in its
    code, a text from which decoding gives back exactly the registration
    id, the member name and the team name it was generated from; a ticket
    is produced whenever the code renderer accepts the text; and the text
    determines the three values: two requests with the same text agree on
    them. *)
Theorem ticket_payload_round_trip {C : Type} (env : Env) (data : ETicketData) (s : Sys C) :
  qr_fails env (qrData data) = false →
  (∃ (t : Ticket) (s' : Sys C),
     generateETicket env data s = (inr t, s') ∧
     decodeTicket t =
       Some (code_units <$> registrationId data,
             code_units <$> (member data !! "name"),
             code_units <$> teamName data)) ∧
  (∀ data' : ETicketData, qrData data' = qrData data →
     registrationId data' = registrationId data ∧
     member data' !! "name" = member data !! "name" ∧
     teamName data' = teamName data).
Proof.
  intros Hqr. split.
  - unfold generateETicket. eexists _, _. split.
    + unfold mbind, M_bind, emit, modify_world. cbn. rewrite Hqr. reflexivity.
    + unfold decodeTicket. cbn [qrCode]. unfold qrData. apply decode_payload.
  - intros data' Heq.
    pose proof (decode_payload (code_units <$> registrationId data')
                  (code_units <$> (member data' !! "name"))
                  (code_units <$> teamName data')) as H'.
    pose proof (decode_payload (code_units <$> registrationId data)
                  (code_units <$> (member data !! "name"))
                  (code_units <$> teamName data)) as H.
    fold (qrData data') in H'. fold (qrData data) in H. rewrite Heq, H in H'.
    injection H' as Hr Hn Ht.
    repeat split; by apply code_units_fmap_inj.
Qed.

End TicketRoundTrip.

(** ** Runs that only append to the trace *)

Section Emits.
Context {C : Type}.

Lemma appended_nil (w : World) : appended w [] = w.
Proof. destruct w. unfold appended. cbn. by rewrite app_nil_r. Qed.

Lemma appended_app (w : World) (e1 e2 : list Event) :
  appended (appended w e1) e2 = appended w (e1 ++ e2).
Proof. unfold appended. cbn. by rewrite app_assoc. Qed.

Lemma emits_ret {A} (a : A) : emits (C:=C) (mret a) [] (inr a).
Proof. intros [c w]. unfold mret, M_ret. cbn. by rewrite appended_nil. Qed.

Lemma emits_throw {A} (e : Exn) : emits (C:=C) (A:=A) (throw e) [] (inl e).
Proof. intros [c w]. unfold throw. cbn. by rewrite appended_nil. Qed.

Lemma emits_emit (ev : Event) : emits (C:=C) (emit ev) [ev] (inr ()).
Proof. intros [c w]. reflexivity. Qed.

Lemma emits_bind {A B} (m : M C A) (f : A → M C B) e1 e2 a r :
  emits m e1 (inr a) → emits (f a) e2 r → emits (m ≫= f) (e1 ++ e2) r.
Proof.
  intros Hm Hf s. unfold mbind, M_bind. rewrite Hm, Hf. cbn. by rewrite appended_app.
Qed.

Lemma emits_bind_throw {A B} (m : M C A) (f : A → M C B) e1 x :
  emits m e1 (inl x) → emits (m ≫= f) e1 (inl x).
Proof. intros Hm s. unfold mbind, M_bind. by rewrite Hm. Qed.

Lemma emits_try_catch_ok {A} (m : M C A) (h : Exn → M C A) e a :
  emits m e (inr a) → emits (try_catch m h) e (inr a).
Proof. intros Hm s. unfold try_catch. by rewrite Hm. Qed.

Lemma emits_try_catch_thrown {A} (m : M C A) (h : Exn → M C A) e1 e2 x r :
  emits m e1 (inl x) → emits (h x) e2 r → emits (try_catch m h) (e1 ++ e2) r.
Proof.
  intros Hm Hh s. unfold try_catch. rewrite Hm, Hh. cbn. by rewrite appended_app.
Qed.

End Emits.

(** ** Fan-out: what a dispatch does *)

Section FanOutFacts.
Import EmailService EmailDashboard FanOut.
Context {C : Type}.

Lemma generateETicket_emits (env : Env) (data : ETicketData) :
  emits (C:=C) (generateETicket env data) [EvQRCode (qrData data)]
    (if qr_fails env (qrData data)
     then inl (Error "The amount of data is too big to be stored in a QR Code")
     else inr (ticketOf data)).
Proof.
  unfold generateETicket. change [EvQRCode (qrData data)] with ([EvQRCode (qrData data)] ++ []).
  eapply emits_bind; [apply emits_emit|].
  destruct (qr_fails env (qrData data)); [apply emits_throw | apply emits_ret].
Qed.

Lemma sendEmail_emits (env : Env) to subject html att :
  emits (C:=C) (sendEmail env to subject html att) [EvSendMail to subject html att]
    (inr (negb (transport_fails env to))).
Proof.
  unfold sendEmail. change [EvSendMail to subject html att] with ([EvSendMail to subject html att] ++ []).
  eapply emits_bind; [apply emits_emit|].
  destruct (transport_fails env to); apply emits_ret.
Qed.

Lemma inviteMember_emits (env : Env) (teamData : Doc) (wd : WorkshopDetails) (m : Member) :
  let q := qrData (eTicketData teamData wd m) in
  emits (C:=C) (inviteMember env teamData wd m)
    (if qr_fails env q then [EvQRCode q] else [EvQRCode q; inviteMail teamData wd m])
    (if qr_fails env q
     then inl (Error "The amount of data is too big to be stored in a QR Code")
     else inr ()).
Proof.
  intros q. unfold inviteMember. fold (eTicketData teamData wd m).
  pose proof (generateETicket_emits env (eTicketData teamData wd m)) as Hg. fold q in Hg.
  destruct (qr_fails env q).
  - by apply emits_bind_throw.
  - change [EvQRCode q; inviteMail teamData wd m]
      with ([EvQRCode q] ++ ([inviteMail teamData wd m] ++ [])).
    eapply emits_bind; [exact Hg|].
    eapply emits_bind; [apply sendEmail_emits | apply emits_ret].
Qed.

Lemma forEach_inviteMember_emits (env : Env) (teamData : Doc) (wd : WorkshopDetails)
    (ms : list Member) :
  ∃ r, emits (C:=C) (forEach ms (inviteMember env teamData wd))
         (membersEvents env teamData wd ms).1 r ∧
       match r with inr _ => (membersEvents env teamData wd ms).2 = true
                  | inl _ => (membersEvents env teamData wd ms).2 = false end.
Proof.
  induction ms as [|m ms (r & IH & Hr)].
  - exists (inr ()). split; [apply emits_ret | reflexivity].
  - cbn [forEach membersEvents].
    pose proof (inviteMember_emits env teamData wd m) as Hm. cbv zeta in Hm.
    destruct (qr_fails env (qrData (eTicketData teamData wd m))).
    + eexists. split; [by apply emits_bind_throw | reflexivity].
    + exists r. split; [|exact Hr]. cbn [fst snd].
      change (EvQRCode ?q :: inviteMail teamData wd m :: ?l)
        with ([EvQRCode q; inviteMail teamData wd m] ++ l).
      eapply emits_bind; [exact Hm | exact IH].
Qed.

(** [sendWorkshopInvite] never throws; it answers whether its loop ran to
    the end. *)
Lemma sendWorkshopInvite_emits (env : Env) (teamData : Doc) (wd : WorkshopDetails) :
  emits (C:=C) (sendWorkshopInvite env teamData wd)
    (inviteEvents env wd teamData).1 (inr (inviteEvents env wd teamData).2).
Proof.
  unfold sendWorkshopInvite, inviteEvents.
  destruct (iterate (teamData !! "members")) as [ms|].
  - destruct (forEach_inviteMember_emits env teamData wd ms) as ([e|[]] & Hem & Hr).
    + rewrite Hr, <- (app_nil_r (_.1)).
      eapply emits_try_catch_thrown; [|apply emits_ret].
      by apply emits_bind_throw.
    + rewrite Hr. apply emits_try_catch_ok.
      rewrite <- (app_nil_r (_.1)). eapply emits_bind; [exact Hem | apply emits_ret].
  - cbn [fst snd]. change [] with (@nil Event ++ []).
    eapply emits_try_catch_thrown; [apply emits_throw | apply emits_ret].
Qed.

End FanOutFacts.

Section Dispatch.
Import EmailService EmailDashboard FanOut.

Lemma sendAll_emits (env : Env) (ts : list Doc) (wd : WorkshopDetails) (counts : Z * Z) :
  emits (sendAll env ts wd counts)
    (concat ((λ t, (inviteEvents env wd t).1) <$> ts))
    (inr (tally counts ((λ t, (inviteEvents env wd t).2) <$> ts))).
Proof.
  revert counts. induction ts as [|t ts IH]; intros counts.
  - apply emits_ret.
  - cbn [sendAll fmap list_fmap concat tally foldl].
    eapply emits_bind; [apply sendWorkshopInvite_emits | apply IH].
Qed.

Lemma tally_sum (counts : Z * Z) (oks : list bool) :
  let r := tally counts oks in
  r.1 + r.2 = counts.1 + counts.2 + Z.of_nat (length oks) ∧ counts.1 ≤ r.1 ∧ counts.2 ≤ r.2.
Proof.
  revert counts. induction oks as [|ok oks IH]; intros counts; cbn.
  - lia.
  - specialize (IH (if ok then (counts.1 + 1, counts.2) else (counts.1, counts.2 + 1))).
    cbv zeta in IH. unfold tally in IH. destruct ok; cbn in IH; lia.
Qed.

(** The effects of inviting a team do not mention the transport. *)
Lemma inviteEvents_with_transport (tf : option string → bool) (env : Env)
    (wd : WorkshopDetails) (t : Doc) :
  inviteEvents (with_transport tf env) wd t = inviteEvents env wd t.
Proof.
  unfold inviteEvents. destruct (iterate (t !! "members")) as [ms|]; [|reflexivity].
  induction ms as [|m ms IH]; [reflexivity|].
  cbn [membersEvents with_transport qr_fails]. by rewrite IH.
Qed.

(** A dispatch with complete workshop details: the state it leaves. *)
Lemma handleSendWorkshopInvites_run (env : Env) (c : State) (w : World) :
  complete (workshopDetails c) →
  let counts := tally (0, 0) ((λ t, (inviteEvents env (workshopDetails c) t).2) <$> teams c) in
  handleSendWorkshopInvites env (MkSys c w) =
  (inr (Some counts),
   MkSys (setSending false (setSuccess (successMessage counts) (setSending true c)))
         (appended w (concat ((λ t, (inviteEvents env (workshopDetails c) t).1) <$> teams c)))).
Proof.
  intros (Ht & Hd & Hv) counts. unfold handleSendWorkshopInvites.
  unfold mbind at 1. unfold M_bind at 1. cbn [get_comp comp].
  rewrite !bool_decide_eq_false_2 by done. cbn [orb].
  unfold finally, try_catch.
  unfold mbind at 1. unfold M_bind at 1. cbn [modify_comp comp world].
  unfold mbind at 1. unfold M_bind at 1.
  rewrite (sendAll_emits env (teams c) (workshopDetails c) (0, 0)).
  reflexivity.
Qed.

(** C5 (as the code has it). A dispatch with complete workshop details
    raises no batch-level error and reports two counters that count teams:
    they add up to the number of teams dispatched.  A member whose mail
    cannot be delivered does not stop the batch: the effects of the
    dispatch are the same whatever the transport does. *)
Theorem workshop_dispatch_counts_teams (env : Env) (c : State) (w : World) :
  complete (workshopDetails c) →
  ∃ (successCount failCount : Z) (s' : Sys State),
    handleSendWorkshopInvites env (MkSys c w) = (inr (Some (successCount, failCount)), s') ∧
    0 ≤ successCount ∧ 0 ≤ failCount ∧
    successCount + failCount = Z.of_nat (length (teams c)) ∧
    error (comp s') = error c ∧
    success (comp s') = successMessage (successCount, failCount) ∧
    sending (comp s') = false ∧
    ∀ tf, trace (world (handleSendWorkshopInvites (with_transport tf env) (MkSys c w)).2)
          = trace (world s').
Proof.
  intros Hwd. pose proof (handleSendWorkshopInvites_run env c w Hwd) as Hrun. cbv zeta in Hrun.
  pose proof (tally_sum (0, 0) ((λ t, (inviteEvents env (workshopDetails c) t).2) <$> teams c)) as Hsum.
  cbv zeta in Hsum. rewrite length_fmap in Hsum. cbn [fst snd] in Hsum.
  destruct (tally (0, 0) _) as [sc fc] eqn:Htally.
  exists sc, fc. eexists. split; [exact Hrun|].
  cbn [fst snd] in Hsum. repeat split; try lia.
  intros tf. rewrite (handleSendWorkshopInvites_run (with_transport tf env) c w Hwd).
  cbn [snd world]. do 3 f_equal.
  apply list_fmap_ext. intros _ t _. by rewrite inviteEvents_with_transport.
Qed.

Lemma workshop_dispatch_counts_teams_witness :
  ∃ (successCount failCount : Z) (s' : Sys State),
    handleSendWorkshopInvites boBounces trioDashboard = (inr (Some (successCount, failCount)), s') ∧
    0 ≤ successCount ∧ 0 ≤ failCount ∧
    successCount + failCount = 1 ∧
    error (comp s') = "" ∧
    success (comp s') = successMessage (successCount, failCount) ∧
    sending (comp s') = false ∧
    ∀ tf, trace (world (handleSendWorkshopInvites (with_transport tf boBounces) trioDashboard).2)
          = trace (world s').
Proof.
  apply (workshop_dispatch_counts_teams boBounces (comp trioDashboard) (world trioDashboard)).
  unfold complete. cbn. repeat split; discriminate.
Defined.

(** C5 (as stated) fails: for one team of three members with the
    transport failing for exactly one of them, the dispatch reports one
    success and no failure, not two successes and one failure. *)
Lemma workshop_counts_counterexample :
  iterate (trio !! "members") = Some
    [ {[ "name" := "Asha"; "email" := "asha@example.org"; "phone" := "1" ]};
      {[ "name" := "Bo"; "email" := "bo@example.org"; "phone" := "2" ]};
      {[ "name" := "Chen"; "email" := "chen@example.org"; "phone" := "3" ]} ] ∧
  transport_fails boBounces <$>
    [Some "asha@example.org"; Some "bo@example.org"; Some "chen@example.org"]
    = [false; true; false] ∧
  (handleSendWorkshopInvites boBounces trioDashboard).1 = inr (Some (1, 0)) ∧
  (handleSendWorkshopInvites boBounces trioDashboard).1 ≠ inr (Some (2, 1)) ∧
  success (comp (handleSendWorkshopInvites boBounces trioDashboard).2)
    = "Successfully sent 1 invites".
Proof.
  assert (H : (handleSendWorkshopInvites boBounces trioDashboard).1 = inr (Some (1, 0)))
    by (vm_compute; reflexivity).
  split; [vm_compute; reflexivity|]. split; [vm_compute; reflexivity|].
  split; [exact H|]. split; [rewrite H; discriminate|].
  vm_compute. reflexivity.
Qed.

End Dispatch.

Section FilteredDispatch.
Import EmailService EmailDashboard FanOut.

Lemma fieldIncludes_typed (v : option Val) (term : string) :
  stringOrAbsent v →
  fieldIncludes v term =
  inr match as_string v with
      | Some s => includes (toLowerCase s) (toLowerCase term)
      | None => false
      end.
Proof. destruct v as [[]|]; cbn; done. Qed.

Lemma filterThrowing_typed (term : string) (ts : list Doc) :
  Forall (λ t, stringOrAbsent (t !! "teamName") ∧ stringOrAbsent (t !! "registrationId")) ts →
  filterThrowing (matchesSearch term) ts = inr (filter (λ t, searchHit term t = true) ts).
Proof.
  induction 1 as [|t ts [Hn Hr] _ IH]; [reflexivity|].
  cbn [filterThrowing]. rewrite IH. unfold matchesSearch, searchHit.
  rewrite (fieldIncludes_typed _ _ Hn), (fieldIncludes_typed _ _ Hr).
  rewrite filter_cons. unfold searchHit.
  destruct (match as_string (t !! "teamName") with Some _ => _ | None => _ end);
    cbn [orb].
  - by rewrite decide_True.
  - destruct (match as_string (t !! "registrationId") with Some _ => _ | None => _ end).
    + by rewrite decide_True.
    + by rewrite decide_False.
Qed.

Lemma registeredTeams_typed (st : Store) :
  wellTypedTeams st →
  Forall (λ t, stringOrAbsent (t !! "teamName") ∧ stringOrAbsent (t !! "registrationId"))
         (registeredTeams st).
Proof.
  intros Hwt. unfold registeredTeams. apply Forall_fmap, Forall_forall.
  intros [id d] Hin. apply elem_of_docsOf in Hin.
  destruct (Hwt id d Hin) as [Hn Hr]. unfold spread. cbn.
  rewrite !lookup_union, !lookup_singleton_ne by done.
  by rewrite !(right_id None _).
Qed.

(** The status half of [fetchTeams] keeps what the status filter is
    meant to keep. *)
Lemma matchesStatus_keptByStatus (f : FilterStatus) (l : list Doc) :
  (if decide (f = all) then l else filter (λ t, matchesStatus f t = true) l)
  = filter (λ t, keptByStatus f t = true) l.
Proof.
  destruct f; cbn [keptByStatus].
  - rewrite decide_True by done.
    induction l as [|t l IH]; [done|]. rewrite filter_cons_True by done. by f_equal.
  - rewrite decide_False by done. apply list_filter_iff. intros t.
    unfold matchesStatus, selectedForPhase2. by rewrite decide_True.
  - rewrite decide_False by done. apply list_filter_iff. intros t.
    unfold matchesStatus, selectedForPhase2. by rewrite decide_False.
Qed.

(** What [fetchTeams] leaves on a well-typed store. *)
Lemma fetchTeams_run (c : State) (w : World) :
  wellTypedTeams (store w) →
  fetchTeams (MkSys c w) =
  (inr (),
   MkSys (setLoading false
            (setTeams (narrowed (store w) (searchTerm c) (filterStatus c)) (setLoading true c)))
         (appended w [EvGetDocs "teams"])).
Proof.
  intros Hwt. unfold fetchTeams, finally, try_catch.
  unfold mbind at 1. unfold M_bind at 1. cbn [modify_comp comp world].
  unfold mbind at 1. unfold M_bind at 1. cbn [get_comp comp world].
  unfold mbind at 1. unfold M_bind at 1.
  unfold getDocs. unfold mbind at 1. unfold M_bind at 1.
  cbn [emit modify_world comp world]. unfold mbind at 1. unfold M_bind at 1.
  cbn [get_world comp world store]. unfold mret at 1. unfold M_ret at 1.
  cbn [setLoading searchTerm filterStatus].
  fold (registeredTeams (store w)).
  unfold narrowed. destruct (bool_decide (searchTerm c = "")) eqn:Hterm.
  - unfold mbind at 1. unfold M_bind at 1. unfold mret at 1. unfold M_ret at 1.
    by rewrite matchesStatus_keptByStatus.
  - rewrite (filterThrowing_typed _ _ (registeredTeams_typed _ Hwt)).
    unfold liftExn. unfold mbind at 1. unfold M_bind at 1. unfold mret at 1. unfold M_ret at 1.
    by rewrite matchesStatus_keptByStatus.
Qed.

Lemma fetchTeams_inSync (st : Store) (c : State) (w : World) :
  wellTypedTeams st → store w = st →
  ∃ s', fetchTeams (MkSys c w) = (inr (), s') ∧ inSync st s' ∧
        searchTerm (comp s') = searchTerm c ∧ filterStatus (comp s') = filterStatus c ∧
        workshopDetails (comp s') = workshopDetails c.
Proof.
  intros Hwt <-. rewrite fetchTeams_run by done. eexists. split; [reflexivity|].
  repeat split.
Qed.

Lemma act_inSync (st : Store) (a : Action) (s : Sys State) :
  wellTypedTeams st → inSync st s →
  ∃ s', act a s = (inr (), s') ∧ inSync st s'.
Proof.
  intros Hwt [Hst Hteams]. destruct s as [c w]. cbn in Hst, Hteams.
  destruct a as [term|f|wd]; unfold act.
  - unfold mbind at 1. unfold M_bind at 1. cbn [get_comp comp].
    case_bool_decide.
    + eexists. split; [reflexivity|]. by split.
    + unfold mbind at 1. unfold M_bind at 1. cbn [modify_comp comp world].
      destruct (fetchTeams_inSync st (setSearchTerm term c) w Hwt Hst) as (s' & -> & Hs' & _).
      eauto.
  - unfold mbind at 1. unfold M_bind at 1. cbn [get_comp comp].
    case_bool_decide.
    + eexists. split; [reflexivity|]. by split.
    + unfold mbind at 1. unfold M_bind at 1. cbn [modify_comp comp world].
      destruct (fetchTeams_inSync st (setFilterStatus f c) w Hwt Hst) as (s' & -> & Hs' & _).
      eauto.
  - eexists. split; [reflexivity|]. by split.
Qed.

Lemma session_inSync (st : Store) (actions : list Action) (w : World) :
  wellTypedTeams st → store w = st →
  ∃ s', session actions (MkSys initialState w) = (inr (), s') ∧ inSync st s'.
Proof.
  intros Hwt Hst. unfold session, mount.
  destruct (fetchTeams_inSync st initialState w Hwt Hst) as (s0 & Hrun & Hs0 & _).
  unfold mbind at 1. unfold M_bind at 1. rewrite Hrun. clear Hrun.
  revert s0 Hs0. induction actions as [|a actions IH]; intros s0 Hs0.
  - by exists s0.
  - cbn [forEach]. destruct (act_inSync st a s0 Hwt Hs0) as (s1 & Hact & Hs1).
    unfold mbind at 1. unfold M_bind at 1. rewrite Hact. by apply IH.
Qed.

Lemma elem_of_concat {A} (x : A) (ls : list (list A)) :
  x ∈ concat ls → ∃ l, x ∈ l ∧ l ∈ ls.
Proof.
  induction ls as [|l ls IH]; cbn.
  - by intros ?%elem_of_nil.
  - intros [Hx|Hx]%elem_of_app.
    + exists l. split; [done|left].
    + destruct (IH Hx) as (l' & ? & ?). exists l'. split; [done|by right].
Qed.

Lemma membersEvents_mail (env : Env) (t : Doc) (wd : WorkshopDetails) (ms : list Member)
    (ev : Event) :
  ev ∈ (membersEvents env t wd ms).1 →
  (∃ q, ev = EvQRCode q) ∨ (∃ m, m ∈ ms ∧ ev = inviteMail t wd m).
Proof.
  induction ms as [|m ms IH]; cbn [membersEvents].
  - cbn. by intros ?%elem_of_nil.
  - destruct (qr_fails env _); cbn [fst].
    + intros ->%list_elem_of_singleton. left. eauto.
    + intros [->|[->|Hin]%elem_of_cons]%elem_of_cons.
      * left. eauto.
      * right. exists m. split; [left|done].
      * destruct (IH Hin) as [?|(m' & ? & ?)]; [by left|].
        right. exists m'. split; [by right|done].
Qed.

(** X29. When every fetch of the session succeeds (team names and
    registration ids are strings where present), after mounting the
    dashboard and any sequence of edits of the search box, the status
    filter and the workshop form, a dispatch has exactly the effects of
    inviting, in ascending order of their ids, the teams narrowed by the
    current search term and status filter; every mail of the batch goes to
    a member of such a team. *)
Theorem invites_follow_active_filter (env : Env) (w : World) (actions : list Action) :
  wellTypedTeams (store w) →
  let s := (session actions (MkSys initialState w)).2 in
  let wd := workshopDetails (comp s) in
  let chosen := narrowed (store w) (searchTerm (comp s)) (filterStatus (comp s)) in
  complete wd →
  teams (comp s) = chosen ∧
  (∃ batch, trace (world (handleSendWorkshopInvites env s).2) = trace (world s) ++ batch ∧
            batch = concat ((λ t, (inviteEvents env wd t).1) <$> chosen) ∧
            ∀ to subject html att, EvSendMail to subject html att ∈ batch →
              ∃ t ms m, t ∈ chosen ∧ iterate (t !! "members") = Some ms ∧ m ∈ ms ∧
                        EvSendMail to subject html att = inviteMail t wd m).
Proof.
  intros Hwt s wd chosen Hwd.
  destruct (session_inSync (store w) actions w Hwt eq_refl) as (s' & Hrun & Hst' & Hteams).
  assert (s = s') as Hs by (unfold s; by rewrite Hrun).
  clearbody s. subst s'. split; [exact Hteams|].
  eexists. split; [|split; [reflexivity|]].
  - destruct s as [c w']. rewrite (handleSendWorkshopInvites_run env c w' Hwd).
    cbn [snd world appended trace comp]. cbn in Hteams. rewrite Hteams. reflexivity.
  - intros to subject html att Hin.
    apply elem_of_concat in Hin as (evs & Hin & Hevs).
    apply list_elem_of_fmap in Hevs as (t & -> & Ht).
    unfold inviteEvents in Hin.
    destruct (iterate (t !! "members")) as [ms|] eqn:Hms; [|by apply elem_of_nil in Hin].
    apply membersEvents_mail in Hin as [[q Hq]|(m & Hm & Hev)]; [done|].
    exists t, ms, m. done.
Qed.

End FilteredDispatch.

Section FilteredDispatchWitness.
Import EmailService EmailDashboard FanOut.

Lemma invites_follow_active_filter_witness :
  let s := (session adminActions (MkSys initialState twoTeams)).2 in
  let wd := workshopDetails (comp s) in
  let chosen := narrowed (store twoTeams) (searchTerm (comp s)) (filterStatus (comp s)) in
  teams (comp s) = chosen ∧
  (∃ batch, trace (world (handleSendWorkshopInvites boBounces s).2) = trace (world s) ++ batch ∧
            batch = concat ((λ t, (inviteEvents boBounces wd t).1) <$> chosen) ∧
            ∀ to subject html att, EvSendMail to subject html att ∈ batch →
              ∃ t ms m, t ∈ chosen ∧ iterate (t !! "members") = Some ms ∧ m ∈ ms ∧
                        EvSendMail to subject html att = inviteMail t wd m).
Proof.
  apply (invites_follow_active_filter boBounces twoTeams adminActions).
  - unfold wellTypedTeams. apply (bool_decide_unpack _). vm_compute. exact I.
  - vm_compute. repeat split; discriminate.
Defined.

(** Of the two registered teams only the selected one is listed, and the
    batch writes to its three members, the one whose mail bounces
    included. *)
Example narrowed_twoTeams_example :
  let s := (session adminActions (MkSys initialState twoTeams)).2 in
  (λ t : Doc, t !! "teamName") <$> teams (comp s) = [Some (VStr "Rocket")] ∧
  omap (λ ev, match ev with EvSendMail to _ _ _ => Some to | _ => None end)
       (trace (world (handleSendWorkshopInvites boBounces s).2))
    = [Some "asha@example.org"; Some "bo@example.org"; Some "chen@example.org"].
Proof. cbv zeta. split; vm_compute; reflexivity. Qed.

End FilteredDispatchWitness.

Section StaleTeamList.
Import EmailService EmailDashboard FanOut StaleList.

(** C10, at an input where the code departs from it.  One registered
    team stores a number as its name.  The list fetched at mount (empty
    search) holds the three teams.  When the admin types "rocket" the
    refetch throws inside the search filter; the handler reports "Failed
    to fetch teams" and leaves the list as it was.  The search box now
    narrows to Rocket alone, yet the dispatch invites the members of all
    three teams, Comet's among them. *)
Theorem failed_fetch_keeps_stale_list :
  let s := (session searchRocket (MkSys initialState threeTeams)).2 in
  let chosen := narrowed (store threeTeams) (searchTerm (comp s)) (filterStatus (comp s)) in
  let batch := (handleSendWorkshopInvites (reliable 1740000000000) s) in
  (searchTerm (comp s) = "rocket" ∧ filterStatus (comp s) = all ∧
   complete (workshopDetails (comp s))) ∧
  EmailDashboard.error (comp s) = "Failed to fetch teams" ∧
  (λ t : Doc, t !! "teamName") <$> chosen = [Some (VStr "Rocket")] ∧
  (λ t : Doc, t !! "teamName") <$> teams (comp s)
    = [Some (VStr "Rocket"); Some (VStr "Comet"); Some (VNum 7)] ∧
  batch.1 = inr (Some (3, 0)) ∧
  recipients (trace (world batch.2))
    = [Some "asha@example.org"; Some "bo@example.org"; Some "chen@example.org";
       Some "dee@example.org"; Some "eli@example.org"] ∧
  comet !! "teamName" = Some (VStr "Comet") ∧
  searchHit "rocket" (spread {["id" := VStr "u2"]} comet) = false.
Proof.
  cbv zeta. split; [split; [|split]|]; [vm_compute; reflexivity.. | |].
  - unfold complete. vm_compute. repeat split; discriminate.
  - repeat split; vm_compute; reflexivity.
Qed.

End StaleTeamList.


(** ** Identity Resolver *)

Ltac mrun :=
  repeat first
    [ progress unfold mbind, M_bind, mret, M_ret, throw, try_catch, finally,
        get_comp, modify_comp, get_world, modify_world, emit, put_store,
        getDoc, getDocs, getDocsWhere, setDoc, setDocMerge, updateDoc
    | progress cbn beta iota zeta delta [fst snd comp world store bucket trace] ].

Section IdentityResolver.
Import App.

(** C3 (amended in the fallback only). For a participant the callback
    reads the profile and the Team record.  A Team record with
    paymentStatus "paid" gives paid and the Payment log is not consulted.
    Otherwise, when a Team record exists, the email checked is the one
    stored in the profile record when that record exists and the
    principal's only when it does not; when that email is non-empty the
    Payment log is queried for a record with this email and status "paid",
    giving paid when one is found and pending when none is.  With no such
    email, or with no Team record, the log is not consulted and the result
    is pending, in a session that had not resolved to paid before. *)
Theorem payment_resolution (user : User) (c : State) (w : World) :
  participant user →
  let s' := (onAuthStateChanged (Some user) (MkSys c w)).2 in
  let reads := [EvGetDoc "users" (uid user); EvGetDoc "teams" (uid user)] in
  store (world s') = store w ∧
  match lookupDoc (store w) "teams" (uid user) with
  | Some team =>
      if strict_eq (team !! "paymentStatus") (Some (VStr "paid"))
      then paymentStatus (comp s') = paid ∧ trace (world s') = trace w ++ reads
      else
        match emailChecked (store w) user with
        | Some e =>
            if truthy (Some e)
            then paymentStatus (comp s') = (if paidRecord (store w) e then paid else pending) ∧
                 trace (world s') =
                   trace w ++ reads ++ [EvQuery "payments" [("email", e); ("status", VStr "paid")]]
            else (paymentStatus c = pending → paymentStatus (comp s') = pending) ∧
                 trace (world s') = trace w ++ reads
        | None => (paymentStatus c = pending → paymentStatus (comp s') = pending) ∧
                  trace (world s') = trace w ++ reads
        end
  | None => (paymentStatus c = pending → paymentStatus (comp s') = pending) ∧
            trace (world s') = trace w ++ reads
  end.
Proof.
  intros [Hadmin Hfin]. cbv zeta.
  unfold onAuthStateChanged.
  rewrite !bool_decide_eq_false_2 by done.
  unfold checkPayment, emailChecked, paidRecord. mrun.
  assert (Hkeep : ∀ P : Prop, P → P) by done.
  destruct (lookupDoc (store w) "users" (uid user)) as [profile|] eqn:Hprofile;
  destruct (lookupDoc (store w) "teams" (uid user)) as [team|] eqn:Hteam; mrun;
    rewrite ?Hteam; mrun;
    try (split; [reflexivity|]; split; [first [reflexivity | exact (Hkeep _)]|];
         by rewrite <- app_assoc).
  - destruct (strict_eq (team !! "paymentStatus") (Some (VStr "paid"))); mrun.
    { split; [reflexivity|]. split; [reflexivity|]. by rewrite <- app_assoc. }
    destruct (profile !! "email") as [e|]; mrun.
    2:{ split; [reflexivity|]. split; [exact (Hkeep _)|]. by rewrite <- app_assoc. }
    destruct (truthy (Some e)); mrun.
    2:{ split; [reflexivity|]. split; [exact (Hkeep _)|]. by rewrite <- app_assoc. }
    case_bool_decide as Hq; mrun.
    + split; [reflexivity|]. rewrite bool_decide_eq_false_2 by (by intros []).
      split; [reflexivity|]. by rewrite <- !app_assoc.
    + split; [reflexivity|]. rewrite bool_decide_eq_true_2 by done.
      split; [reflexivity|]. by rewrite <- !app_assoc.
  - destruct (strict_eq (team !! "paymentStatus") (Some (VStr "paid"))); mrun.
    { split; [reflexivity|]. split; [reflexivity|]. by rewrite <- app_assoc. }
    destruct (email user) as [e|]; cbn [fmap option_fmap option_map]; mrun.
    2:{ split; [reflexivity|]. split; [exact (Hkeep _)|]. by rewrite <- app_assoc. }
    destruct (truthy (Some (VStr e))); mrun.
    2:{ split; [reflexivity|]. split; [exact (Hkeep _)|]. by rewrite <- app_assoc. }
    case_bool_decide as Hq; mrun.
    + split; [reflexivity|]. rewrite bool_decide_eq_false_2 by (by intros []).
      split; [reflexivity|]. by rewrite <- !app_assoc.
    + split; [reflexivity|]. rewrite bool_decide_eq_true_2 by done.
      split; [reflexivity|]. by rewrite <- !app_assoc.
Qed.

End IdentityResolver.

Section IdentityResolverExamples.
Import App.

Lemma payment_resolution_witness :
  let w := {| store := paidTeamStore; bucket := ∅; trace := [] |} in
  let s' := (onAuthStateChanged (Some asha) (MkSys initialState w)).2 in
  let noTeam := (onAuthStateChanged (Some asha) (MkSys initialState emptyWorld)).2 in
  participant asha ∧
  (paymentStatus (comp s') = paid ∧
   trace (world s') = [EvGetDoc "users" "u1"; EvGetDoc "teams" "u1"]) ∧
  paymentStatus (comp noTeam) = pending.
Proof.
  cbv zeta.
  assert (Hp : participant asha) by (split; discriminate).
  split; [exact Hp|]. split.
  - exact (proj2 (payment_resolution asha initialState
                    {| store := paidTeamStore; bucket := ∅; trace := [] |} Hp)).
  - exact (proj1 (proj2 (payment_resolution asha initialState emptyWorld Hp)) eq_refl).
Defined.

(** C3 (as stated) fails: the profile record exists and stores no email,
    the Team record is not paid, and the Payment log holds a paid record
    for the principal's email.  The stated precedence falls back to the
    principal's email and answers paid; the callback does not query the
    log and leaves the status pending. *)
Lemma payment_fallback_counterexample :
  participant asha ∧
  lookupDoc ashaStore "users" "u1" = Some {[ "name" := VStr "Asha" ]} ∧
  specPaymentStatus ashaStore asha = paid ∧
  paymentStatus (comp (onAuthStateChanged (Some asha) ashaSignsIn).2) = pending ∧
  trace (world (onAuthStateChanged (Some asha) ashaSignsIn).2)
    = [EvGetDoc "users" "u1"; EvGetDoc "teams" "u1"] ∧
  paymentStatus (comp (onAuthStateChanged (Some asha) ashaSignsIn).2)
    ≠ specPaymentStatus ashaStore asha.
Proof.
  assert (H1 : specPaymentStatus ashaStore asha = paid) by (vm_compute; reflexivity).
  assert (H2 : paymentStatus (comp (onAuthStateChanged (Some asha) ashaSignsIn).2) = pending)
    by (vm_compute; reflexivity).
  split; [split; discriminate|]. split; [vm_compute; reflexivity|].
  split; [exact H1|]. split; [exact H2|]. split; [vm_compute; reflexivity|].
  rewrite H1, H2. discriminate.
Qed.

End IdentityResolverExamples.

(** ** Store lemmas *)

Lemma lookupDoc_writeDoc_eq (st : Store) (coll id : string) (d : Doc) :
  lookupDoc (writeDoc st coll id d) coll id = Some d.
Proof.
  unfold lookupDoc, writeDoc, collection.
  rewrite lookup_insert_eq. cbn [default]. apply lookup_insert_eq.
Qed.

Lemma lookupDoc_writeDoc_ne (st : Store) (coll id coll' id' : string)
    (d : Doc) :
  (coll, id) ≠ (coll', id') →
  lookupDoc (writeDoc st coll id d) coll' id' = lookupDoc st coll' id'.
Proof.
  intros Hne. unfold lookupDoc, writeDoc, collection.
  destruct (decide (coll = coll')) as [->|Hc].
  - rewrite lookup_insert_eq. simpl. rewrite lookup_insert_ne by congruence. done.
  - by rewrite lookup_insert_ne.
Qed.

Lemma spread_lookup_new (old new : Doc) (k : string) (v : Val) :
  new !! k = Some v → spread old new !! k = Some v.
Proof. intros H. unfold spread. rewrite lookup_union, H. by destruct (old !! k). Qed.

Lemma spread_lookup_old (old new : Doc) (k : string) :
  new !! k = None → spread old new !! k = old !! k.
Proof. intros H. unfold spread. by rewrite lookup_union, H, (left_id_L None _). Qed.

(** ** Publication *)

Section Publication.
Import AdminDashboard.

(** An unscored submission: the request is refused before any call to
    the store. *)
Lemma publishResults_refused (env : Env) (c : State) (w : World) :
  unscored (submissions c) ≠ [] →
  publishResults env (MkSys c w) =
  (inr (), MkSys (setPublishing false
                    (setError "All submissions must be scored before publishing results"
                       (setPublishing true c))) w).
Proof.
  intros Hne. unfold publishResults. mrun. cbn [setPublishing submissions].
  rewrite bool_decide_eq_true_2; [reflexivity|].
  destruct (unscored (submissions c)); [done | cbn; lia].
Qed.

(** Every submission scored and the configuration document present: the
    flag is set. *)
Lemma publishResults_latches (env : Env) (c : State) (w : World) (old : Doc) :
  unscored (submissions c) = [] →
  lookupDoc (store w) "config" "phase1Results" = Some old →
  let s' := (publishResults env (MkSys c w)).2 in
  published (store (world s')) = true ∧
  success (comp s') = "Results published successfully!" ∧ error (comp s') = error c.
Proof.
  intros Hall Hold. unfold publishResults. mrun. cbn [setPublishing submissions].
  rewrite Hall. cbn [length]. rewrite bool_decide_eq_false_2 by lia. mrun.
  rewrite Hold. mrun. rewrite Hold. mrun.
  split; [|done]. unfold published. rewrite lookupDoc_writeDoc_eq. cbn [mbind option_bind].
  by rewrite (spread_lookup_new _ _ _ (VBool true)).
Qed.

(** Every submission scored and no configuration document: [updateDoc]
    is rejected, nothing is written and the flag stays unset. *)
Lemma publishResults_no_config (env : Env) (c : State) (w : World) :
  unscored (submissions c) = [] →
  lookupDoc (store w) "config" "phase1Results" = None →
  let s' := (publishResults env (MkSys c w)).2 in
  store (world s') = store w ∧ published (store (world s')) = false ∧
  error (comp s') = "No document to update: config/phase1Results" ∧
  success (comp s') = success c.
Proof.
  intros Hall Hnone. unfold publishResults. mrun. cbn [setPublishing submissions].
  rewrite Hall. cbn [length]. rewrite bool_decide_eq_false_2 by lia. mrun.
  rewrite Hnone. mrun. rewrite Hnone. mrun.
  split; [reflexivity|]. split; [|done]. unfold published. by rewrite Hnone.
Qed.

(** C2, at the input where the code departs from it: every known
    submission is scored and [config/phase1Results] does not exist yet.
    The operation does not succeed: it reports the store's not-found error,
    performs no write and leaves [published] unset. *)
Theorem publish_all_scored_without_config (env : Env) :
  let s' := (publishResults env allScoredNoConfig).2 in
  unscored (submissions (comp allScoredNoConfig)) = [] ∧
  lookupDoc (store (world allScoredNoConfig)) "config" "phase1Results" = None ∧
  store (world s') = store (world allScoredNoConfig) ∧
  published (store (world s')) = false ∧
  error (comp s') = "No document to update: config/phase1Results" ∧
  success (comp s') = "".
Proof.
  cbv zeta.
  assert (H1 : unscored (submissions (comp allScoredNoConfig)) = []) by (vm_compute; reflexivity).
  assert (H2 : lookupDoc (store (world allScoredNoConfig)) "config" "phase1Results" = None)
    by (vm_compute; reflexivity).
  split; [exact H1|]. split; [exact H2|].
  exact (publishResults_no_config env (comp allScoredNoConfig) (world allScoredNoConfig) H1 H2).
Qed.

Example publish_refused_example (env : Env) :
  let s' := (publishResults env oneUnscored).2 in
  error (comp s') = "All submissions must be scored before publishing results" ∧
  world s' = world oneUnscored ∧ published (store (world s')) = false.
Proof.
  cbv zeta. change oneUnscored with (MkSys (comp oneUnscored) (world oneUnscored)).
  rewrite (publishResults_refused env (comp oneUnscored) (world oneUnscored)).
  - repeat split.
  - vm_compute. discriminate.
Qed.

End Publication.

(** ** Phase-1 submission: locking *)

Section Locking.
Import PhaseOneForm.
Context (userId userName : string).

Lemma sameButVideo_refl (d : Doc) : sameButVideo d d.
Proof. by intros k _ _. Qed.

Lemma sameButVideo_trans (d1 d2 d3 : Doc) :
  sameButVideo d1 d2 → sameButVideo d2 d3 → sameButVideo d1 d3.
Proof. intros H12 H23 k Hy Hu. by rewrite H23, H12. Qed.

Lemma sameButVideo_update (old : Doc) (link t : Val) :
  sameButVideo old (spread old {[ "youtubeLink" := link; "updatedAt" := t ]}).
Proof.
  intros k Hy Hu. apply spread_lookup_old.
  rewrite lookup_insert_ne by done. by rewrite lookup_singleton_ne.
Qed.

(** Mounting reads the store and sets [isSubmitted] when the submission
    exists. *)
Lemma loadSubmissionData_locked (c : State) (w : World) :
  ∃ s', loadSubmissionData userId (MkSys c w) = (inr (), s') ∧
        store (world s') = store w ∧ locked userId s'.
Proof.
  unfold loadSubmissionData, locked, submission. mrun.
  destruct (lookupDoc (store w) "teams" userId) as [teamData|]; mrun;
  match goal with |- context [truthy ?x] => destruct (truthy x) end; mrun;
  destruct (lookupDoc (store w) "phase1_submissions" userId) as [data|] eqn:Hsub; mrun;
  cbn [andb];
  try destruct (negb (strict_eq (data !! "points") None)); mrun;
  destruct (lookupDoc (store w) "rec_students" userId) as [rec|]; mrun;
  (eexists; split; [reflexivity|]; split; [reflexivity|]; cbn; rewrite ?Hsub;
   first [done | by intros [? ?]]).
Qed.

Lemma keeps_same_store (c c' : State) (w w' : World) :
  store w' = store w → isSubmitted c' = isSubmitted c →
  locked userId (MkSys c w) → keeps userId (MkSys c w) (MkSys c' w').
Proof.
  intros Hst Hsub Hl. unfold keeps, locked, submission in *. cbn in *.
  rewrite Hst, Hsub. split; [done|].
  intros d Hd. exists d. split; [done | apply sameButVideo_refl].
Qed.

Lemma handleChange_keeps (field value : string) (s : Sys State) :
  locked userId s → ∃ s', handleChange field value s = (inr (), s') ∧ keeps userId s s'.
Proof.
  intros Hl. destruct s as [c w]. unfold handleChange. mrun.
  destruct (_ || _); mrun; eexists; (split; [reflexivity|]); by apply keeps_same_store.
Qed.

Lemma handleFileChange_keeps (files : list File) (s : Sys State) :
  locked userId s → ∃ s', handleFileChange files s = (inr (), s') ∧ keeps userId s s'.
Proof.
  intros Hl. destruct s as [c w]. unfold handleFileChange. mrun.
  destruct (isSubmitted c) eqn:Hsub; mrun.
  { eexists. split; [reflexivity|]. by apply keeps_same_store. }
  destruct files as [|f files]; mrun.
  { eexists. split; [reflexivity|]. by apply keeps_same_store. }
  case_bool_decide; mrun; eexists; (split; [reflexivity|]); by apply keeps_same_store.
Qed.

Lemma handleSubmit_keeps (env : Env) (s : Sys State) :
  locked userId s → ∃ s', handleSubmit userId userName env s = (inr (), s') ∧ keeps userId s s'.
Proof.
  intros Hl. destruct s as [c w]. unfold handleSubmit. mrun.
  cbn [setLoading setError isSubmitted formData file].
  destruct (isSubmitted c) eqn:Hsub; mrun.
  - (* the form is locked: only the video link is written *)
    destruct (strict_eq (formData c !! "youtubeLink") (Some (VStr ""))); mrun.
    { eexists. split; [reflexivity|]. by apply keeps_same_store. }
    destruct (formData c !! "youtubeLink") as [link|]; mrun.
    2:{ eexists. split; [reflexivity|]. by apply keeps_same_store. }
    destruct (lookupDoc (store w) "phase1_submissions" userId) as [old|] eqn:Hold; mrun;
      rewrite ?Hold; mrun.
    + eexists. split; [reflexivity|]. split.
      * unfold locked. cbn. by rewrite Hsub.
      * unfold submission. cbn. rewrite Hold, lookupDoc_writeDoc_eq.
        intros d [= <-]. eexists. split; [reflexivity|]. apply sameButVideo_update.
    + eexists. split; [reflexivity|]. by apply keeps_same_store.
  - (* first submission: by [locked] nothing is stored yet *)
    assert (Hnone : lookupDoc (store w) "phase1_submissions" userId = None).
    { destruct (lookupDoc (store w) "phase1_submissions" userId) eqn:Hd; [|done].
      unfold locked, submission in Hl. cbn in Hl. rewrite Hd, Hsub in Hl.
      by specialize (Hl (mk_is_Some _ _ eq_refl)). }
    destruct (_ || _); mrun.
    { eexists. split; [reflexivity|]. by apply keeps_same_store. }
    destruct (file c) as [f|]; mrun.
    2:{ eexists. split; [reflexivity|]. by apply keeps_same_store. }
    unfold uploadBytes, getDownloadURL. mrun.
    destruct (upload_fails env (presentationPath userId f)); mrun.
    { eexists. split; [reflexivity|]. by apply keeps_same_store. }
    destruct (url_fails env (presentationPath userId f)); mrun.
    { eexists. split; [reflexivity|]. by apply keeps_same_store. }
    eexists. split; [reflexivity|]. split.
    + unfold locked. by cbn.
    + unfold submission. cbn. by rewrite Hnone.
Qed.

Lemma act_keeps (a : Action) (s : Sys State) :
  locked userId s → ∃ s', act userId userName a s = (inr (), s') ∧ keeps userId s s'.
Proof.
  destruct a; cbn [act];
    [apply handleChange_keeps | apply handleFileChange_keeps | apply handleSubmit_keeps].
Qed.

Lemma forEach_act_keeps (actions : list Action) (s : Sys State) :
  locked userId s →
  ∃ s', forEach actions (act userId userName) s = (inr (), s') ∧ keeps userId s s'.
Proof.
  revert s. induction actions as [|a actions IH]; intros s Hl.
  - exists s. split; [reflexivity|]. split; [done|].
    intros d Hd. exists d. split; [done | apply sameButVideo_refl].
  - cbn [forEach]. destruct (act_keeps a s Hl) as (s1 & Hact & Hl1 & Hk1).
    destruct (IH s1 Hl1) as (s2 & Hrest & Hl2 & Hk2).
    exists s2. split; [|split; [done|]].
    + unfold mbind, M_bind. by rewrite Hact.
    + intros d Hd. destruct (Hk1 d Hd) as (d1 & Hd1 & H1).
      destruct (Hk2 d1 Hd1) as (d2 & Hd2 & H2).
      exists d2. split; [done|]. by eapply sameButVideo_trans.
Qed.

(** X28. Within one session of the form (mount, then any edits, file
    choices and submissions, each submission in any environment) on a
    store that nothing else writes to: from the moment a submission of the
    team is stored (found at mount or created by the session) every later
    step leaves it stored and changes at most youtubeLink and
    updatedAt. *)
Theorem submission_locked_once_created (w : World) (before after : list Action) (d : Doc) :
  let s1 := (forEach before (act userId userName)
               (loadSubmissionData userId (MkSys initialState w)).2).2 in
  let s2 := (forEach after (act userId userName) s1).2 in
  submission userId s1 = Some d →
  ∃ d', submission userId s2 = Some d' ∧
        sameButVideo d d' ∧
        d' !! "productDescription" = d !! "productDescription" ∧
        d' !! "solution" = d !! "solution" ∧
        d' !! "collegeName" = d !! "collegeName" ∧
        d' !! "whatsappNumber" = d !! "whatsappNumber" ∧
        d' !! "fileUrl" = d !! "fileUrl".
Proof.
  intros s1 s2 Hd.
  destruct (loadSubmissionData_locked initialState w) as (s0 & Hload & _ & Hl0).
  destruct (forEach_act_keeps before s0 Hl0) as (s1' & Hrun1 & Hl1 & _).
  assert (s1 = s1') as Hs1 by (unfold s1; rewrite Hload; cbn [snd]; by rewrite Hrun1).
  destruct (forEach_act_keeps after s1' Hl1) as (s2' & Hrun2 & _ & Hk2).
  assert (s2 = s2') as Hs2 by (unfold s2; rewrite Hs1; by rewrite Hrun2).
  rewrite Hs1 in Hd. destruct (Hk2 d Hd) as (d' & Hd' & Hsame).
  exists d'. rewrite Hs2. split; [done|]. split; [done|].
  repeat split; by apply Hsame.
Qed.

End Locking.

Section StaleForm.
Import PhaseOneForm TwoForms.

(** C4, at an input where the code departs from it.  The lock is the
    form's own [isSubmitted] flag, set at mount or by its own first
    submission; [handleSubmit] does not ask the store.  A form that was
    mounted before the team's submission existed still takes the branch of
    the initial submission after the submission has been created
    elsewhere and scored: its [setDoc] replaces the record, so
    productDescription, solution and fileUrl change and the points and the
    review are gone. *)
Theorem stale_form_overwrites_submission :
  let before := lookupDoc (store scoredWorld) "phase1_submissions" "u1" in
  let s' := (handleSubmit "u1" "Asha" (reliable 1742000000000) (MkSys staleForm scoredWorld)).2 in
  let after := lookupDoc (store (world s')) "phase1_submissions" "u1" in
  isSubmitted staleForm = false ∧
  (before ≫= (.!! "productDescription") = Some (VStr "A rocket") ∧
   before ≫= (.!! "solution") = Some (VStr "Fly") ∧
   before ≫= (.!! "fileUrl") = Some (VStr (downloadURL "presentations/u1_pitch.pptx")) ∧
   before ≫= (.!! "points") = Some (VNum 80) ∧
   before ≫= (.!! "review") = Some (VStr "Good")) ∧
  (after ≫= (.!! "productDescription") = Some (VStr "Something else") ∧
   after ≫= (.!! "solution") = Some (VStr "Swim") ∧
   after ≫= (.!! "fileUrl") = Some (VStr (downloadURL "presentations/u1_other.pptx")) ∧
   after ≫= (.!! "points") = None ∧
   after ≫= (.!! "review") = None) ∧
  success (comp s') = "Your submission has been saved successfully!" ∧
  PhaseOneForm.error (comp s') = "".
Proof. cbv zeta. repeat split; vm_compute; reflexivity. Qed.

End StaleForm.


(** ** Upload before write *)

Section UploadThenWrite.

Lemma writes_app (t1 t2 : list Event) : writes (t1 ++ t2) = writes t1 ++ writes t2.
Proof. unfold writes. apply filter_app. Qed.

(** The phase-1 initial submission: a failed upload leaves the store as
    it was and no write is attempted. *)
Lemma handleSubmit_upload_fails (userId userName : string) (env : Env) (w : World)
    (c : PhaseOneForm.State) (f : File) :
  PhaseOneForm.isSubmitted c = false →
  PhaseOneForm.file c = Some f →
  uploadFails env (PhaseOneForm.presentationPath userId f) →
  let s := (PhaseOneForm.handleSubmit userId userName env (MkSys c w)).2 in
  store (world s) = store w ∧ writes (trace (world s)) = writes (trace w).
Proof.
  intros Hsub Hf Hup. cbv zeta.
  unfold PhaseOneForm.handleSubmit. mrun.
  cbn [PhaseOneForm.setLoading PhaseOneForm.setError PhaseOneForm.isSubmitted
       PhaseOneForm.formData PhaseOneForm.file].
  rewrite Hsub. mrun. destruct (_ || _); mrun; [done|].
  rewrite Hf. unfold uploadBytes, getDownloadURL. mrun.
  destruct (upload_fails env (PhaseOneForm.presentationPath userId f)) eqn:Hu; mrun.
  - split; [done|]. by rewrite writes_app, app_nil_r.
  - destruct Hup as [Hup|Hup]; [congruence|]. rewrite Hup. mrun.
    split; [done|]. by rewrite !writes_app, !app_nil_r.
Qed.

(** The phase-2 proposal upload: likewise. *)
Lemma handleProposalUpload_upload_fails (userId : string) (env : Env) (w : World)
    (c : UserDashboard.State) (f : File) :
  UserDashboard.businessProposal c = Some f →
  uploadFails env (UserDashboard.proposalPath userId f) →
  let s := (UserDashboard.handleProposalUpload userId env (MkSys c w)).2 in
  store (world s) = store w ∧ writes (trace (world s)) = writes (trace w).
Proof.
  intros Hf Hup. cbv zeta.
  unfold UserDashboard.handleProposalUpload. mrun. rewrite Hf.
  unfold uploadBytes, getDownloadURL. mrun.
  destruct (upload_fails env (UserDashboard.proposalPath userId f)) eqn:Hu; mrun.
  - split; [done|]. by rewrite writes_app, app_nil_r.
  - destruct Hup as [Hup|Hup]; [congruence|]. rewrite Hup. mrun.
    split; [done|]. by rewrite !writes_app, !app_nil_r.
Qed.

(** C9. In each submission flow on its own, whatever happens to the
    other: when the upload of the phase-1 presentation fails (the bytes
    are refused or no URL is obtained), the initial submission leaves the
    document store as it was and attempts no write to it; and when the
    upload of the phase-2 proposal fails, so does the proposal upload. *)
Theorem upload_failure_blocks_write (userId userName : string) :
  (∀ (env : Env) (w : World) (c : PhaseOneForm.State) (f : File),
     PhaseOneForm.isSubmitted c = false →
     PhaseOneForm.file c = Some f →
     uploadFails env (PhaseOneForm.presentationPath userId f) →
     let s := (PhaseOneForm.handleSubmit userId userName env (MkSys c w)).2 in
     store (world s) = store w ∧ writes (trace (world s)) = writes (trace w)) ∧
  (∀ (env : Env) (w : World) (c : UserDashboard.State) (f : File),
     UserDashboard.businessProposal c = Some f →
     uploadFails env (UserDashboard.proposalPath userId f) →
     let s := (UserDashboard.handleProposalUpload userId env (MkSys c w)).2 in
     store (world s) = store w ∧ writes (trace (world s)) = writes (trace w)).
Proof.
  split.
  - intros env w c f. apply handleSubmit_upload_fails.
  - intros env w c f. apply handleProposalUpload_upload_fails.
Qed.

(** Each flow in an environment where only its own uploads fail: the
    presentation's bytes are refused while proposals go through, and a
    proposal gets no URL while presentations go through. *)
Lemma upload_failure_blocks_write_witness :
  let presDown := {| upload_fails := String.prefix "presentations/"; url_fails := λ _, false;
                     qr_fails := λ _, false; transport_fails := λ _, false;
                     now := 1740000000000; lag := 0; timezoneOffset := 0 |} in
  let propDown := {| upload_fails := λ _, false; url_fails := String.prefix "proposals/";
                     qr_fails := λ _, false; transport_fails := λ _, false;
                     now := 1740000000000; lag := 0; timezoneOffset := 0 |} in
  let s1 := (PhaseOneForm.handleSubmit "u1" "Asha" presDown PhaseOneForm.filledForm).2 in
  let s2 := (UserDashboard.handleProposalUpload "u1" propDown UserDashboard.readyToUpload).2 in
  upload_fails presDown (UserDashboard.proposalPath "u1" UserDashboard.proposal) = false ∧
  (store (world s1) = ∅ ∧ writes (trace (world s1)) = []) ∧
  (store (world s2) = ∅ ∧ writes (trace (world s2)) = []).
Proof.
  intros presDown propDown. split; [reflexivity|]. split.
  - apply (proj1 (upload_failure_blocks_write "u1" "Asha") presDown emptyWorld
             (comp PhaseOneForm.filledForm) PhaseOneForm.deck).
    + reflexivity.
    + reflexivity.
    + left. reflexivity.
  - apply (proj2 (upload_failure_blocks_write "u1" "Asha") propDown emptyWorld
             (comp UserDashboard.readyToUpload) UserDashboard.proposal).
    + reflexivity.
    + right. reflexivity.
Defined.

(** When nothing fails the same two flows do write, after the upload. *)
Example upload_then_write_example :
  trace (world (PhaseOneForm.handleSubmit "u1" "Asha" (reliable 1740000000000)
                  PhaseOneForm.filledForm).2) =
    [ EvUploadBytes "presentations/u1_pitch.pptx";
      EvGetDownloadURL "presentations/u1_pitch.pptx";
      EvSetDoc "phase1_submissions" "u1"
        (default ∅ (lookupDoc (store (world (PhaseOneForm.handleSubmit "u1" "Asha"
                      (reliable 1740000000000) PhaseOneForm.filledForm).2))
                      "phase1_submissions" "u1")) ] ∧
  PhaseOneForm.error (comp (PhaseOneForm.handleSubmit "u1" "Asha" (storageDown 1740000000000)
                 PhaseOneForm.filledForm).2) = "storage/unknown".
Proof. split; vm_compute; reflexivity. Qed.

End UploadThenWrite.

(** ** Team members and the paid flag *)

Section MemberEdit.
Import UserDashboard.

(** After a member edit the Team document holds the members and nothing
    else. *)
Lemma handleMemberUpdate_overwrites (userId : string) (index : nat) (data : Member)
    (c : State) (w : World) :
  let s' := (handleMemberUpdate userId index data (MkSys c w)).2 in
  lookupDoc (store (world s')) "teams" userId =
    Some {[ "members" := VMembers (updateAt (teamMembers c) index data) ]}.
Proof. cbv zeta. unfold handleMemberUpdate. mrun. apply lookupDoc_writeDoc_eq. Qed.

(** C6, at an input where the code departs from it: the lead of a paid
    team edits the phone number of member 0.  The Team document is
    replaced by one holding only the members: its paymentStatus is gone,
    and the identity resolver no longer finds the team paid. *)
Theorem member_edit_drops_paid_status :
  let s0 := (loadDashboardData "u1" (MkSys initialState paidTeamWorld)).2 in
  let s1 := (handleMemberUpdate "u1" 0 {[ "phone" := "9" ]} s0).2 in
  let resolved (st : Store) :=
    App.paymentStatus (comp (App.onAuthStateChanged (Some App.asha)
      (MkSys App.initialState {| store := st; bucket := ∅; trace := [] |})).2) in
  lookupDoc (store (world s0)) "teams" "u1" ≫= (.!! "paymentStatus") = Some (VStr "paid") ∧
  resolved (store (world s0)) = App.paid ∧
  success (comp s1) = "Team member details updated successfully" ∧
  lookupDoc (store (world s1)) "teams" "u1" =
    Some {[ "members" := VMembers
              [ {[ "name" := "Asha"; "email" := "asha@example.org"; "phone" := "9" ]} ] ]} ∧
  lookupDoc (store (world s1)) "teams" "u1" ≫= (.!! "paymentStatus") = None ∧
  resolved (store (world s1)) = App.pending.
Proof. cbv zeta. repeat split; vm_compute; reflexivity. Qed.

End MemberEdit.

(** ** Phase-2 deadline *)

Section Deadline.
Import UserDashboard.

Lemma isSubmissionClosed_after (env : Env) :
  now env > phase2Deadline env → isSubmissionClosed env = true.
Proof. intros H. unfold isSubmissionClosed. by rewrite bool_decide_eq_true_2. Qed.

Lemma isSubmissionClosed_upto (env : Env) :
  now env ≤ phase2Deadline env → isSubmissionClosed env = false.
Proof. intros H. unfold isSubmissionClosed. rewrite bool_decide_eq_false_2; [done|lia]. Qed.

(** Once the deadline has passed no phase-2 control calls its handler. *)
Lemma phase2_closed_after (userId : string) (env : Env) (a : Phase2Action) (s : Sys State) :
  now env > phase2Deadline env → phase2 userId env a s = (inr (), s).
Proof.
  intros H. destruct s as [c w]. unfold phase2. mrun. rewrite (isSubmissionClosed_after env H).
  destruct a; mrun; try reflexivity.
  destruct (businessProposal c); [|reflexivity]. by rewrite orb_true_r.
Qed.

(** Before the deadline the controls call their handlers. *)
Lemma phase2_open_before (userId : string) (env : Env) (c : State) (w : World) (f : File) v :
  now env < phase2Deadline env →
  phase2 userId env (EditUrl v) (MkSys c w) = (inr (), MkSys (setYoutubeVideoUrl v c) w) ∧
  phase2 userId env (ChooseProposal f) (MkSys c w)
    = (inr (), MkSys (setBusinessProposal (Some f) c) w) ∧
  (businessProposal c = Some f → loading c = false →
   phase2 userId env ClickUpload (MkSys c w) = handleProposalUpload userId env (MkSys c w)).
Proof.
  intros H. unfold phase2. mrun. rewrite (isSubmissionClosed_upto env) by lia.
  repeat split. intros -> ->. reflexivity.
Qed.

(** At or after the deadline the countdown reads "Submission Closed". *)
Lemma countdown_closed (env : Env) :
  phase2Deadline env - now env ≤ 0 → countdownText env = "Submission Closed".
Proof. intros H. unfold countdownText. cbv zeta. by rewrite bool_decide_eq_true_2. Qed.

(** One day, one hour, one minute and one second before the deadline, and
    one second after it. *)
Example countdown_examples :
  countdownText (reliable (1743638399000 - 90061000)) = "1d 1h 1m 1s" ∧
  countdownText (reliable (1743638399000 + 1000)) = "Submission Closed" ∧
  isSubmissionClosed (reliable (1743638399000 + 1000)) = true ∧
  isSubmissionClosed (reliable (1743638399000 - 1)) = false.
Proof. repeat split; vm_compute; reflexivity. Qed.

(** Before it, the four numbers shown are not negative. *)
Lemma countdown_parts_nonneg (distance : Z) :
  0 < distance →
  0 ≤ distance `div` (1000 * 60 * 60 * 24) ∧
  0 ≤ (distance `rem` (1000 * 60 * 60 * 24)) `div` (1000 * 60 * 60) ∧
  0 ≤ (distance `rem` (1000 * 60 * 60)) `div` (1000 * 60) ∧
  0 ≤ (distance `rem` (1000 * 60)) `div` 1000.
Proof.
  intros H. repeat split; apply Z.div_pos; try lia; apply Z.rem_nonneg; lia.
Qed.

(** C7, at the instant where the code departs from it: at the very
    millisecond of the deadline, in any time zone, the countdown reads
    "Submission Closed" while [isSubmissionClosed] still answers false: the
    URL input and the file chooser accept input and the upload button
    writes the phase-2 document. *)
Theorem deadline_instant_still_open (tz : Z) :
  let env := atDeadline tz in
  let s' := (phase2 "u1" env ClickUpload readyToUpload).2 in
  now env = phase2Deadline env ∧
  countdownText env = "Submission Closed" ∧
  isSubmissionClosed env = false ∧
  (phase2 "u1" env (EditUrl "https://youtu.be/late") readyToUpload).2
    = MkSys (setYoutubeVideoUrl "https://youtu.be/late" (comp readyToUpload)) emptyWorld ∧
  (phase2 "u1" env (ChooseProposal proposal) (MkSys initialState emptyWorld)).2
    = MkSys (setBusinessProposal (Some proposal) initialState) emptyWorld ∧
  writes (trace (world s')) =
    [ EvSetDocMerge "phase2_submissions" "u1"
        {[ "proposalUrl" := VStr (downloadURL "proposals/u1_plan.pdf");
           "youtubeVideoUrl" := VStr "https://youtu.be/demo";
           "submittedAt" := nowISO env;
           "status" := VStr "pending" ]} ] ∧
  lookupDoc (store (world s')) "phase2_submissions" "u1" =
    Some {[ "proposalUrl" := VStr (downloadURL "proposals/u1_plan.pdf");
            "youtubeVideoUrl" := VStr "https://youtu.be/demo";
            "submittedAt" := nowISO env;
            "status" := VStr "pending" ]}.
Proof.
  cbv zeta.
  assert (Hnow : now (atDeadline tz) = phase2Deadline (atDeadline tz)) by reflexivity.
  assert (Hopen : isSubmissionClosed (atDeadline tz) = false)
    by (apply isSubmissionClosed_upto; lia).
  split; [exact Hnow|]. split; [apply countdown_closed; lia|]. split; [exact Hopen|].
  unfold phase2. mrun. rewrite Hopen. cbn [orb].
  split; [reflexivity|]. split; [reflexivity|].
  change (businessProposal (comp readyToUpload)) with (Some proposal).
  change (loading (comp readyToUpload)) with false. cbn [orb].
  unfold handleProposalUpload, loadDashboardData, uploadBytes, getDownloadURL. mrun.
  change (businessProposal (comp readyToUpload)) with (Some proposal).
  change (upload_fails (atDeadline tz) (proposalPath "u1" proposal)) with false.
  change (url_fails (atDeadline tz) (proposalPath "u1" proposal)) with false.
  mrun. generalize (nowISO (atDeadline tz)). intros t. split.
  - vm_compute. reflexivity.
  - vm_compute. reflexivity.
Qed.

End Deadline.

(** ** Example runs *)

Section ExampleRuns.
Import Examples.

Lemma ticket_payload_round_trip_witness :
  ∃ (t : Ticket) (s' : Sys unit),
    EmailService.generateETicket (reliable 1740000000000) ashaTicket (MkSys () emptyWorld)
      = (inr t, s') ∧
    EmailService.decodeTicket t =
      Some (Some (JSON.code_units "SS25-007"), Some (JSON.code_units "Asha"),
            Some (JSON.code_units "Rocket")).
Proof.
  apply (ticket_payload_round_trip (reliable 1740000000000) ashaTicket (MkSys () emptyWorld)).
  reflexivity.
Defined.

(** The text in that ticket's code. *)
Example ticket_text_example :
  EmailService.qrData ashaTicket =
  JSON.code_units "{" ++ [34%N] ++ JSON.code_units "regId" ++ [34; 58; 34]%N ++
  JSON.code_units "SS25-007" ++ [34; 44; 34]%N ++ JSON.code_units "name" ++ [34; 58; 34]%N ++
  JSON.code_units "Asha" ++ [34; 44; 34]%N ++ JSON.code_units "team" ++ [34; 58; 34]%N ++
  JSON.code_units "Rocket" ++ [34%N] ++ JSON.code_units "}".
Proof. vm_compute. reflexivity. Qed.

Lemma submission_locked_once_created_witness :
  ∃ d', PhaseOneForm.submission "u1"
          (forEach laterEdits (PhaseOneForm.act "u1" "Asha") afterFirstSubmission).2 = Some d' ∧
        PhaseOneForm.sameButVideo createdSubmission d' ∧
        d' !! "productDescription" = createdSubmission !! "productDescription" ∧
        d' !! "solution" = createdSubmission !! "solution" ∧
        d' !! "collegeName" = createdSubmission !! "collegeName" ∧
        d' !! "whatsappNumber" = createdSubmission !! "whatsappNumber" ∧
        d' !! "fileUrl" = createdSubmission !! "fileUrl".
Proof.
  apply (submission_locked_once_created "u1" "Asha" emptyWorld firstSubmission laterEdits
           createdSubmission).
  vm_cast_no_check (eq_refl (Some createdSubmission)).
Defined.

(** The later edits changed the video link and nothing of the locked
    content. *)
Example later_edits_example :
  let d' := default ∅ (PhaseOneForm.submission "u1"
              (forEach laterEdits (PhaseOneForm.act "u1" "Asha") afterFirstSubmission).2) in
  createdSubmission !! "productDescription" = Some (VStr "A rocket") ∧
  d' !! "productDescription" = Some (VStr "A rocket") ∧
  createdSubmission !! "youtubeLink" = Some (VStr "") ∧
  d' !! "youtubeLink" = Some (VStr "https://youtu.be/demo") ∧
  d' !! "fileUrl" = Some (VStr (downloadURL "presentations/u1_pitch.pptx")).
Proof. cbv zeta. repeat split; vm_compute; reflexivity. Qed.

End ExampleRuns.

(** * The rest of the components *)

(** ** Scoreboard rows *)

Section ScoreboardRows.
Import Scoreboard ScoreboardView.

Lemma sameButRank_refl (d : Doc) : sameButRank d d.
Proof. by intros k _. Qed.

Lemma sameButRank_trans (d1 d2 d3 : Doc) :
  sameButRank d1 d2 → sameButRank d2 d3 → sameButRank d1 d3.
Proof. intros H12 H23 k Hk. by rewrite H23, H12. Qed.

Lemma sameButRank_set_rank (v : option Val) (d : Doc) : sameButRank d (set_field "rank" v d).
Proof.
  intros k Hk. unfold set_field. destruct v.
  - by rewrite lookup_insert_ne.
  - by rewrite lookup_delete_ne.
Qed.

(** One iteration keeps the length and every field but the rank. *)
Lemma assignRank_frame (l : list Doc) (i : nat) :
  length (assignRank l i) = length l ∧
  ∀ j d, assignRank l i !! j = Some d → ∃ d0, l !! j = Some d0 ∧ sameButRank d0 d.
Proof.
  assert (Hid : ∀ j d, l !! j = Some d → ∃ d0, l !! j = Some d0 ∧ sameButRank d0 d)
    by (intros j d Hd; exists d; split; [done | apply sameButRank_refl]).
  assert (Hins : ∀ cur cur', l !! i = Some cur → sameButRank cur cur' →
            length (<[i := cur']> l) = length l ∧
            ∀ j d, <[i := cur']> l !! j = Some d → ∃ d0, l !! j = Some d0 ∧ sameButRank d0 d).
  { intros cur cur' Hcur Hsame. split; [apply length_insert|].
    intros j d Hd. destruct (decide (j = i)) as [->|Hne].
    - rewrite list_lookup_insert_eq in Hd by (by eapply lookup_lt_Some).
      simplify_eq. eauto.
    - rewrite list_lookup_insert_ne in Hd by done. eauto. }
  unfold assignRank. destruct (l !! i) as [cur|] eqn:Hcur; [|done].
  destruct (l !! (i - 1)%nat) as [prev|]; [|done].
  destruct (strict_eq _ _).
  - eapply Hins; [done | apply sameButRank_set_rank].
  - eapply Hins; [done | apply (sameButRank_set_rank (Some _))].
Qed.

Lemma assignRank_foldl_frame (idxs : list nat) (l : list Doc) :
  length (foldl assignRank l idxs) = length l ∧
  ∀ j d, foldl assignRank l idxs !! j = Some d → ∃ d0, l !! j = Some d0 ∧ sameButRank d0 d.
Proof.
  revert l. induction idxs as [|i idxs IH]; intros l; cbn [foldl].
  - split; [done|]. intros j d Hd. exists d. split; [done | apply sameButRank_refl].
  - destruct (IH (assignRank l i)) as [Hlen Hfr].
    destruct (assignRank_frame l i) as [Hlen1 Hfr1].
    split; [congruence|]. intros j d Hd.
    destruct (Hfr j d Hd) as (d1 & Hd1 & H1). destruct (Hfr1 j d1 Hd1) as (d0 & Hd0 & H0).
    exists d0. split; [done|]. by eapply sameButRank_trans.
Qed.

(** Every rank the loop leaves is a number between 1 and the 1-based
    position. *)
Lemma rankSnapshot_rank_bounds (snapshot : list QueryDoc) (i : nat) (row : Doc) :
  rankSnapshot snapshot !! i = Some row →
  ∃ r, rankOf row = Some (VNum r) ∧ 1 ≤ r ≤ Z.of_nat i + 1.
Proof.
  pose proof (assignRanks_spec (toTeamScore 1 <$> filter (λ qd, scored qd = true) snapshot))
    as (Hlen & Hsc & Hrk).
  fold (rankSnapshot snapshot) in Hlen, Hsc, Hrk.
  revert row. induction i as [|i IH]; intros row Hrow.
  - destruct (Hsc _ _ Hrow) as (d0 & Hd0 & _ & Hsame).
    rewrite Hsame by (by right). exists 1. split; [|lia]. by eapply scored_filter_fmap.
  - destruct (lookup_lt_is_Some_2 (rankSnapshot snapshot) i) as [prev Hprev].
    { apply lookup_lt_Some in Hrow. lia. }
    destruct (IH prev Hprev) as (r & Hr & Hb).
    assert (Hlt : (i < length (toTeamScore 1 <$> filter (λ qd, scored qd = true) snapshot) - 1)%nat).
    { apply lookup_lt_Some in Hrow. rewrite Hlen in Hrow. lia. }
    rewrite (Hrk i row prev Hlt Hrow Hprev).
    destruct (strict_eq _ _).
    + exists r. split; [done|lia].
    + eexists. split; [reflexivity|lia].
Qed.

End ScoreboardRows.

Section ScoreboardTheorems.
Import Scoreboard ScoreboardView.

Lemma toTeamScore_fields (qd : QueryDoc) (k : string) :
  k ≠ "rank" → k ≠ "score" →
  toTeamScore 1 qd !! k =
    if bool_decide (k = "id") then Some (default (VStr qd.1) (qd.2 !! "id")) else qd.2 !! k.
Proof.
  intros Hr Hs. unfold toTeamScore, set_field.
  assert (H : (<["rank" := VNum 1]> (spread {["id" := VStr qd.1]} qd.2)) !! k =
              if bool_decide (k = "id") then Some (default (VStr qd.1) (qd.2 !! "id"))
              else qd.2 !! k).
  { rewrite lookup_insert_ne by done. unfold spread. rewrite lookup_union.
    case_bool_decide as Hk.
    - subst k. rewrite lookup_singleton_eq. by destruct (qd.2 !! "id").
    - rewrite lookup_singleton_ne by done. by rewrite (right_id None _). }
  destruct (qd.2 !! "points"); [by rewrite lookup_insert_ne | by rewrite lookup_delete_ne].
Qed.

(** What a row of the ranked list is, in terms of the query document at
    the same position among the scored ones. *)
Lemma rankSnapshot_row (snapshot : list QueryDoc) (i : nat) (row : Doc) :
  rankSnapshot snapshot !! i = Some row →
  ∃ qd, filter (λ qd, scored qd = true) snapshot !! i = Some qd ∧
        is_Some (pointsOf qd) ∧ scoreOf row = pointsOf qd ∧
        (∀ k, k ≠ "rank" → k ≠ "score" → k ≠ "id" → row !! k = qd.2 !! k) ∧
        row !! "id" = Some (default (VStr qd.1) (qd.2 !! "id")).
Proof.
  intros Hrow. unfold rankSnapshot, assignRanks in Hrow.
  destruct (assignRank_foldl_frame
              (seq 1 (length (toTeamScore 1 <$> filter (λ qd, scored qd = true) snapshot) - 1))
              (toTeamScore 1 <$> filter (λ qd, scored qd = true) snapshot)) as [_ Hfr].
  destruct (Hfr i row Hrow) as (d0 & Hd0 & Hsame).
  rewrite list_lookup_fmap in Hd0.
  destruct (filter _ snapshot !! i) as [qd|] eqn:Hqd; [|done]. cbn in Hd0. simplify_eq.
  exists qd. split; [done|].
  assert (Hsc : scored qd = true).
  { apply list_elem_of_lookup_2 in Hqd. by apply list_elem_of_filter in Hqd as [? _]. }
  split.
  { unfold scored, pointsOf in *. destruct (qd.2 !! "points"); [eauto | done]. }
  split; [|split].
  - unfold scoreOf. rewrite (Hsame "score") by done. apply toTeamScore_score.
  - intros k Hr Hs Hi. rewrite (Hsame k Hr), toTeamScore_fields by done.
    by rewrite bool_decide_eq_false_2.
  - rewrite (Hsame "id") by done. by rewrite toTeamScore_fields.
Qed.

Lemma rankSnapshot_length (snapshot : list QueryDoc) :
  length (rankSnapshot snapshot) = length (filter (λ qd, scored qd = true) snapshot).
Proof.
  unfold rankSnapshot, assignRanks.
  rewrite (proj1 (assignRank_foldl_frame _ _)). apply length_fmap.
Qed.

(** X1. [fetchScores] on a fresh scoreboard shows nothing unless the
    results are flagged published.  When they are, it lists exactly the
    scored submissions in query order: row [i] keeps the id and every
    stored field of the [i]-th scored document, its score is the
    document's points, its rank is a number between 1 and [i + 1], and the
    first row is shown with the trophy. *)
Theorem scoreboard_lists_scored_rows (config : gmap string Doc) (snapshot : list QueryDoc) :
  let st := fetchScores config snapshot initialState in
  let isPublished := truthy (config !! "phase1Results" ≫= (.!! "published")) in
  let shown := filter (λ qd, scored qd = true) snapshot in
  loading st = false ∧ resultsPublished st = isPublished ∧
  (isPublished = false → scores st = []) ∧
  (isPublished = true →
     length (scores st) = length shown ∧
     ∀ i row, scores st !! i = Some row →
       ∃ qd r, shown !! i = Some qd ∧ is_Some (pointsOf qd) ∧ scoreOf row = pointsOf qd ∧
               rankOf row = Some (VNum r) ∧ 1 ≤ r ≤ Z.of_nat i + 1 ∧
               (∀ k, k ≠ "rank" → k ≠ "score" → k ≠ "id" → row !! k = qd.2 !! k) ∧
               row !! "id" = Some (default (VStr qd.1) (qd.2 !! "id")) ∧
               (i = 0%nat → getRankIcon (rankOf row) = Trophy)).
Proof.
  cbv zeta. unfold fetchScores.
  destruct (truthy (config !! "phase1Results" ≫= (.!! "published"))); cbn.
  - split; [done|]. split; [done|]. split; [done|].
    intros _. split; [apply rankSnapshot_length|].
    intros i row Hrow.
    destruct (rankSnapshot_row snapshot i row Hrow) as (qd & Hqd & Hpts & Hsc & Hk & Hid).
    destruct (rankSnapshot_rank_bounds snapshot i row Hrow) as (r & Hr & Hb).
    exists qd, r. do 3 (split; [done|]). split; [done|]. split; [lia|].
    split; [done|]. split; [done|].
    intros ->. rewrite Hr. assert (r = 1) as -> by lia. reflexivity.
  - split; [done|]. split; [done|]. split; done.
Qed.

Lemma scoreboard_lists_scored_rows_witness :
  length (scores (fetchScores publishedConfig exampleSnapshot initialState)) = 6%nat.
Proof.
  exact (proj1 (proj2 (proj2 (proj2
           (scoreboard_lists_scored_rows publishedConfig exampleSnapshot))) eq_refl)).
Defined.

End ScoreboardTheorems.

(** ** Ranks on sorted points *)

Section SortedRanks.
Import Scoreboard ScoreboardView.

Lemma descending_head (p : Z) (rest : list Z) :
  descending (p :: rest) = true → descending rest = true ∧ Forall (λ q, q ≤ p) rest.
Proof.
  revert p. induction rest as [|q rest IH]; intros p H; [by split|].
  cbn [descending] in H. apply andb_true_iff in H as [Hqp Hrest].
  apply bool_decide_eq_true in Hqp. split; [done|].
  destruct (IH q Hrest) as [_ Hall]. constructor; [done|].
  eapply Forall_impl; [exact Hall|]. cbn. intros; lia.
Qed.

Lemma descending_lookup (pts : list Z) (i j : nat) (p q : Z) :
  descending pts = true → (i ≤ j)%nat → pts !! i = Some p → pts !! j = Some q → q ≤ p.
Proof.
  revert i j. induction pts as [|x pts IH]; intros i j Hd Hij Hp Hq; [done|].
  destruct (descending_head x pts Hd) as [Hrest Hall].
  destruct i as [|i], j as [|j]; cbn in Hp, Hq; simplify_eq.
  - lia.
  - rewrite Forall_lookup in Hall. by eapply Hall.
  - lia.
  - eapply (IH i j); [done|lia|done..].
Qed.

Lemma filter_all {A} (P : A → Prop) `{!∀ x, Decision (P x)} (l : list A) :
  Forall P l → filter P l = l.
Proof. induction 1; [done|]. rewrite filter_cons_True by done. by f_equal. Qed.

Lemma filter_none {A} (P : A → Prop) `{!∀ x, Decision (P x)} (l : list A) :
  Forall (λ x, ¬ P x) l → filter P l = [].
Proof. induction 1; [done|]. by rewrite filter_cons_False. Qed.

(** Nothing is above the head of a descending list. *)
Lemma higher_head (pts : list Z) (p : Z) :
  descending pts = true → pts !! 0%nat = Some p → higher pts p = 0%nat.
Proof.
  intros Hd Hp. unfold higher. rewrite filter_none; [done|].
  apply Forall_lookup. intros j q Hq.
  pose proof (descending_lookup pts 0 j p q Hd ltac:(lia) Hp Hq). lia.
Qed.

(** Where the points drop, everything before is above. *)
Lemma higher_drop (pts : list Z) (i : nat) (p q : Z) :
  descending pts = true → pts !! i = Some p → pts !! S i = Some q → q < p →
  higher pts q = S i.
Proof.
  intros Hd Hp Hq Hlt. unfold higher.
  rewrite <- (take_drop (S i) pts) at 1. rewrite filter_app, length_app.
  rewrite filter_all, filter_none.
  - cbn [length]. rewrite length_take_le; [lia|]. apply lookup_lt_Some in Hq. lia.
  - apply Forall_lookup. intros j x Hx. rewrite lookup_drop in Hx.
    pose proof (descending_lookup pts (S i) (S i + j) q x Hd ltac:(lia) Hq Hx). lia.
  - apply Forall_lookup. intros j x Hx.
    apply lookup_take_Some in Hx as [Hx Hj].
    pose proof (descending_lookup pts j i x p Hd ltac:(lia) Hx Hp). lia.
Qed.

Lemma higher_strict (pts : list Z) (p q : Z) :
  q ∈ pts → p < q → (higher pts q < higher pts p)%nat.
Proof.
  intros Hin Hlt. unfold higher.
  induction pts as [|x pts IH]; [by apply elem_of_nil in Hin|].
  assert (Hle : (length (filter (λ r, (q < r)%Z) pts) ≤ length (filter (λ r, (p < r)%Z) pts))%nat).
  { clear -Hlt. induction pts as [|y pts IH]; [done|]. rewrite !filter_cons.
    repeat case_decide; cbn [length]; lia. }
  apply elem_of_cons in Hin as [->|Hin].
  - rewrite filter_cons_False by lia. rewrite filter_cons_True by lia. cbn [length]. lia.
  - specialize (IH Hin). rewrite !filter_cons. repeat case_decide; cbn [length]; lia.
Qed.

Lemma numeric_all_scored (snapshot : list QueryDoc) (pts : list Z) :
  pointsZ <$> snapshot = Some <$> pts →
  filter (λ qd, scored qd = true) snapshot = snapshot ∧
  ∀ i p, pts !! i = Some p → ∃ qd, snapshot !! i = Some qd ∧ pointsOf qd = Some (VNum p).
Proof.
  intros H. assert (Hpt : ∀ i qd, snapshot !! i = Some qd →
                     ∃ p, pts !! i = Some p ∧ pointsOf qd = Some (VNum p)).
  { intros i qd Hqd. pose proof (f_equal (.!! i) H) as Hi. cbn in Hi.
    rewrite !list_lookup_fmap, Hqd in Hi. cbn in Hi.
    destruct (pts !! i) as [p|]; [|done]. cbn in Hi. exists p. split; [done|].
    unfold pointsZ in Hi. destruct (pointsOf qd) as [[]|]; by simplify_eq. }
  split.
  - apply filter_all, Forall_lookup. intros i qd Hqd.
    destruct (Hpt i qd Hqd) as (p & _ & Hp). unfold scored, pointsOf in *. by rewrite Hp.
  - intros i p Hp. pose proof (f_equal (.!! i) H) as Hi. cbn in Hi.
    rewrite !list_lookup_fmap, Hp in Hi. cbn in Hi.
    destruct (snapshot !! i) as [qd|] eqn:Hqd; [|done].
    exists qd. split; [done|]. destruct (Hpt i qd Hqd) as (p' & Hp' & ?). congruence.
Qed.

(** X2. When the query result is in descending order of numeric points,
    the rank of every row is one more than the number of rows with strictly
    higher points; hence two rows have the same rank exactly when they have
    the same points. *)
Theorem rank_counts_higher_points (snapshot : list QueryDoc) (pts : list Z) :
  pointsZ <$> snapshot = Some <$> pts →
  descending pts = true →
  rankOf <$> rankSnapshot snapshot
    = (λ p, Some (VNum (1 + Z.of_nat (higher pts p)))) <$> pts ∧
  ∀ p q, p ∈ pts → q ∈ pts → (higher pts p = higher pts q ↔ p = q).
Proof.
  intros Hnum Hdesc. destruct (numeric_all_scored snapshot pts Hnum) as [Hall Hpts].
  split.
  2:{ intros p q Hp Hq. split; [|by intros ->]. intros Heq.
      destruct (Z.lt_trichotomy p q) as [Hlt|[?|Hlt]]; [|done|].
      - pose proof (higher_strict pts p q Hq Hlt). lia.
      - pose proof (higher_strict pts q p Hp Hlt). lia. }
  pose proof (assignRanks_spec (toTeamScore 1 <$> filter (λ qd, scored qd = true) snapshot))
    as (Hlen & Hsc & Hrk).
  fold (rankSnapshot snapshot) in Hlen, Hsc, Hrk.
  assert (Hlen' : length (rankSnapshot snapshot) = length pts).
  { rewrite rankSnapshot_length, Hall.
    pose proof (f_equal length Hnum) as Hl. by rewrite !length_fmap in Hl. }
  assert (Hscore : ∀ i row p, rankSnapshot snapshot !! i = Some row → pts !! i = Some p →
                     scoreOf row = Some (VNum p)).
  { intros i row p Hrow Hp.
    destruct (rankSnapshot_row snapshot i row Hrow) as (qd & Hqd & _ & Hs & _).
    rewrite Hall in Hqd. destruct (Hpts i p Hp) as (qd' & Hqd' & Hp'). congruence. }
  assert (Hrank : ∀ i row p, rankSnapshot snapshot !! i = Some row → pts !! i = Some p →
                    rankOf row = Some (VNum (1 + Z.of_nat (higher pts p)))).
  { induction i as [|i IH]; intros row p Hrow Hp.
    - destruct (Hsc _ _ Hrow) as (d0 & Hd0 & _ & Hsame).
      rewrite Hsame by (by right). rewrite (scored_filter_fmap snapshot 0 d0 Hd0).
      by rewrite (higher_head pts p Hdesc Hp).
    - destruct (lookup_lt_is_Some_2 (rankSnapshot snapshot) i) as [prev Hprev].
      { apply lookup_lt_Some in Hrow. lia. }
      destruct (lookup_lt_is_Some_2 pts i) as [p0 Hp0].
      { apply lookup_lt_Some in Hp. lia. }
      assert (Hlt : (i < length (toTeamScore 1 <$> filter (λ qd, scored qd = true) snapshot) - 1)%nat).
      { apply lookup_lt_Some in Hrow. rewrite Hlen in Hrow. lia. }
      rewrite (Hrk i row prev Hlt Hrow Hprev).
      rewrite (Hscore _ _ _ Hrow Hp), (Hscore _ _ _ Hprev Hp0). cbn [strict_eq].
      case_bool_decide as Heq.
      + subst p0. by apply IH.
      + pose proof (descending_lookup pts i (S i) p0 p Hdesc ltac:(lia) Hp0 Hp).
        rewrite (higher_drop pts i p0 p Hdesc Hp0 Hp) by lia. do 2 f_equal. lia. }
  apply list_eq. intros i. rewrite !list_lookup_fmap.
  destruct (rankSnapshot snapshot !! i) as [row|] eqn:Hrow.
  - destruct (lookup_lt_is_Some_2 pts i) as [p Hp].
    { apply lookup_lt_Some in Hrow. lia. }
    rewrite Hp. cbn. f_equal. by eapply Hrank.
  - apply lookup_ge_None in Hrow. rewrite Hlen' in Hrow.
    apply lookup_ge_None in Hrow. by rewrite Hrow.
Qed.

Lemma rank_counts_higher_points_witness :
  rankOf <$> rankSnapshot exampleSnapshot
    = (λ p, Some (VNum (1 + Z.of_nat (higher [90; 90; 80; 70; 70; 70] p))))
        <$> [90; 90; 80; 70; 70; 70].
Proof.
  apply (rank_counts_higher_points exampleSnapshot [90; 90; 80; 70; 70; 70]).
  - vm_compute. reflexivity.
  - reflexivity.
Defined.

End SortedRanks.

(** ** Scoreboard search *)

Section ScoreboardSearch.
Import Scoreboard ScoreboardView.

Lemma filterThrowing_sublist {A} (p : A → Exn + bool) (xs out : list A) :
  EmailDashboard.filterThrowing p xs = inr out →
  out `sublist_of` xs ∧ ∀ x, x ∈ out ↔ x ∈ xs ∧ p x = inr true.
Proof.
  revert out. induction xs as [|x xs IH]; intros out H; cbn in H.
  - simplify_eq. split; [done|]. intros x. rewrite elem_of_nil. naive_solver.
  - destruct (p x) as [e|b] eqn:Hpx; [done|].
    destruct (EmailDashboard.filterThrowing p xs) as [e|ys]; [done|].
    destruct (IH ys eq_refl) as [Hsub Hin]. simplify_eq. destruct b.
    + split; [by apply sublist_skip|]. intros y. rewrite !elem_of_cons, Hin. naive_solver.
    + split; [by apply sublist_cons|]. intros y. rewrite elem_of_cons, Hin.
      split; [naive_solver|]. intros [[->|?] Hy]; [congruence|done].
Qed.

Lemma filterThrowing_total {A} (p : A → Exn + bool) (xs : list A) :
  Forall (λ x, ∃ b, p x = inr b) xs → ∃ out, EmailDashboard.filterThrowing p xs = inr out.
Proof.
  induction 1 as [|x xs [b Hb] _ [out IH]]; cbn; [eauto|].
  rewrite Hb, IH. eauto.
Qed.

Lemma filterThrowing_throws {A} (p : A → Exn + bool) (xs : list A) (x : A) (e : Exn) :
  x ∈ xs → p x = inl e → ∃ e', EmailDashboard.filterThrowing p xs = inl e'.
Proof.
  induction xs as [|y xs IH]; intros Hin Hpx; [by apply elem_of_nil in Hin|].
  cbn. apply elem_of_cons in Hin as [<-|Hin].
  - rewrite Hpx. eauto.
  - destruct (p y); [eauto|]. destruct (IH Hin Hpx) as [e' ->]. eauto.
Qed.

Lemma rowMatches_searchable (term : string) (row : Doc) :
  searchable row → ∃ b, rowMatches term row = inr b.
Proof.
  intros ((n & Hn) & (r & Hr) & (c & Hc)). unfold rowMatches. rewrite Hn, Hr, Hc. cbn.
  destruct (includes _ _); [eauto|]. destruct (includes _ _); eauto.
Qed.

(** X3. The scoreboard search never renumbers: the rows it shows are rows
    of the ranked list, in the same order and with the rank they have
    there; an empty search shows every row.  It succeeds whenever the
    three searched columns of every row are strings, and with a non-empty
    term a row without a team name makes the whole search throw. *)
Theorem search_keeps_ranks (term : string) (rows : list Doc) :
  filteredScores "" rows = inr rows ∧
  (∀ out, filteredScores term rows = inr out →
     out `sublist_of` rows ∧
     ∀ row, row ∈ out ↔ row ∈ rows ∧ (term = "" ∨ rowMatches term row = inr true)) ∧
  (Forall searchable rows → ∃ out, filteredScores term rows = inr out) ∧
  (term ≠ "" → ∀ row, row ∈ rows → row !! "teamName" = None →
     ∃ e, filteredScores term rows = inl e).
Proof.
  split; [reflexivity|]. unfold filteredScores. case_bool_decide as Hterm.
  - split; [|split; [eauto|done]].
    intros out [= <-]. split; [done|]. naive_solver.
  - split; [|split].
    + intros out Hout. destruct (filterThrowing_sublist _ _ _ Hout) as [Hsub Hin].
      split; [done|]. intros row. rewrite Hin. naive_solver.
    + intros Hall. apply filterThrowing_total.
      eapply Forall_impl; [exact Hall|]. intros row. apply rowMatches_searchable.
    + intros _ row Hin Hname. eapply filterThrowing_throws; [exact Hin|].
      unfold rowMatches. rewrite Hname. reflexivity.
Qed.

Lemma search_keeps_ranks_witness :
  ∃ out, filteredScores "anna" exampleRows = inr out.
Proof.
  apply (proj1 (proj2 (proj2 (search_keeps_ranks "anna" exampleRows)))).
  repeat constructor; vm_compute; eauto.
Defined.

(** The search for "anna" keeps the second team with the rank it shares. *)
Example search_example :
  match filteredScores "ANNA" exampleRows with
  | inr out => (λ row : Doc, (row !! "teamName", rankOf row)) <$> out
  | inl _ => []
  end = [(Some (VStr "Beta"), Some (VNum 1))].
Proof. vm_compute. reflexivity. Qed.

End ScoreboardSearch.

(** ** Roles and views *)

Section Roles.
Import App AppView.

Ltac no_writes := rewrite ?writes_app; cbn; rewrite ?app_nil_r; reflexivity.

Lemma administrators_role_run (user : User) (c : State) (w : World) :
  email user = Some ADMIN_CREDENTIALS_email ∨ email user = Some ADMIN_2_CREDENTIALS_email →
  let s' := (onAuthStateChanged (Some user) (MkSys c w)).2 in
  world s' = w ∧ loading (comp s') = false ∧ isAuthenticated (comp s') = true ∧
  (isAdmin (comp s') = bool_decide (email user = Some ADMIN_CREDENTIALS_email) ∧
   isFinanceAdmin (comp s') = bool_decide (email user = Some ADMIN_2_CREDENTIALS_email)) ∧
  currentUser (comp s') = None ∧ paymentStatus (comp s') = paymentStatus c.
Proof.
  intros Hrole. cbv zeta. unfold onAuthStateChanged.
  destruct (decide (email user = Some ADMIN_CREDENTIALS_email)) as [Ha|Ha].
  - rewrite (bool_decide_eq_true_2 _ Ha). mrun.
    rewrite bool_decide_eq_false_2 by (rewrite Ha; discriminate). done.
  - destruct Hrole as [?|Hf]; [done|].
    rewrite (bool_decide_eq_false_2 _ Ha), (bool_decide_eq_true_2 _ Hf). mrun. done.
Qed.

Lemma participant_run (user : User) (c : State) (w : World) :
  participant user →
  let s' := (onAuthStateChanged (Some user) (MkSys c w)).2 in
  store (world s') = store w ∧ bucket (world s') = bucket w ∧
  writes (trace (world s')) = writes (trace w) ∧
  loading (comp s') = false ∧ isAuthenticated (comp s') = true ∧
  isAdmin (comp s') = false ∧ isFinanceAdmin (comp s') = false ∧
  currentUser (comp s') =
    Some (match lookupDoc (store w) "users" (uid user) with
          | Some d => spread {["id" := VStr (uid user)]} d
          | None => minimalProfile user
          end) ∧
  (lookupDoc (store w) "teams" (uid user) = None →
   paymentStatus (comp s') = paymentStatus c).
Proof.
  intros [Hadmin Hfin]. cbv zeta. unfold onAuthStateChanged.
  rewrite !bool_decide_eq_false_2 by done.
  unfold checkPayment. mrun.
  destruct (lookupDoc (store w) "users" (uid user)) as [profile|] eqn:Hprofile;
  destruct (lookupDoc (store w) "teams" (uid user)) as [team|] eqn:Hteam; mrun;
    rewrite ?Hteam; mrun;
    try (do 2 (split; [reflexivity|]); split; [no_writes|]; done).
  - destruct (strict_eq (team !! "paymentStatus") (Some (VStr "paid"))); mrun.
    { do 2 (split; [reflexivity|]); split; [no_writes|]; done. }
    destruct (profile !! "email") as [e|]; mrun.
    2:{ do 2 (split; [reflexivity|]); split; [no_writes|]; done. }
    destruct (truthy (Some e)); mrun.
    2:{ do 2 (split; [reflexivity|]); split; [no_writes|]; done. }
    case_bool_decide as Hq; mrun;
      (do 2 (split; [reflexivity|]); split; [no_writes|]; done).
  - destruct (strict_eq (team !! "paymentStatus") (Some (VStr "paid"))); mrun.
    { do 2 (split; [reflexivity|]); split; [no_writes|]; done. }
    destruct (email user) as [e|]; cbn [fmap option_fmap option_map]; mrun.
    2:{ do 2 (split; [reflexivity|]); split; [no_writes|]; done. }
    destruct (truthy (Some (VStr e))); mrun.
    2:{ do 2 (split; [reflexivity|]); split; [no_writes|]; done. }
    case_bool_decide as Hq; mrun;
      (do 2 (split; [reflexivity|]); split; [no_writes|]; done).
Qed.

(** X4. A principal with one of the two administrative addresses is
    resolved without any call to the store: the world is left as it was,
    the profile is cleared, the payment status is not touched, and the
    screen is the admin dashboard for the first address and the finance
    dashboard for the second, whatever the store holds for that id. *)
Theorem administrators_bypass_the_store (user : User) (showAuth : bool) (c : State) (w : World) :
  email user = Some ADMIN_CREDENTIALS_email ∨ email user = Some ADMIN_2_CREDENTIALS_email →
  let s' := (onAuthStateChanged (Some user) (MkSys c w)).2 in
  world s' = w ∧
  currentUser (comp s') = None ∧
  paymentStatus (comp s') = paymentStatus c ∧
  isAdmin (comp s') = bool_decide (email user = Some ADMIN_CREDENTIALS_email) ∧
  isFinanceAdmin (comp s') = bool_decide (email user = Some ADMIN_2_CREDENTIALS_email) ∧
  render showAuth (comp s') =
    AuthenticatedScreen (if bool_decide (email user = Some ADMIN_CREDENTIALS_email)
                         then AdminDashboardView false else FinanceDashboardView).
Proof.
  intros Hrole. cbv zeta.
  destruct (administrators_role_run user c w Hrole) as (Hw & Hl & Hau & [Hadm Hfin] & Hcu & Hpay).
  rewrite Hw, Hcu, Hpay, Hadm, Hfin. do 5 (split; [done|]).
  unfold render, renderAuthenticatedContent. rewrite Hl, Hau, Hadm, Hfin.
  rewrite andb_false_r. destruct Hrole as [Ha|Hf].
  - by rewrite (bool_decide_eq_true_2 _ Ha).
  - rewrite (bool_decide_eq_true_2 _ Hf).
    rewrite bool_decide_eq_false_2 by (rewrite Hf; discriminate). done.
Qed.

Lemma administrators_bypass_the_store_witness :
  let s' := (onAuthStateChanged (Some admin) ashaSignsIn).2 in
  world s' = world ashaSignsIn ∧
  currentUser (comp s') = None ∧
  paymentStatus (comp s') = pending ∧
  isAdmin (comp s') = true ∧
  isFinanceAdmin (comp s') = false ∧
  render true (comp s') = AuthenticatedScreen (AdminDashboardView false).
Proof.
  apply (administrators_bypass_the_store admin true (comp ashaSignsIn) (world ashaSignsIn)).
  left. reflexivity.
Defined.

(** X5. The auth-state callback only reads: whatever principal it is
    given, the store and the object storage are left as they were and no
    write is attempted.  It always ends with [loading] off and
    [isAuthenticated] telling whether a principal is signed in, never with
    both role flags set; on sign-out it makes no call at all and clears the
    profile and both flags. *)
Theorem resolver_only_reads (user : option User) (c : State) (w : World) :
  let s' := (onAuthStateChanged user (MkSys c w)).2 in
  store (world s') = store w ∧ bucket (world s') = bucket w ∧
  writes (trace (world s')) = writes (trace w) ∧
  loading (comp s') = false ∧
  isAuthenticated (comp s') = bool_decide (user ≠ None) ∧
  isAdmin (comp s') && isFinanceAdmin (comp s') = false ∧
  (user = None → world s' = w ∧ currentUser (comp s') = None ∧
                 isAdmin (comp s') = false ∧ isFinanceAdmin (comp s') = false).
Proof.
  cbv zeta. destruct user as [user|].
  2:{ unfold onAuthStateChanged. mrun. cbn. done. }
  destruct (decide (email user = Some ADMIN_CREDENTIALS_email)) as [Ha|Ha].
  { destruct (administrators_role_run user c w (or_introl Ha))
      as (Hw & Hl & Hau & [Hadm Hfin] & _).
    rewrite Hw, Hl, Hau, Hadm, Hfin. rewrite (bool_decide_eq_true_2 _ Ha).
    rewrite (bool_decide_eq_true_2 (Some user ≠ None)) by done.
    rewrite bool_decide_eq_false_2 by (rewrite Ha; discriminate). done. }
  destruct (decide (email user = Some ADMIN_2_CREDENTIALS_email)) as [Hf|Hf].
  { destruct (administrators_role_run user c w (or_intror Hf))
      as (Hw & Hl & Hau & [Hadm Hfin] & _).
    rewrite Hw, Hl, Hau, Hadm, Hfin. rewrite (bool_decide_eq_false_2 _ Ha).
    rewrite (bool_decide_eq_true_2 (Some user ≠ None)) by done. done. }
  pose proof (participant_run user c w (conj Ha Hf)) as H. cbv zeta in H.
  destruct H as (Hst & Hb & Hw & Hl & Hau & Hadm & Hfin & _).
  rewrite Hst, Hb, Hw, Hl, Hau, Hadm, Hfin. rewrite bool_decide_eq_true_2 by done. done.
Qed.

End Roles.

Section Views.
Import App AppView.

Lemma sign_out_run (c : State) (w : World) :
  let s' := (onAuthStateChanged None (MkSys c w)).2 in
  world s' = w ∧ paymentStatus (comp s') = paymentStatus c ∧
  render false (comp s') = LandingScreen.
Proof. cbv zeta. unfold onAuthStateChanged. mrun. done. Qed.

(** X6. A signed-in participant is never left on the spinner or on an
    administrative view: the screen is the user dashboard when the payment
    status is paid and the team registration otherwise.  The [userId] and
    [userName] handed to it come from the stored profile, whose own [id]
    field, if it has one, takes precedence over the principal's uid
    ([{ id: user.uid, ...userDoc.data() }]); without a profile they are the
    uid and the display name, or 'User' when that is missing or empty. *)
Theorem participant_screen (user : User) (showAuth : bool) (c : State) (w : World) :
  participant user →
  let s' := (onAuthStateChanged (Some user) (MkSys c w)).2 in
  let userId := match lookupDoc (store w) "users" (uid user) with
                | Some d => match d !! "id" with
                            | Some v => Some v
                            | None => Some (VStr (uid user))
                            end
                | None => Some (VStr (uid user))
                end in
  let userName := match lookupDoc (store w) "users" (uid user) with
                  | Some d => d !! "name"
                  | None => Some (VStr (match displayName user with
                                        | Some n => if bool_decide (n = "") then "User" else n
                                        | None => "User"
                                        end))
                  end in
  render showAuth (comp s') =
    AuthenticatedScreen
      (if bool_decide (paymentStatus (comp s') = paid)
       then UserDashboardView userId userName
       else TeamRegistrationView userId userName).
Proof.
  intros Hp. cbv zeta.
  pose proof (participant_run user c w Hp) as H. cbv zeta in H.
  destruct H as (_ & _ & _ & Hl & Hau & Hadm & Hfin & Hcu & _).
  unfold render, renderAuthenticatedContent.
  rewrite Hl, Hau, Hadm, Hfin, Hcu, andb_false_r.
  destruct (lookupDoc (store w) "users" (uid user)) as [d|].
  - unfold spread. rewrite !lookup_union.
    rewrite lookup_singleton_eq, lookup_singleton_ne by done.
    destruct (d !! "id") as [v|], (d !! "name") as [n|]; done.
  - unfold minimalProfile.
    by rewrite lookup_insert_eq, lookup_insert_ne, lookup_singleton_eq.
Qed.

Lemma participant_screen_witness :
  render true (comp (onAuthStateChanged (Some newcomer) (MkSys initialState emptyWorld)).2) =
  AuthenticatedScreen (TeamRegistrationView (Some (VStr "n1")) (Some (VStr "User"))).
Proof. apply (participant_screen newcomer true initialState emptyWorld). by split. Defined.

(** X7. The payment status is component state that no branch of the
    resolver resets: after a session that resolved to paid, a sign-out
    followed by the sign-in of a participant who has no Team record still
    shows the user dashboard. *)
Theorem paid_status_outlives_sign_out (user : User) (showAuth : bool) (c : State) (w : World) :
  participant user →
  paymentStatus c = paid →
  lookupDoc (store w) "teams" (uid user) = None →
  let signedOut := (onAuthStateChanged None (MkSys c w)).2 in
  let s' := (onAuthStateChanged (Some user) signedOut).2 in
  render false (comp signedOut) = LandingScreen ∧
  paymentStatus (comp s') = paid ∧
  ∃ userId userName,
    render showAuth (comp s') = AuthenticatedScreen (UserDashboardView userId userName).
Proof.
  intros Hp Hpaid Hteam. cbv zeta.
  destruct (sign_out_run c w) as (Hw & Hpay & Hland).
  destruct (onAuthStateChanged None (MkSys c w)).2 as [c1 w1] eqn:Hs1.
  cbn [comp world] in Hw, Hpay, Hland |- *. subst w1.
  split; [done|].
  pose proof (participant_run user c1 w Hp) as H. cbv zeta in H.
  destruct H as (_ & _ & _ & Hl & Hau & Hadm & Hfin & Hcu & Hkeep).
  specialize (Hkeep Hteam). rewrite Hpay, Hpaid in Hkeep.
  split; [done|].
  unfold render, renderAuthenticatedContent.
  rewrite Hl, Hau, Hadm, Hfin, Hcu, Hkeep, andb_false_r.
  rewrite bool_decide_eq_true_2 by done. eauto.
Qed.

Lemma paid_status_outlives_sign_out_witness :
  let signedOut := (onAuthStateChanged None (MkSys (setPaymentStatus paid initialState) emptyWorld)).2 in
  paymentStatus (comp (onAuthStateChanged (Some newcomer) signedOut).2) = paid.
Proof.
  apply (paid_status_outlives_sign_out newcomer true
           (setPaymentStatus paid initialState) emptyWorld); [by split|done|done].
Defined.

End Views.

(** ** Phase-1 form: submission, remount, and what a locked form changes *)

Section FormSubmission.
Import PhaseOneForm PhaseOneFormView.
Context (userId userName : string).

Ltac form_setters :=
  cbn [setLoading setError setSuccess setIsSubmitted setFormData setFile
       isSubmitted formData file error success loading].

(** The first submission when nothing fails, as one step. *)
Lemma handleSubmit_first_run (env : Env) (c : State) (w : World) (f : File) :
  isSubmitted c = false → requiredFilled c = true → file c = Some f →
  upload_fails env (presentationPath userId f) = false →
  url_fails env (presentationPath userId f) = false →
  let path := presentationPath userId f in
  let d := <["updatedAt" := nowAgainISO env]>
             (<["submittedAt" := nowISO env]>
                (<["userName" := VStr userName]>
                   (<["userId" := VStr userId]>
                      (<["fileUrl" := VStr (downloadURL path)]> (formData c))))) in
  handleSubmit userId userName env (MkSys c w) =
    (inr (),
     MkSys (setLoading false
              (setIsSubmitted true
                 (setSuccess "Your submission has been saved successfully!"
                    (setLoading true (setError "" c)))))
           {| store := writeDoc (store w) "phase1_submissions" userId d;
              bucket := <[path := f]> (bucket w);
              trace := trace w ++ [EvUploadBytes path; EvGetDownloadURL path;
                                   EvSetDoc "phase1_submissions" userId d] |}).
Proof.
  intros Hsub Hreq Hf Hup Hurl. cbv zeta.
  unfold handleSubmit. mrun. form_setters. rewrite Hsub. mrun.
  unfold requiredFilled in Hreq. apply negb_true_iff in Hreq. rewrite Hreq. mrun.
  rewrite Hf. unfold uploadBytes, getDownloadURL. mrun. rewrite Hup. mrun.
  rewrite Hurl. mrun. by rewrite <- !app_assoc.
Qed.

(** Mounting on a store that holds the team's submission. *)
Lemma loadSubmissionData_found (c : State) (w : World) (d : Doc) :
  lookupDoc (store w) "phase1_submissions" userId = Some d →
  let s' := (loadSubmissionData userId (MkSys c w)).2 in
  isSubmitted (comp s') = true ∧ initialLoading (comp s') = false ∧
  store (world s') = store w ∧
  ∀ k v, d !! k = Some v → formData (comp s') !! k = Some v.
Proof.
  intros Hd. cbv zeta. unfold loadSubmissionData. mrun.
  destruct (lookupDoc (store w) "teams" userId) as [teamData|]; mrun;
  match goal with |- context [truthy ?x] => destruct (truthy x) end; mrun;
  rewrite Hd; mrun; cbn [andb];
  try destruct (negb (strict_eq (d !! "points") None)); mrun;
  destruct (lookupDoc (store w) "rec_students" userId) as [rec|]; mrun;
  (do 3 (split; [reflexivity|]); intros k v Hk; cbn; by apply spread_lookup_new).
Qed.

(** X8. A submission that fails validation calls nothing: neither the
    store nor the storage is contacted, the form keeps its data, and the
    error names the cause (an empty video link on a locked form; a missing
    required field before a missing file on an open one). *)
Theorem rejected_submission_touches_nothing (env : Env) (c : State) (w : World) :
  rejected c →
  let s' := (handleSubmit userId userName env (MkSys c w)).2 in
  world s' = w ∧
  PhaseOneForm.error (comp s') = rejectionMessage c ∧
  loading (comp s') = false ∧
  isSubmitted (comp s') = isSubmitted c ∧
  formData (comp s') = formData c ∧
  file (comp s') = file c ∧
  success (comp s') = success c.
Proof.
  unfold rejected, rejectionMessage, requiredFilled. intros Hrej. cbv zeta.
  unfold handleSubmit. mrun. form_setters.
  destruct (isSubmitted c) eqn:Hsub; mrun.
  - rewrite Hrej. cbn [strict_eq]. rewrite bool_decide_eq_true_2 by done. mrun.
    by destruct w.
  - destruct (_ || _) eqn:Hmiss; mrun; [by destruct w|].
    destruct Hrej as [Hrej|Hrej]; [done|]. rewrite Hrej. mrun. by destruct w.
Qed.

(** X9. A first submission in which nothing fails stores one document for
    the team: the form data with [fileUrl] replaced by the download URL of
    [presentations/{userId}_{file.name}], stamped with the user's id and
    name, with the clock's first reading as [submittedAt] and its second
    reading as [updatedAt] (the same text only when the clock has not
    moved between them).  The file is in the bucket under that path, every
    other document is left as it was, and the form is locked. *)
Theorem first_submission_stored (env : Env) (c : State) (w : World) (f : File) :
  isSubmitted c = false → requiredFilled c = true → file c = Some f →
  upload_fails env (presentationPath userId f) = false →
  url_fails env (presentationPath userId f) = false →
  let s' := (handleSubmit userId userName env (MkSys c w)).2 in
  ∃ d,
    lookupDoc (store (world s')) "phase1_submissions" userId = Some d ∧
    d !! "fileUrl" = Some (VStr (downloadURL (presentationPath userId f))) ∧
    d !! "userId" = Some (VStr userId) ∧
    d !! "userName" = Some (VStr userName) ∧
    d !! "submittedAt" = Some (nowISO env) ∧
    d !! "updatedAt" = Some (nowAgainISO env) ∧
    (lag env = 0 → d !! "updatedAt" = d !! "submittedAt") ∧
    (∀ k, k ∉ stampedFields → d !! k = formData c !! k) ∧
    bucket (world s') = <[presentationPath userId f := f]> (bucket w) ∧
    (∀ coll id, ("phase1_submissions", userId) ≠ (coll, id) →
                lookupDoc (store (world s')) coll id = lookupDoc (store w) coll id) ∧
    isSubmitted (comp s') = true ∧
    PhaseOneForm.error (comp s') = "" ∧
    submitLabel (comp s') = "Update YouTube Link".
Proof.
  intros Hsub Hreq Hf Hup Hurl. cbv zeta.
  rewrite (handleSubmit_first_run env c w f Hsub Hreq Hf Hup Hurl).
  cbn [snd comp world store bucket]. eexists.
  split; [apply lookupDoc_writeDoc_eq|].
  split; [by rewrite !lookup_insert_ne, lookup_insert_eq by done|].
  split; [by rewrite !lookup_insert_ne, lookup_insert_eq by done|].
  split; [by rewrite !lookup_insert_ne, lookup_insert_eq by done|].
  split; [by rewrite !lookup_insert_ne, lookup_insert_eq by done|].
  split; [by rewrite lookup_insert_eq|].
  split.
  { intros Hlag. rewrite lookup_insert_eq, lookup_insert_ne, lookup_insert_eq by done.
    unfold nowAgainISO, nowISO. by rewrite Hlag, Z.add_0_r. }
  split.
  { intros k Hk. unfold stampedFields in Hk.
    rewrite !lookup_insert_ne; [done|..]; intros <-; apply Hk; set_solver. }
  split; [done|].
  split; [intros coll id Hne; by apply lookupDoc_writeDoc_ne|].
  done.
Qed.

(** X10. What a first submission stored is what the next mount of the
    form shows: every field the participant had filled in comes back with
    its value, [fileUrl] is the uploaded file's URL, and the form starts
    locked. *)
Theorem submit_then_remount (env : Env) (c : State) (w : World) (f : File) :
  isSubmitted c = false → requiredFilled c = true → file c = Some f →
  upload_fails env (presentationPath userId f) = false →
  url_fails env (presentationPath userId f) = false →
  let s1 := (handleSubmit userId userName env (MkSys c w)).2 in
  let s2 := (loadSubmissionData userId (MkSys initialState (world s1))).2 in
  isSubmitted (comp s2) = true ∧
  panels (comp s2) ≠ None ∧
  formData (comp s2) !! "fileUrl" = Some (VStr (downloadURL (presentationPath userId f))) ∧
  ∀ k v, k ∉ stampedFields → formData c !! k = Some v → formData (comp s2) !! k = Some v.
Proof.
  intros Hsub Hreq Hf Hup Hurl. cbv zeta.
  rewrite (handleSubmit_first_run env c w f Hsub Hreq Hf Hup Hurl).
  cbn [snd world].
  match goal with |- context [loadSubmissionData userId (MkSys initialState ?w1)] =>
    destruct (loadSubmissionData_found initialState w1 _
                (lookupDoc_writeDoc_eq _ _ _ _)) as (Hlock & Hinit & _ & Hfields)
  end.
  split; [done|]. split; [unfold panels; by rewrite Hinit|].
  split.
  - apply Hfields. by rewrite !lookup_insert_ne, lookup_insert_eq by done.
  - intros k v Hk Hv. apply Hfields. unfold stampedFields in Hk.
    rewrite !lookup_insert_ne; [done|..]; intros <-; apply Hk; set_solver.
Qed.

End FormSubmission.

Section FormSubmissionExamples.
Import PhaseOneForm PhaseOneFormView.

Lemma rejected_submission_touches_nothing_witness :
  world (handleSubmit "u1" "Asha" (reliable 1740000000000)
           (MkSys initialState emptyWorld)).2 = emptyWorld ∧
  PhaseOneForm.error (comp (handleSubmit "u1" "Asha" (reliable 1740000000000)
           (MkSys initialState emptyWorld)).2) = "Please fill in all required fields".
Proof.
  destruct (rejected_submission_touches_nothing "u1" "Asha" (reliable 1740000000000)
              initialState emptyWorld) as (Hw & He & _).
  - left. reflexivity.
  - split; [exact Hw | exact He].
Defined.

Lemma first_submission_stored_witness :
  let env := {| upload_fails := λ _, false; url_fails := λ _, false; qr_fails := λ _, false;
                transport_fails := λ _, false; now := 1740000000000; lag := 3;
                timezoneOffset := 0 |} in
  ∃ d, lookupDoc (store (world (handleSubmit "u1" "Asha" env filledForm).2))
         "phase1_submissions" "u1" = Some d ∧
       d !! "fileUrl" =
         Some (VStr "https://firebasestorage.googleapis.com/o/presentations/u1_pitch.pptx") ∧
       d !! "submittedAt" = Some (VStr "2025-02-19T21:20:00.000Z") ∧
       d !! "updatedAt" = Some (VStr "2025-02-19T21:20:00.003Z").
Proof.
  intros env.
  destruct (first_submission_stored "u1" "Asha" env (comp filledForm) emptyWorld deck)
    as (d & Hd & Hurl & _ & _ & Hsub & Hupd & _); [reflexivity..|].
  exists d. split; [exact Hd|]. split; [exact Hurl|]. split; [exact Hsub | exact Hupd].
Defined.

Lemma submit_then_remount_witness :
  let s1 := (handleSubmit "u1" "Asha" (reliable 1740000000000) filledForm).2 in
  let s2 := (loadSubmissionData "u1" (MkSys initialState (world s1))).2 in
  isSubmitted (comp s2) = true ∧
  formData (comp s2) !! "solution" = Some (VStr "Fly").
Proof.
  destruct (submit_then_remount "u1" "Asha" (reliable 1740000000000)
              (comp filledForm) emptyWorld deck)
    as (Hlock & _ & _ & Hfields); [reflexivity..|].
  split; [exact Hlock|]. apply Hfields; [|reflexivity].
  unfold stampedFields. intros Hin. by repeat (apply elem_of_cons in Hin as [Hin|Hin]; [done|]);
    apply elem_of_nil in Hin.
Defined.

End FormSubmissionExamples.

(** ** Phase-1 form: results, sessions, and the REC student details *)

Section FormSessions.
Import PhaseOneForm PhaseOneFormView.
Context (userId userName : string).

Ltac form_setters :=
  cbn [setLoading setError setSuccess setIsSubmitted setFormData setFile
       isSubmitted formData file error success loading].

(** X11. What the mount shows of the evaluation: on a form that shows
    nothing yet, the scoreboard appears exactly when the results
    configuration is published, and the team's own result exactly when,
    in addition, its stored submission has points; the panel then carries
    the stored points, review and review time.  The mount writes
    nothing. *)
Theorem results_follow_publication (c : State) (w : World) :
  results c = None → showScoreboard c = false →
  let s' := (loadSubmissionData userId (MkSys c w)).2 in
  let published := truthy (lookupDoc (store w) "config" "phase1Results" ≫= (.!! "published")) in
  store (world s') = store w ∧ writes (trace (world s')) = writes (trace w) ∧
  showScoreboard (comp s') = published ∧
  (is_Some (results (comp s')) ↔
     published = true ∧
     ∃ d, lookupDoc (store w) "phase1_submissions" userId = Some d ∧ is_Some (d !! "points")) ∧
  (∀ r, results (comp s') = Some r →
        ∃ d, lookupDoc (store w) "phase1_submissions" userId = Some d ∧
             r !! "points" = d !! "points" ∧ r !! "review" = d !! "review" ∧
             r !! "reviewedAt" = d !! "reviewedAt").
Proof.
  intros Hres Hshow. cbv zeta. unfold loadSubmissionData. mrun.
  assert (Hundef : ∀ p, strict_eq (Some p) None = false) by (by intros []).
  assert (Hfields : ∀ d : Doc,
    let r := set_field "reviewedAt" (d !! "reviewedAt")
               (set_field "review" (d !! "review") (set_field "points" (d !! "points") ∅)) in
    r !! "points" = d !! "points" ∧ r !! "review" = d !! "review" ∧
    r !! "reviewedAt" = d !! "reviewedAt").
  { intros d. cbv zeta. unfold set_field.
    destruct (d !! "points"), (d !! "review"), (d !! "reviewedAt");
      repeat split;
      rewrite ?lookup_insert_eq, ?lookup_delete_eq; try done;
      repeat first [ rewrite lookup_insert_ne by done | rewrite lookup_delete_ne by done
                   | rewrite lookup_insert_eq | rewrite lookup_delete_eq
                   | rewrite lookup_empty ]; done. }
  destruct (lookupDoc (store w) "teams" userId) as [teamData|]; mrun;
  match goal with |- context [truthy ?x] => destruct (truthy x) end; mrun;
  destruct (lookupDoc (store w) "phase1_submissions" userId) as [d|] eqn:Hsub; mrun;
  cbn [andb];
  try (destruct (d !! "points") as [p|] eqn:Hp;
       [rewrite (Hundef p)|]; cbn [strict_eq negb]); mrun;
  destruct (lookupDoc (store w) "rec_students" userId) as [rec|]; mrun;
  cbn [results showScoreboard setResults setShowScoreboard setInitialLoading setRecStudent
       setIsSubmitted setFormData];
  rewrite ?Hres, ?Hshow;
  (split; [reflexivity|]; split; [rewrite ?writes_app; cbn; by rewrite ?app_nil_r|];
   split; [reflexivity|]).
  all: try (split;
   [ split;
     [ intros [r Hr]; first [ discriminate Hr | split; [reflexivity|]; eauto ]
     | intros [Hpub (d' & Hd' & Hpts)];
       first [ discriminate Hpub | discriminate Hd' | by eexists
             | injection Hd' as <-; rewrite Hp in Hpts; by destruct Hpts ] ]
   | intros r Hr; first [ discriminate Hr
                        | injection Hr as <-; eexists; split; [reflexivity|];
                          rewrite <- Hp; apply Hfields ] ]).
  all: split;
    [ split; [ intros _; split; [done|]; exists d; split; [done|]; rewrite Hp; by eexists
             | intros _; by eexists ]
    | intros r [= <-]; exists d; split; [reflexivity|];
      pose proof (Hfields d) as Hf; cbv zeta in Hf; rewrite Hp in Hf |- *; exact Hf ].
Qed.

End FormSessions.

Section FormSessionsExamples.
Import PhaseOneForm PhaseOneFormView.

Lemma results_follow_publication_witness :
  let w := {| store := writeDoc (writeDoc ∅ "config" "phase1Results" {[ "published" := VBool true ]})
                         "phase1_submissions" "u1" {[ "points" := VNum 80 ]};
              bucket := ∅; trace := [] |} in
  is_Some (results (comp (loadSubmissionData "u1" (MkSys initialState w)).2)).
Proof.
  intros w.
  destruct (results_follow_publication "u1" initialState w) as (_ & _ & _ & [_ H] & _);
    [reflexivity..|].
  apply H. split; [reflexivity|]. eexists. split; [reflexivity|]. by eexists.
Defined.

End FormSessionsExamples.

Section FormInvariants.
Import PhaseOneForm PhaseOneFormView.
Context (userId userName : string).

Ltac form_setters :=
  cbn [setLoading setError setSuccess setIsSubmitted setFormData setFile
       isSubmitted formData file error success loading].

(** One action of the participant: it always completes, and this is all
    it can do to the chosen file, the bucket and a locked form. *)
Lemma act_step (a : Action) (c : State) (w : World) :
  ∃ c' w', act userId userName a (MkSys c w) = (inr (), MkSys c' w') ∧
    (∀ f, file c' = Some f → file c = Some f ∨ file_type f = pptx) ∧
    (bucket w' = bucket w ∨
     ∃ f, file c = Some f ∧ isSubmitted c = false ∧
          bucket w' = <[presentationPath userId f := f]> (bucket w)) ∧
    (isSubmitted c = true →
     isSubmitted c' = true ∧ file c' = file c ∧
     ∀ k, k ≠ "youtubeLink" → formData c' !! k = formData c !! k).
Proof.
  destruct a as [field value|files|env]; cbn [act].
  - unfold handleChange. mrun.
    destruct (bool_decide (field = "youtubeLink")) eqn:Hy; cbn [orb].
    + apply bool_decide_eq_true_1 in Hy as ->. mrun. do 2 eexists.
      split; [reflexivity|]. form_setters.
      split; [by left|]. split; [by left|]. intros Hs.
      do 2 (split; [done|]). intros k Hk. by rewrite lookup_insert_ne.
    + destruct (isSubmitted c) eqn:Hs; rewrite ?andb_false_r, ?andb_true_r; cbn [negb];
        [|destruct (bool_decide (field ∈ guardedInputs))]; mrun; do 2 eexists;
        (split; [reflexivity|]); form_setters;
        (split; [by left|]); (split; [by left|]); done.
  - unfold handleFileChange. mrun.
    destruct (isSubmitted c) eqn:Hs; mrun.
    { do 2 eexists. split; [reflexivity|]. form_setters.
      split; [by left|]. split; [by left|]. done. }
    destruct files as [|f files]; mrun.
    { do 2 eexists. split; [reflexivity|]. split; [by left|]. split; [by left|]. done. }
    case_bool_decide as Ht; mrun; do 2 eexists; (split; [reflexivity|]); form_setters.
    + split; [intros f' [= <-]; by right|]. split; [by left|]. done.
    + split; [by left|]. split; [by left|]. done.
  - unfold handleSubmit. mrun. form_setters.
    destruct (isSubmitted c) eqn:Hs; mrun.
    + destruct (strict_eq (formData c !! "youtubeLink") (Some (VStr ""))); mrun.
      { do 2 eexists. split; [reflexivity|]. form_setters.
        split; [by left|]. split; [by left|]. done. }
      destruct (formData c !! "youtubeLink") as [link|]; mrun.
      2:{ do 2 eexists. split; [reflexivity|]. form_setters.
          split; [by left|]. split; [by left|]. done. }
      destruct (lookupDoc (store w) "phase1_submissions" userId) as [old|]; mrun;
        do 2 eexists; (split; [reflexivity|]); form_setters;
        (split; [by left|]); (split; [by left|]); done.
    + destruct (_ || _); mrun.
      { do 2 eexists. split; [reflexivity|]. form_setters.
        split; [by left|]. split; [by left|]. done. }
      destruct (file c) as [f|] eqn:Hf; mrun.
      2:{ do 2 eexists. split; [reflexivity|]. form_setters. rewrite Hf.
          split; [by left|]. split; [by left|]. done. }
      unfold uploadBytes, getDownloadURL. mrun.
      destruct (upload_fails env (presentationPath userId f)); mrun.
      { do 2 eexists. split; [reflexivity|]. form_setters. rewrite Hf.
        split; [by left|]. split; [by left|]. done. }
      destruct (url_fails env (presentationPath userId f)); mrun;
        do 2 eexists; (split; [reflexivity|]); form_setters; rewrite Hf;
        (split; [by left|]); (split; [right; by exists f|]); done.
Qed.

(** X12. Only PowerPoint files reach the bucket through the form: over
    any sequence of edits, file choices and submissions (each in any
    environment) from a form whose chosen file, if any, is a [.pptx],
    every object in the bucket that was not there before has the pptx
    type and sits at [presentations/{userId}_{file.name}]. *)
Theorem only_pptx_reaches_storage (actions : list Action) (s : Sys State) :
  (∀ f, file (comp s) = Some f → file_type f = pptx) →
  let s' := (forEach actions (act userId userName) s).2 in
  ∀ p f, bucket (world s') !! p = Some f →
         bucket (world s) !! p = Some f ∨
         (file_type f = pptx ∧ p = presentationPath userId f).
Proof.
  cbv zeta. revert s. induction actions as [|a actions IH]; intros [c w] Hfile p f Hp.
  { by left. }
  cbn [forEach] in Hp. unfold mbind, M_bind in Hp.
  destruct (act_step a c w) as (c' & w' & Hact & Hf' & Hb & _). rewrite Hact in Hp.
  cbn [comp world] in *.
  assert (Hfile' : ∀ g, file (comp (MkSys c' w')) = Some g → file_type g = pptx).
  { intros g Hg. destruct (Hf' g Hg) as [?|?]; [by apply Hfile|done]. }
  destruct (IH (MkSys c' w') Hfile' p f Hp) as [Hold|Hnew]; [|by right].
  cbn [world] in Hold. destruct Hb as [Hb|(g & Hg & _ & Hb)]; rewrite Hb in Hold.
  - by left.
  - destruct (decide (presentationPath userId g = p)) as [<-|Hne].
    + rewrite lookup_insert_eq in Hold. injection Hold as <-. right. split; [by apply Hfile|done].
    + rewrite lookup_insert_ne in Hold by done. by left.
Qed.

(** X13. A locked form stays locked: once [isSubmitted] is set, whatever
    the participant does afterwards, the chosen file and the bucket stay
    as they are and the form data changes at most in [youtubeLink]. *)
Theorem locked_form_only_link_changes (actions : list Action) (s : Sys State) :
  isSubmitted (comp s) = true →
  let s' := (forEach actions (act userId userName) s).2 in
  isSubmitted (comp s') = true ∧
  file (comp s') = file (comp s) ∧
  bucket (world s') = bucket (world s) ∧
  ∀ k, k ≠ "youtubeLink" → formData (comp s') !! k = formData (comp s) !! k.
Proof.
  cbv zeta. revert s. induction actions as [|a actions IH]; intros [c w] Hs.
  { done. }
  cbn [forEach]. unfold mbind, M_bind.
  destruct (act_step a c w) as (c' & w' & Hact & _ & Hb & Hlock). rewrite Hact.
  cbn [comp world] in *. destruct (Hlock Hs) as (Hs' & Hf' & Hfd').
  destruct (IH (MkSys c' w') Hs') as (Hs2 & Hf2 & Hb2 & Hfd2). cbn [comp world] in *.
  split; [done|]. split; [congruence|]. split.
  - rewrite Hb2. destruct Hb as [Hb|(g & _ & Hopen & _)]; [done|congruence].
  - intros k Hk. rewrite Hfd2 by done. by apply Hfd'.
Qed.

(** X14. The update of a locked form is one [updateDoc] carrying the
    video link and the update time: no upload is attempted even when a
    file is held.  When the submission is stored it receives the two
    fields and keeps the others; when it is not (the form was locked by a
    document that has since been removed) nothing is created and the
    store's not-found message is shown. *)
Theorem link_update (env : Env) (c : State) (w : World) (link : Val) :
  isSubmitted c = true →
  formData c !! "youtubeLink" = Some link →
  link ≠ VStr "" →
  let s' := (handleSubmit userId userName env (MkSys c w)).2 in
  trace (world s') = trace w ++
    [EvUpdateDoc "phase1_submissions" userId
       {[ "youtubeLink" := link; "updatedAt" := nowISO env ]}] ∧
  bucket (world s') = bucket w ∧
  match lookupDoc (store w) "phase1_submissions" userId with
  | Some old =>
      (∃ d', lookupDoc (store (world s')) "phase1_submissions" userId = Some d' ∧
             d' !! "youtubeLink" = Some link ∧ d' !! "updatedAt" = Some (nowISO env) ∧
             sameButVideo old d') ∧
      success (comp s') = "YouTube link updated successfully!" ∧
      PhaseOneForm.error (comp s') = ""
  | None =>
      store (world s') = store w ∧
      success (comp s') = success c ∧
      PhaseOneForm.error (comp s') = "No document to update: phase1_submissions/" +:+ userId
  end.
Proof.
  intros Hs Hlink Hne. cbv zeta. unfold handleSubmit. mrun. form_setters.
  rewrite Hs. mrun. rewrite Hlink.
  assert (strict_eq (Some link) (Some (VStr "")) = false) as ->.
  { destruct link; try done. cbn. apply bool_decide_eq_false_2. congruence. }
  mrun.
  destruct (lookupDoc (store w) "phase1_submissions" userId) as [old|] eqn:Hold; mrun.
  - split; [done|]. split; [done|]. split; [|done].
    eexists. split; [apply lookupDoc_writeDoc_eq|].
    split; [apply spread_lookup_new; by rewrite lookup_insert_eq|].
    split; [apply spread_lookup_new; by rewrite lookup_insert_ne, lookup_singleton_eq|].
    apply sameButVideo_update.
  - done.
Qed.

End FormInvariants.

Section FormInvariantsExamples.
Import PhaseOneForm PhaseOneFormView.

Lemma only_pptx_reaches_storage_witness :
  bucket emptyWorld !! presentationPath "u1" deck = Some deck ∨
  (file_type deck = pptx ∧ presentationPath "u1" deck = presentationPath "u1" deck).
Proof.
  apply (only_pptx_reaches_storage "u1" "Asha" Examples.firstSubmission
           (MkSys initialState emptyWorld)).
  - intros f Hf. discriminate Hf.
  - vm_compute. reflexivity.
Defined.

Lemma locked_form_only_link_changes_witness :
  let s := Examples.afterFirstSubmission in
  let s' := (forEach Examples.laterEdits (act "u1" "Asha") s).2 in
  isSubmitted (comp s') = true ∧
  file (comp s') = file (comp s) ∧
  bucket (world s') = bucket (world s) ∧
  ∀ k, k ≠ "youtubeLink" → formData (comp s') !! k = formData (comp s) !! k.
Proof.
  apply (locked_form_only_link_changes "u1" "Asha" Examples.laterEdits
           Examples.afterFirstSubmission).
  vm_compute. reflexivity.
Defined.

Lemma link_update_witness :
  let c := setIsSubmitted true
             (setFormData (λ fd, <["youtubeLink" := VStr "https://youtu.be/demo"]> fd)
                initialState) in
  PhaseOneForm.error (comp (handleSubmit "u1" "Asha" (reliable 1741000000000)
                              (MkSys c emptyWorld)).2) =
    "No document to update: phase1_submissions/u1".
Proof.
  intros c.
  destruct (link_update "u1" "Asha" (reliable 1741000000000) c emptyWorld
              (VStr "https://youtu.be/demo")) as (_ & _ & H);
    [reflexivity | reflexivity | discriminate |].
  exact (proj2 (proj2 H)).
Defined.

End FormInvariantsExamples.

Section RecStudent.
Import PhaseOneForm PhaseOneFormView.
Context (userId : string).

Lemma loadSubmissionData_rec_student (c : State) (w : World) (d : Doc) :
  lookupDoc (store w) "rec_students" userId = Some d →
  let s' := (loadSubmissionData userId (MkSys c w)).2 in
  recStudent (comp s') = d ∧ initialLoading (comp s') = false.
Proof.
  intros Hd. cbv zeta. unfold loadSubmissionData. mrun.
  destruct (lookupDoc (store w) "teams" userId) as [teamData|]; mrun;
  match goal with |- context [truthy ?x] => destruct (truthy x) end; mrun;
  destruct (lookupDoc (store w) "phase1_submissions" userId) as [data|]; mrun;
  cbn [andb];
  try destruct (negb (strict_eq (data !! "points") None)); mrun;
  rewrite Hd; mrun; done.
Qed.

(** X15. The REC student details are saved as the form holds them, under
    the user's id, replacing what was stored and touching no other
    document; the next mount reads them back, and the details form is
    then shown exactly when the saved roll number is empty. *)
Theorem rec_student_round_trip (c c0 : State) (w : World) :
  let s1 := (handleRecStudentSubmit userId (MkSys c w)).2 in
  let s2 := (loadSubmissionData userId (MkSys c0 (world s1))).2 in
  success (comp s1) = "REC student details saved successfully!" ∧
  PhaseOneForm.error (comp s1) = PhaseOneForm.error c ∧
  lookupDoc (store (world s1)) "rec_students" userId = Some (recStudent c) ∧
  (∀ coll id, ("rec_students", userId) ≠ (coll, id) →
              lookupDoc (store (world s1)) coll id = lookupDoc (store w) coll id) ∧
  recStudent (comp s2) = recStudent c ∧
  recStudentForm <$> panels (comp s2) = Some (negb (truthy (recStudent c !! "rollNumber"))).
Proof.
  cbv zeta. unfold handleRecStudentSubmit. mrun.
  split; [done|]. split; [done|].
  split; [apply lookupDoc_writeDoc_eq|].
  split; [intros coll id Hne; by apply lookupDoc_writeDoc_ne|].
  match goal with |- context [loadSubmissionData userId (MkSys c0 ?w1)] =>
    destruct (loadSubmissionData_rec_student c0 w1 (recStudent c)
                (lookupDoc_writeDoc_eq _ _ _ _)) as (Hrec & Hinit)
  end.
  split; [done|]. unfold panels. rewrite Hinit. cbn. by rewrite Hrec.
Qed.

End RecStudent.

(** ** Dashboard of a paid team: loading, member edits, the proposal, the countdown *)

Section Dashboard.
Import UserDashboard UserDashboardView.
Context (userId : string).

Ltac dash_setters :=
  cbn [setLoading setError setSuccess setPhase1Data setPhase2Data setTeamData
       setBusinessProposal setYoutubeVideoUrl setTeamMembers setTimeRemaining
       loading error success phase1Data phase2Data teamData businessProposal
       youtubeVideoUrl teamMembers timeRemaining].

(** Loading the dashboard, as one step: three reads, and each piece of
    state is replaced only when its document exists. *)
Lemma loadDashboardData_run (c : State) (w : World) :
  ∃ c', loadDashboardData userId (MkSys c w) =
          (inr (), MkSys c' {| store := store w; bucket := bucket w;
                               trace := trace w ++ [EvGetDoc "phase1_submissions" userId;
                                                    EvGetDoc "phase2_submissions" userId;
                                                    EvGetDoc "teams" userId] |}) ∧
    loading c' = false ∧ error c' = error c ∧ success c' = success c ∧
    businessProposal c' = businessProposal c ∧
    phase1Data c' = match lookupDoc (store w) "phase1_submissions" userId with
                    | Some d => Some d
                    | None => phase1Data c
                    end ∧
    phase2Data c' = match lookupDoc (store w) "phase2_submissions" userId with
                    | Some d => Some d
                    | None => phase2Data c
                    end ∧
    youtubeVideoUrl c' = match lookupDoc (store w) "phase2_submissions" userId with
                         | Some d => match d !! "youtubeVideoUrl" with
                                     | Some (VStr u) => u
                                     | _ => ""
                                     end
                         | None => youtubeVideoUrl c
                         end ∧
    teamData c' = match lookupDoc (store w) "teams" userId with
                  | Some team => Some team
                  | None => teamData c
                  end ∧
    teamMembers c' = match lookupDoc (store w) "teams" userId with
                     | Some team => membersOrEmpty (team !! "members")
                     | None => teamMembers c
                     end.
Proof.
  unfold loadDashboardData. mrun.
  destruct (lookupDoc (store w) "phase1_submissions" userId) as [d1|]; mrun;
  destruct (lookupDoc (store w) "phase2_submissions" userId) as [d2|]; mrun;
  destruct (lookupDoc (store w) "teams" userId) as [team|]; mrun;
  (eexists; split; [by rewrite <- !app_assoc|]; dash_setters; done).
Qed.

(** X16. Loading the dashboard only reads: three [getDoc] calls, no write
    to the store or the bucket, whatever the documents hold; it ends with
    the spinner off and leaves messages and the chosen file alone. *)
Theorem dashboard_load_only_reads (c : State) (w : World) :
  let s' := (loadDashboardData userId (MkSys c w)).2 in
  store (world s') = store w ∧ bucket (world s') = bucket w ∧
  writes (trace (world s')) = writes (trace w) ∧
  trace (world s') = trace w ++ [EvGetDoc "phase1_submissions" userId;
                                 EvGetDoc "phase2_submissions" userId;
                                 EvGetDoc "teams" userId] ∧
  loading (comp s') = false ∧ error (comp s') = error c ∧
  businessProposal (comp s') = businessProposal c ∧
  (lookupDoc (store w) "teams" userId = None → teamMembers (comp s') = teamMembers c).
Proof.
  cbv zeta. destruct (loadDashboardData_run c w)
    as (c' & -> & Hl & He & _ & Hb & _ & _ & _ & _ & Hm).
  cbn [snd comp world store bucket trace].
  split; [done|]. split; [done|]. split; [rewrite writes_app; cbn; by rewrite app_nil_r|].
  split; [done|]. split; [done|]. split; [done|]. split; [done|].
  intros Hnone. by rewrite Hm, Hnone.
Qed.

(** X17. An edit through one of the rendered member inputs (so [index]
    is in range) changes that member only, the edited fields winning over
    the old ones and the others kept; the list keeps its length, is what
    the Team document now holds under [members], and is what a reload of
    the dashboard shows. *)
Theorem member_edit_in_range (index : nat) (data old : Member) (c : State) (w : World) :
  teamMembers c !! index = Some old →
  let s1 := (handleMemberUpdate userId index data (MkSys c w)).2 in
  let s2 := (loadDashboardData userId s1).2 in
  length (teamMembers (comp s1)) = length (teamMembers c) ∧
  (∃ m, teamMembers (comp s1) !! index = Some m ∧
        ∀ k, m !! k = match data !! k with Some v => Some v | None => old !! k end) ∧
  (∀ j, j ≠ index → teamMembers (comp s1) !! j = teamMembers c !! j) ∧
  lookupDoc (store (world s1)) "teams" userId ≫= (.!! "members") =
    Some (VMembers (teamMembers (comp s1))) ∧
  success (comp s1) = "Team member details updated successfully" ∧
  teamMembers (comp s2) = teamMembers (comp s1).
Proof.
  intros Hold. cbv zeta. unfold handleMemberUpdate. mrun. dash_setters.
  unfold updateAt. rewrite Hold.
  split; [by rewrite length_insert|].
  split.
  { exists (data ∪ old). split.
    - apply list_lookup_insert_eq. by eapply lookup_lt_Some.
    - intros k. rewrite lookup_union. by destruct (data !! k), (old !! k). }
  split; [intros j Hj; by apply list_lookup_insert_ne|].
  split; [by rewrite lookupDoc_writeDoc_eq|].
  split; [done|].
  match goal with |- context [loadDashboardData userId (MkSys ?c1 ?w1)] =>
    destruct (loadDashboardData_run c1 w1) as (c' & -> & _ & _ & _ & _ & _ & _ & _ & _ & Hm)
  end.
  cbn [snd comp store] in *. by rewrite Hm, lookupDoc_writeDoc_eq.
Qed.

(** X18. A proposal upload in which nothing fails.  The file, of
    whatever type, goes to [proposals/{userId}_{file.name}]; the phase-2
    document is merged, not replaced: it receives the URL, the typed
    video link, the time, and the status "pending" (overwriting any
    status it had), and keeps its other fields; no other document
    changes.  The refreshed dashboard shows that document and the typed
    video link. *)
Theorem proposal_upload_merges (env : Env) (c : State) (w : World) (f : File) :
  businessProposal c = Some f →
  upload_fails env (proposalPath userId f) = false →
  url_fails env (proposalPath userId f) = false →
  let s' := (handleProposalUpload userId env (MkSys c w)).2 in
  let old := default ∅ (lookupDoc (store w) "phase2_submissions" userId) in
  ∃ d,
    lookupDoc (store (world s')) "phase2_submissions" userId = Some d ∧
    d !! "proposalUrl" = Some (VStr (downloadURL (proposalPath userId f))) ∧
    d !! "youtubeVideoUrl" = Some (VStr (youtubeVideoUrl c)) ∧
    d !! "submittedAt" = Some (nowISO env) ∧
    d !! "status" = Some (VStr "pending") ∧
    (∀ k, k ∉ proposalFields → d !! k = old !! k) ∧
    bucket (world s') = <[proposalPath userId f := f]> (bucket w) ∧
    (∀ coll id, ("phase2_submissions", userId) ≠ (coll, id) →
                lookupDoc (store (world s')) coll id = lookupDoc (store w) coll id) ∧
    phase2Data (comp s') = Some d ∧
    youtubeVideoUrl (comp s') = youtubeVideoUrl c ∧
    loading (comp s') = false ∧
    success (comp s') = "Business proposal and YouTube video uploaded successfully".
Proof.
  intros Hf Hup Hurl. cbv zeta. unfold handleProposalUpload. mrun. rewrite Hf.
  unfold uploadBytes, getDownloadURL. mrun. rewrite Hup. mrun. rewrite Hurl. mrun.
  match goal with |- context [loadDashboardData userId (MkSys ?c1 ?w1)] =>
    destruct (loadDashboardData_run c1 w1)
      as (c' & -> & Hl & He & Hs & Hb & _ & Hp2 & Hy & _ & _)
  end.
  cbn [store] in Hp2, Hy. rewrite lookupDoc_writeDoc_eq in Hp2, Hy.
  mrun. dash_setters. eexists.
  split; [apply lookupDoc_writeDoc_eq|].
  split; [apply spread_lookup_new; by rewrite lookup_insert_eq|].
  split; [apply spread_lookup_new; by rewrite lookup_insert_ne, lookup_insert_eq|].
  split; [apply spread_lookup_new; by rewrite !lookup_insert_ne, lookup_insert_eq by done|].
  split; [apply spread_lookup_new; by rewrite !lookup_insert_ne, lookup_singleton_eq by done|].
  split.
  { intros k Hk. apply spread_lookup_old. unfold proposalFields in Hk.
    rewrite !lookup_insert_ne, ?lookup_singleton_ne; [done|..]; intros <-; apply Hk; set_solver. }
  split; [done|].
  split; [intros coll id Hne; by apply lookupDoc_writeDoc_ne|].
  split; [exact Hp2|].
  split.
  { rewrite Hy. rewrite (spread_lookup_new _ _ "youtubeVideoUrl" (VStr (youtubeVideoUrl c))).
    - done.
    - by rewrite lookup_insert_ne, lookup_insert_eq. }
  done.
Qed.

End Dashboard.

Section DashboardExamples.
Import UserDashboard UserDashboardView.

Lemma member_edit_in_range_witness :
  let s0 := (loadDashboardData "u1" (MkSys initialState paidTeamWorld)).2 in
  let s1 := (handleMemberUpdate "u1" 0 {[ "phone" := "9" ]} s0).2 in
  length (teamMembers (comp s1)) = length (teamMembers (comp s0)).
Proof.
  intros s0 s1.
  destruct (member_edit_in_range "u1" 0 {[ "phone" := "9" ]}
              {[ "name" := "Asha"; "email" := "asha@example.org"; "phone" := "1" ]}
              (comp s0) (world s0)) as (Hlen & _).
  - vm_compute. reflexivity.
  - exact Hlen.
Defined.

Lemma proposal_upload_merges_witness :
  let w := {| store := {[ "phase2_submissions" := {[ "u1" := selectedProposal ]} ]};
              bucket := ∅; trace := [] |} in
  let s' := (handleProposalUpload "u1" (reliable 1743000000000)
               (MkSys (comp readyToUpload) w)).2 in
  ∃ d, lookupDoc (store (world s')) "phase2_submissions" "u1" = Some d ∧
       d !! "status" = Some (VStr "pending") ∧ d !! "score" = Some (VNum 9).
Proof.
  intros w s'.
  destruct (proposal_upload_merges "u1" (reliable 1743000000000) (comp readyToUpload) w proposal)
    as (d & Hd & _ & _ & _ & Hstatus & Hkeep & _); [reflexivity..|].
  exists d. split; [exact Hd|]. split; [exact Hstatus|].
  rewrite Hkeep; [reflexivity|].
  unfold proposalFields. intros Hin.
  by repeat (apply elem_of_cons in Hin as [Hin|Hin]; [done|]); apply elem_of_nil in Hin.
Defined.

End DashboardExamples.

Section Countdown.
Import UserDashboard UserDashboardView.

Lemma append_nonempty_r (s t : string) : t ≠ "" → s +:+ t ≠ "".
Proof. intros Ht. destruct s; [done|discriminate]. Qed.

Lemma lastChar_cons (a : ascii) (s : string) : s ≠ "" → lastChar (String a s) = lastChar s.
Proof. by destruct s. Qed.

Lemma lastChar_app (s t : string) : t ≠ "" → lastChar (s +:+ t) = lastChar t.
Proof.
  intros Ht. induction s as [|a s IH]; [done|].
  change (String a s +:+ t) with (String a (s +:+ t)).
  rewrite lastChar_cons by (by apply append_nonempty_r). exact IH.
Qed.

Lemma formatCountdown_lastChar (parts : Z * Z * Z * Z) :
  lastChar (formatCountdown parts) = Some "s"%char.
Proof.
  destruct parts as [[[d h] m] s]. unfold formatCountdown.
  repeat (rewrite lastChar_app by (repeat (apply append_nonempty_r); done)).
  reflexivity.
Qed.

Lemma countdownText_open (env : Env) :
  now env < phase2Deadline env →
  countdownText env = formatCountdown (countdownParts (phase2Deadline env - now env)).
Proof.
  intros H. unfold countdownText. cbv zeta.
  rewrite bool_decide_eq_false_2 by lia. reflexivity.
Qed.

(** X19. The countdown and the gate of the phase-2 controls test the
    same deadline and agree at every instant but the deadline itself: away
    from it the countdown reads "Submission Closed" exactly when
    [isSubmissionClosed] answers true. *)
Theorem countdown_agrees_with_gate (env : Env) :
  now env ≠ phase2Deadline env →
  (countdownText env = "Submission Closed" ↔ isSubmissionClosed env = true).
Proof.
  intros Hne. unfold isSubmissionClosed. split.
  - intros Htext. apply bool_decide_eq_true_2.
    destruct (decide (now env < phase2Deadline env)) as [Hlt|]; [|lia].
    rewrite (countdownText_open env Hlt) in Htext.
    pose proof (formatCountdown_lastChar (countdownParts (phase2Deadline env - now env))) as Hl.
    rewrite Htext in Hl. discriminate Hl.
  - intros Hc. apply bool_decide_eq_true_1 in Hc.
    unfold countdownText. cbv zeta. rewrite bool_decide_eq_true_2 by lia. reflexivity.
Qed.

Lemma countdown_agrees_with_gate_witness :
  countdownText (reliable 1743638400000) = "Submission Closed" ↔
  isSubmissionClosed (reliable 1743638400000) = true.
Proof. apply (countdown_agrees_with_gate (reliable 1743638400000)). vm_compute. discriminate. Defined.

(** X20. Before the deadline the countdown shows the time left split
    into days, hours below 24, minutes below 60 and seconds below 60,
    none negative, and the split loses less than a second: the four
    numbers add up to the distance rounded down to whole seconds. *)
Theorem countdown_decomposition (env : Env) :
  now env < phase2Deadline env →
  ∃ days hours minutes seconds,
    countdownText env = formatCountdown (days, hours, minutes, seconds) ∧
    0 ≤ days ∧ 0 ≤ hours < 24 ∧ 0 ≤ minutes < 60 ∧ 0 ≤ seconds < 60 ∧
    (((days * 24 + hours) * 60 + minutes) * 60 + seconds) * 1000
      = (phase2Deadline env - now env) `div` 1000 * 1000.
Proof.
  intros H. rewrite (countdownText_open env H).
  set (distance := phase2Deadline env - now env). assert (0 < distance) as Hpos by (unfold distance; lia).
  clearbody distance. unfold countdownParts.
  do 4 eexists. split; [reflexivity|].
  rewrite !Z.rem_mod_nonneg by lia.
  change (1000 * 60 * 60 * 24) with 86400000. change (1000 * 60 * 60) with 3600000.
  change (1000 * 60) with 60000.
  repeat split; try (apply Z.div_pos; [apply Z.mod_pos_bound|]; lia);
    try (apply Z.div_pos; lia);
    try (apply Z.div_lt_upper_bound; [lia|];
         match goal with |- ?a `mod` ?b < _ => pose proof (Z.mod_pos_bound a b); lia end).
  Z.div_mod_to_equations. lia.
Qed.

Lemma countdown_decomposition_witness :
  ∃ days hours minutes seconds,
    countdownText (reliable (1743638399000 - 90061000))
      = formatCountdown (days, hours, minutes, seconds) ∧
    0 ≤ days ∧ 0 ≤ hours < 24 ∧ 0 ≤ minutes < 60 ∧ 0 ≤ seconds < 60 ∧
    (((days * 24 + hours) * 60 + minutes) * 60 + seconds) * 1000
      = (phase2Deadline (reliable (1743638399000 - 90061000))
         - now (reliable (1743638399000 - 90061000))) `div` 1000 * 1000.
Proof. apply (countdown_decomposition (reliable (1743638399000 - 90061000))). vm_compute. reflexivity. Defined.

End Countdown.

(** ** Scoring and the publication check *)

Section Scoring.
Import AdminDashboard.

Ltac admin_setters :=
  cbn [setSubmissions setLoading setError setSuccess setPublishing setEditingScore setScoreData
       submissions loading error success publishing editingScore scoreData].

(** The rows the dashboard builds from the stored submissions. *)
Lemma fetchData_run (c : State) (w : World) :
  fetchData (MkSys c w) =
    (inr (),
     MkSys (setLoading false
              (setSubmissions
                 ((λ qd : string * Doc, spread {["id" := VStr qd.1]} qd.2)
                    <$> docsOf (collection (store w) "phase1_submissions"))
                 (setLoading true c)))
           {| store := store w; bucket := bucket w;
              trace := trace w ++ [EvGetDocs "phase1_submissions"] |}).
Proof. unfold fetchData. mrun. reflexivity. Qed.

Lemma strict_eq_undefined (v : option Val) : strict_eq v None = true ↔ v = None.
Proof. destruct v as [[]|]; cbn; split; done. Qed.

(** The fetched rows hold no unscored one exactly when every stored
    submission has points. *)
Lemma unscored_fetched (st : Store) :
  unscored ((λ qd : string * Doc, spread {["id" := VStr qd.1]} qd.2)
              <$> docsOf (collection st "phase1_submissions")) = [] ↔
  ∀ id d, lookupDoc st "phase1_submissions" id = Some d → is_Some (d !! "points").
Proof.
  unfold unscored, lookupDoc. split.
  - intros Hnil id d Hd.
    destruct (d !! "points") as [p|] eqn:Hp; [by eexists|]. exfalso.
    eapply (filter_nil_not_elem_of _ _ (spread {["id" := VStr id]} d) Hnil).
    + apply strict_eq_undefined. rewrite spread_lookup_old by exact Hp.
      by rewrite lookup_singleton_ne.
    + apply list_elem_of_fmap. exists (id, d). split; [done|].
      by apply elem_of_docsOf.
  - intros Hall. apply filter_none. apply Forall_forall. intros row Hrow.
    apply list_elem_of_fmap in Hrow as ([id d] & -> & Hin).
    apply elem_of_docsOf in Hin. destruct (Hall id d Hin) as [p Hp].
    cbn [fst snd]. intros Hu. apply strict_eq_undefined in Hu.
    unfold spread in Hu. rewrite lookup_union, Hp in Hu. done.
Qed.

(** X21. Saving a score.  On a stored submission the document receives
    the points (whatever the number), the review and the review time and
    keeps its other fields, no other document changes, the editor is
    closed and reset, and the list is fetched again.  On a submission that
    is no longer stored nothing is written, the editor stays open with its
    data, and the failure is reported. *)
Theorem score_submit (env : Env) (submissionId : string) (c : State) (w : World) :
  let s' := (handleScoreSubmit env submissionId (MkSys c w)).2 in
  loading (comp s') = false ∧ bucket (world s') = bucket w ∧
  match lookupDoc (store w) "phase1_submissions" submissionId with
  | Some old =>
      (∃ d, lookupDoc (store (world s')) "phase1_submissions" submissionId = Some d ∧
            d !! "points" = Some (VNum (sd_points (scoreData c))) ∧
            d !! "review" = Some (VStr (sd_review (scoreData c))) ∧
            d !! "reviewedAt" = Some (nowISO env) ∧
            ∀ k, k ∉ ["points"; "review"; "reviewedAt"] → d !! k = old !! k) ∧
      (∀ coll id, ("phase1_submissions", submissionId) ≠ (coll, id) →
                  lookupDoc (store (world s')) coll id = lookupDoc (store w) coll id) ∧
      editingScore (comp s') = None ∧
      scoreData (comp s') = {| sd_points := 0; sd_review := "" |} ∧
      success (comp s') = "Score updated successfully" ∧
      submissions (comp s') =
        (λ qd : string * Doc, spread {["id" := VStr qd.1]} qd.2)
          <$> docsOf (collection (store (world s')) "phase1_submissions")
  | None =>
      store (world s') = store w ∧
      error (comp s') = "Failed to update score" ∧
      editingScore (comp s') = editingScore c ∧
      scoreData (comp s') = scoreData c ∧
      submissions (comp s') = submissions c
  end.
Proof.
  cbv zeta. unfold handleScoreSubmit. mrun. admin_setters.
  destruct (lookupDoc (store w) "phase1_submissions" submissionId) as [old|] eqn:Hold; mrun.
  - rewrite fetchData_run. mrun. admin_setters.
    split; [done|]. split; [done|]. split.
    { eexists. split; [apply lookupDoc_writeDoc_eq|].
      split; [apply spread_lookup_new; by rewrite lookup_insert_eq|].
      split; [apply spread_lookup_new; by rewrite lookup_insert_ne, lookup_insert_eq|].
      split; [apply spread_lookup_new; by rewrite !lookup_insert_ne, lookup_singleton_eq by done|].
      intros k Hk. apply spread_lookup_old.
      rewrite !lookup_insert_ne, ?lookup_singleton_ne; [done|..]; intros <-; apply Hk; set_solver. }
    split; [intros coll id Hne; by apply lookupDoc_writeDoc_ne|]. done.
  - done.
Qed.

(** X22. Publishing straight after a fetch tests the store: if some
    stored submission has no points the request is refused, with its own
    message and without any write; if every one has points and the
    results configuration exists, the flag is set. *)
Theorem publish_after_fetch (env : Env) (c : State) (w : World) :
  let s1 := (fetchData (MkSys c w)).2 in
  let s2 := (publishResults env s1).2 in
  ((∃ id d, lookupDoc (store w) "phase1_submissions" id = Some d ∧ d !! "points" = None) →
   store (world s2) = store w ∧ writes (trace (world s2)) = writes (trace w) ∧
   error (comp s2) = "All submissions must be scored before publishing results") ∧
  ((∀ id d, lookupDoc (store w) "phase1_submissions" id = Some d → is_Some (d !! "points")) →
   is_Some (lookupDoc (store w) "config" "phase1Results") →
   published (store (world s2)) = true).
Proof.
  cbv zeta. rewrite fetchData_run. cbn [snd]. split.
  - intros (id & d & Hd & Hp).
    rewrite publishResults_refused.
    + cbn [snd comp world store trace]. split; [done|].
      split; [rewrite writes_app; cbn; by rewrite app_nil_r|done].
    + admin_setters. intros Hnil.
      destruct (proj1 (unscored_fetched (store w)) Hnil id d Hd) as [p Hp']. congruence.
  - intros Hall [cfg Hcfg].
    match goal with |- context [publishResults env (MkSys ?c1 ?w1)] =>
      destruct (publishResults_latches env c1 w1 cfg) as (Hpub & _)
    end; [admin_setters; exact (proj2 (unscored_fetched (store w)) Hall) | done | done].
Qed.

(** X23. The check reads the list fetched earlier, not the store: a
    submission that arrives after the fetch is not seen, and results are
    published although it has no points. *)
Theorem publish_ignores_later_submissions (env : Env) (c : State) (w : World)
    (id : string) (late cfg : Doc) :
  (∀ id d, lookupDoc (store w) "phase1_submissions" id = Some d → is_Some (d !! "points")) →
  lookupDoc (store w) "config" "phase1Results" = Some cfg →
  late !! "points" = None →
  let s1 := (fetchData (MkSys c w)).2 in
  let arrived := {| store := writeDoc (store (world s1)) "phase1_submissions" id late;
                    bucket := bucket (world s1); trace := trace (world s1) |} in
  let s2 := (publishResults env (MkSys (comp s1) arrived)).2 in
  lookupDoc (store (world s2)) "phase1_submissions" id = Some late ∧
  published (store (world s2)) = true ∧
  success (comp s2) = "Results published successfully!".
Proof.
  intros Hall Hcfg Hlate. cbv zeta. rewrite fetchData_run. cbn [snd comp world store bucket trace].
  match goal with |- context [publishResults env (MkSys ?c1 ?w1)] =>
    destruct (publishResults_latches env c1 w1 cfg) as (Hpub & Hsucc & _)
  end.
  { admin_setters. exact (proj2 (unscored_fetched (store w)) Hall). }
  { cbn [store]. by rewrite lookupDoc_writeDoc_ne. }
  split; [|done].
  unfold publishResults. mrun. admin_setters.
  rewrite (proj2 (unscored_fetched (store w)) Hall). cbn [length].
  rewrite bool_decide_eq_false_2 by lia. mrun.
  rewrite lookupDoc_writeDoc_ne, Hcfg by done. mrun.
  rewrite lookupDoc_writeDoc_ne, Hcfg by done. mrun.
  rewrite lookupDoc_writeDoc_ne by done. apply lookupDoc_writeDoc_eq.
Qed.

End Scoring.

Section ScoringExamples.
Import AdminDashboard.

Lemma publish_ignores_later_submissions_witness :
  let w := {| store := {[ "phase1_submissions" := {[ "a" := {[ "points" := VNum 80 ]} ]};
                          "config" := {[ "phase1Results" := {[ "published" := VBool false ]} ]} ]};
              bucket := ∅; trace := [] |} in
  let s1 := (fetchData (MkSys initialState w)).2 in
  let arrived := {| store := writeDoc (store (world s1)) "phase1_submissions" "b"
                               {[ "teamName" := VStr "B" ]};
                    bucket := bucket (world s1); trace := trace (world s1) |} in
  published (store (world (publishResults (reliable 1741000000000)
                             (MkSys (comp s1) arrived)).2)) = true.
Proof.
  intros w s1 arrived.
  destruct (publish_ignores_later_submissions (reliable 1741000000000) initialState w "b"
              {[ "teamName" := VStr "B" ]} {[ "published" := VBool false ]})
    as (_ & Hpub & _).
  - intros id d Hd. unfold w, lookupDoc, collection in Hd. cbn [store] in Hd.
    rewrite lookup_insert_eq in Hd. simpl in Hd.
    apply lookup_singleton_Some in Hd as [_ <-]. by eexists.
  - reflexivity.
  - reflexivity.
  - exact Hpub.
Defined.

End ScoringExamples.

Section PublicationExamples.
Import AdminDashboard.

Lemma publish_after_fetch_witness :
  let s1 := (fetchData (MkSys initialState (world oneUnscored))).2 in
  error (comp (publishResults (reliable 1741000000000) s1).2)
    = "All submissions must be scored before publishing results".
Proof.
  destruct (publish_after_fetch (reliable 1741000000000) initialState (world oneUnscored))
    as [Hrefused _].
  destruct Hrefused as (_ & _ & Herr).
  - exists "b", {[ "teamName" := VStr "B" ]}. split; vm_compute; reflexivity.
  - exact Herr.
Defined.

End PublicationExamples.

(** ** Fan-out: selection mails, and what stops a team's invitations *)

Section SelectionDispatch.
Import EmailService EmailDashboard FanOut Phase2Selection.








(** X25. A dispatch with incomplete workshop details sends nothing: no
    code is rendered and no mail is handed to the transport, for any list
    of teams; only the error message is set. *)
Theorem incomplete_details_send_nothing (env : Env) (c : State) (w : World) :
  ¬ complete (workshopDetails c) →
  handleSendWorkshopInvites env (MkSys c w) =
    (inr None, MkSys (setError "Please fill in all workshop details" c) w).
Proof.
  intros Hinc. unfold handleSendWorkshopInvites. mrun.
  destruct (decide (wd_title (workshopDetails c) = "")) as [Ht|Ht].
  { rewrite (bool_decide_eq_true_2 _ Ht). by destruct w. }
  destruct (decide (wd_date (workshopDetails c) = "")) as [Hd|Hd].
  { rewrite (bool_decide_eq_true_2 _ Hd), orb_true_r. by destruct w. }
  destruct (decide (wd_venue (workshopDetails c) = "")) as [Hv|Hv].
  { rewrite (bool_decide_eq_true_2 _ Hv), orb_true_r. by destruct w. }
  by destruct Hinc.
Qed.

Lemma incomplete_details_send_nothing_witness :
  handleSendWorkshopInvites boBounces (MkSys (setTeams [trio] initialState) emptyWorld) =
    (inr None,
     MkSys (setError "Please fill in all workshop details" (setTeams [trio] initialState))
           emptyWorld).
Proof.
  apply (incomplete_details_send_nothing boBounces (setTeams [trio] initialState) emptyWorld).
  intros (Ht & _). by apply Ht.
Defined.

End SelectionDispatch.

Section TeamInvitation.
Import EmailService EmailDashboard FanOut.

Lemma membersEvents_all_rendered (env : Env) (teamData : Doc) (wd : WorkshopDetails)
    (ms : list Member) :
  (∀ m, m ∈ ms → qr_fails env (qrData (eTicketData teamData wd m)) = false) →
  membersEvents env teamData wd ms =
    (concat ((λ m, [EvQRCode (qrData (eTicketData teamData wd m)); inviteMail teamData wd m])
               <$> ms), true).
Proof.
  induction ms as [|m ms IH]; intros Hok; [done|].
  cbn [membersEvents]. rewrite Hok by apply list_elem_of_here.
  rewrite IH by (intros m' Hm'; apply Hok; by apply list_elem_of_further). done.
Qed.

Lemma membersEvents_stopped (env : Env) (teamData : Doc) (wd : WorkshopDetails)
    (before after : list Member) (m : Member) :
  (∀ b, b ∈ before → qr_fails env (qrData (eTicketData teamData wd b)) = false) →
  qr_fails env (qrData (eTicketData teamData wd m)) = true →
  membersEvents env teamData wd (before ++ m :: after) =
    (concat ((λ b, [EvQRCode (qrData (eTicketData teamData wd b)); inviteMail teamData wd b])
               <$> before) ++ [EvQRCode (qrData (eTicketData teamData wd m))], false).
Proof.
  induction before as [|b before IH]; intros Hok Hfail.
  - cbn [app membersEvents]. by rewrite Hfail.
  - cbn [app membersEvents]. rewrite Hok by apply list_elem_of_here.
    rewrite IH; [done| |done]. intros b' Hb'. apply Hok. by apply list_elem_of_further.
Qed.

(** X26. When every member's code renders, the invitation of a team
    answers [true] whatever the mail transport does, after one code and
    one mail per member, in order, each mail carrying that member's ticket
    as its only attachment. *)
Theorem invite_reaches_every_member {C} (env : Env) (teamData : Doc) (wd : WorkshopDetails)
    (ms : list Member) (s : Sys C) :
  iterate (teamData !! "members") = Some ms →
  (∀ m, m ∈ ms → qr_fails env (qrData (eTicketData teamData wd m)) = false) →
  sendWorkshopInvite env teamData wd s =
    (inr true,
     MkSys (comp s)
       (appended (world s)
          (concat ((λ m, [EvQRCode (qrData (eTicketData teamData wd m));
                          EvSendMail (m !! "email") ("Workshop Invitation: " +:+ wd_title wd)
                            (inviteHtml m wd) [ticketOf (eTicketData teamData wd m)]])
                     <$> ms)))).
Proof.
  intros Hms Hok. rewrite (sendWorkshopInvite_emits env teamData wd s).
  unfold inviteEvents. rewrite Hms, (membersEvents_all_rendered env teamData wd ms Hok).
  reflexivity.
Qed.

(** X27. A member whose code cannot be rendered stops the invitation of
    the team: the members before were invited, that member and all the
    members after get no mail, although their codes would render, and the
    team is reported as failed. *)
Theorem ticket_failure_stops_team {C} (env : Env) (teamData : Doc) (wd : WorkshopDetails)
    (before after : list Member) (m : Member) (s : Sys C) :
  iterate (teamData !! "members") = Some (before ++ m :: after) →
  (∀ b, b ∈ before → qr_fails env (qrData (eTicketData teamData wd b)) = false) →
  qr_fails env (qrData (eTicketData teamData wd m)) = true →
  sendWorkshopInvite env teamData wd s =
    (inr false,
     MkSys (comp s)
       (appended (world s)
          (concat ((λ b, [EvQRCode (qrData (eTicketData teamData wd b));
                          inviteMail teamData wd b]) <$> before)
           ++ [EvQRCode (qrData (eTicketData teamData wd m))]))).
Proof.
  intros Hms Hok Hfail. rewrite (sendWorkshopInvite_emits env teamData wd s).
  unfold inviteEvents.
  rewrite Hms, (membersEvents_stopped env teamData wd before after m Hok Hfail).
  reflexivity.
Qed.

End TeamInvitation.

Section TeamInvitationExamples.
Import EmailService EmailDashboard FanOut.

Lemma invite_reaches_every_member_witness :
  (sendWorkshopInvite boBounces trio workshop trioDashboard).1 = inr true.
Proof.
  exact (f_equal fst
    (invite_reaches_every_member boBounces trio workshop
       [ {[ "name" := "Asha"; "email" := "asha@example.org"; "phone" := "1" ]};
         {[ "name" := "Bo"; "email" := "bo@example.org"; "phone" := "2" ]};
         {[ "name" := "Chen"; "email" := "chen@example.org"; "phone" := "3" ]} ]
       trioDashboard eq_refl (λ _ _, eq_refl))).
Defined.

Lemma ticket_failure_stops_team_witness :
  let env := {| upload_fails := λ _, false; url_fails := λ _, false; qr_fails := λ _, true;
                transport_fails := λ _, false; now := 1740000000000; lag := 0;
                timezoneOffset := 0 |} in
  sendWorkshopInvite env trio workshop trioDashboard =
    (inr false,
     MkSys (comp trioDashboard)
       (appended (world trioDashboard)
          [EvQRCode (qrData (eTicketData trio workshop
             {[ "name" := "Asha"; "email" := "asha@example.org"; "phone" := "1" ]}))])).
Proof.
  intros env.
  apply (ticket_failure_stops_team env trio workshop []
           [ {[ "name" := "Bo"; "email" := "bo@example.org"; "phone" := "2" ]};
             {[ "name" := "Chen"; "email" := "chen@example.org"; "phone" := "3" ]} ]
           {[ "name" := "Asha"; "email" := "asha@example.org"; "phone" := "1" ]}
           trioDashboard).
  - reflexivity.
  - intros b Hb. by apply elem_of_nil in Hb.
  - reflexivity.
Defined.

(** The selected team with members is mailed, the unselected one is not,
    and the selected record without members is the one failure. *)
Example selection_dispatch_example :
  (Phase2Selection.handleSendPhase2Selections boBounces Phase2Selection.mixedDashboard).1
    = inr (Some (1, 1)) ∧
  length (trace (world (Phase2Selection.handleSendPhase2Selections boBounces
                          Phase2Selection.mixedDashboard).2)) = 3%nat ∧
  success (comp (Phase2Selection.handleSendPhase2Selections boBounces
                   Phase2Selection.mixedDashboard).2)
    = "Successfully sent 1 selection emails, 1 failed".
Proof. repeat split; vm_compute; reflexivity. Qed.

End TeamInvitationExamples.
